(** * AguaConecta: thread bookkeeping, file organisation, translation, migration

    A shallow embedding of the Convex back end and of the translation
    utility, followed by the properties of the specification stated over it.
    The sources, with the names the generated API gives the modules:
    - convex/threads.ts, convex/projectFiles.ts, convex/notifications.ts,
      convex/feedback.ts, convex/schema.ts;
    - convex/messages.ts (src/unnamed/part_012);
    - convex/files.ts (src/unnamed/part_007);
    - convex/projectSetup.ts (src/unnamed/part_010);
    - convex/projects.ts (src/unnamed/part_009);
    - convex/migration.ts (src/unnamed/part_008);
    - src/utils/translation.ts (src/unnamed/part_004).

    Modelling conventions.
    - A JavaScript string is the [string] of its bytes (UTF-8).  [startsWith],
      [endsWith], [===], [includes] and [replace] with a text as needle agree
      with the UTF-16 semantics on such strings: an occurrence of a
      well-formed needle starts and ends at the boundary of a character.
    - A document id is a [nat]; a table is the list of its rows in creation
      order; [ctx.db.insert] appends a row under the next unused id.
    - [v.optional] fields are [option]s; a missing field is [None], which is
      what Convex compares as [undefined].
    - [ctx.db.patch] and [ctx.db.delete] throw on an id with no document;
      handlers run in a state-and-exception monad over the database.
    - Convex freezes the system time for the whole run of a mutation, so each
      handler takes the instant [now] it reads as an argument.
    - Unread counters are JavaScript numbers holding small integers: [Z]. *)

From Stdlib Require Import String Ascii List ZArith Lia Bool Arith.
From Stdlib Require Import DecimalString.
Import ListNotations.
Local Open Scope string_scope.

(** ** JavaScript string primitives *)

Module JsString.

(** [s.startsWith(p)] *)
Definition startsWith (s p : string) : bool := String.prefix p s.

(** [s.includes(sub)]: [sub] occurs at some offset of [s]. *)
Fixpoint includes (s sub : string) : bool :=
  String.prefix sub s ||
  match s with
  | EmptyString => false
  | String _ s' => includes s' sub
  end.

(** The double quote, which a literal of this file cannot hold. *)
Definition dquote : string := String (ascii_of_nat 34) EmptyString.

(** A string is truthy when it is not empty. *)
Definition truthy (s : string) : bool :=
  match s with EmptyString => false | _ => true end.

End JsString.
Import JsString.

(** ** File classification (convex/projectFiles.ts, convex/projectSetup.ts) *)

Inductive Bucket : Type := Images | PDFs | Documents | Other.

(** The [includes] disjunction of the third branch of both classifiers. *)
Definition isDocumentType (fileType : string) : bool :=
  includes fileType "document" ||
  includes fileType "text" ||
  includes fileType "word" ||
  includes fileType "excel" ||
  includes fileType "powerpoint".

(** The if / else-if chain on [fileType] that [getAutoFolderId] and the loop of
    [autoOrganizeProjectFiles] both run: which branch is taken. *)
Definition classifyFile (fileType : string) : Bucket :=
  if startsWith fileType "image/" then Images
  else if String.eqb fileType "application/pdf" then PDFs
  else if isDocumentType fileType then Documents
  else Other.

(** [a || b] on optional ids: an id is truthy, [undefined] is not. *)
Definition orElse {A} (a b : option A) : option A :=
  match a with Some _ => a | None => b end.
Infix "<||>" := orElse (at level 50, left associativity).

(** [folderMap]: the ids recorded under the four canonical names. *)
Record FolderMap : Type := mkFolderMap {
  fm_images : option nat;
  fm_documents : option nat;
  fm_pdfs : option nat;
  fm_other : option nat
}.

(** The return statements of [getAutoFolderId] (projectFiles.ts:206-220);
    [first] is [folders[0]?._id]. *)
Definition autoFolderChoice (folderMap : FolderMap) (first : option nat)
    (fileType : string) : option nat :=
  if startsWith fileType "image/" then
    fm_images folderMap <||> fm_other folderMap <||> first
  else if String.eqb fileType "application/pdf" then
    fm_pdfs folderMap <||> fm_other folderMap <||> first
  else if includes fileType "document" ||
          includes fileType "text" ||
          includes fileType "word" ||
          includes fileType "excel" ||
          includes fileType "powerpoint" then
    fm_documents folderMap <||> fm_other folderMap <||> first
  else
    fm_other folderMap <||> first.

(** The body of the loop of [autoOrganizeProjectFiles] that computes
    [targetFolderId] (projectSetup.ts:111-126). *)
Definition setupFolderChoice (folderMap : FolderMap) (fileType : string)
    : option nat :=
  let targetFolderId := fm_other folderMap in
  if startsWith fileType "image/" then
    fm_images folderMap <||> fm_other folderMap
  else if String.eqb fileType "application/pdf" then
    fm_pdfs folderMap <||> fm_other folderMap
  else if includes fileType "document" ||
          includes fileType "text" ||
          includes fileType "word" ||
          includes fileType "excel" ||
          includes fileType "powerpoint" then
    fm_documents folderMap <||> fm_other folderMap
  else targetFolderId.

(** The folder a bucket stands for in a folder map. *)
Definition bucketFolder (folderMap : FolderMap) (b : Bucket) : option nat :=
  match b with
  | Images => fm_images folderMap <||> fm_other folderMap
  | PDFs => fm_pdfs folderMap <||> fm_other folderMap
  | Documents => fm_documents folderMap <||> fm_other folderMap
  | Other => fm_other folderMap
  end.

(** ** The schema (convex/schema.ts) *)

Definition Id := nat.

Inductive Role : Type := client | developer.

Definition Role_eqb (a b : Role) : bool :=
  match a, b with
  | client, client | developer, developer => true
  | _, _ => false
  end.

Inductive Lang : Type := en | es.

Module ProjectType.
Inductive t : Type := presentation | cards | lead_gen | website | other.
End ProjectType.

Module ProjectStatus.
Inductive t : Type := not_started | in_progress | review | complete | paused.
End ProjectStatus.

Module ProjectPriority.
Inductive t : Type := low | medium | high | urgent.
End ProjectPriority.

Module ThreadStatus.
Inductive t : Type := new | acknowledged | in_progress | resolved | closed.
End ThreadStatus.

Module ThreadPriority.
Inductive t : Type := normal | urgent.
End ThreadPriority.

Module MessageType.
Inductive t : Type := text | system | status_update | file.
Definition eqb (a b : t) : bool :=
  match a, b with
  | text, text | system, system | status_update, status_update
  | file, file => true
  | _, _ => false
  end.
End MessageType.

Module FeedbackCategory.
Inductive t : Type := suggestion | bug | change_request.
End FeedbackCategory.

Module FeedbackStatus.
Inductive t : Type := new | in_progress | completed | released.
End FeedbackStatus.

Module FeedbackPriority.
Inductive t : Type := low | medium | high.
End FeedbackPriority.

Module NotificationType.
Inductive t : Type := telegram | email.
End NotificationType.

Module NotificationStatus.
Inductive t : Type := pending | sent | failed.
End NotificationStatus.

Module Client.
Record t : Type := mk {
  _id : Id;
  name : string;
  email : option string;
  language : Lang;
  tech_level : option Z;
  timezone : option string;
  created_at : string;
  last_active : option string
}.
End Client.

Module Project.
Record t : Type := mk {
  _id : Id;
  client_id : Id;
  name : string;
  type : ProjectType.t;
  status : ProjectStatus.t;
  priority : ProjectPriority.t;
  icon : string;
  color : string;
  description : option string;
  deadline : option string;
  is_archived : option bool;
  created_at : string;
  updated_at : string
}.

(** [ctx.db.patch(id, { updated_at })] on the row. *)
Definition set_updated_at (v : string) (p : t) : t :=
  mk (_id p) (client_id p) (name p) (type p) (status p) (priority p)
     (icon p) (color p) (description p) (deadline p) (is_archived p)
     (created_at p) v.
End Project.

Module Thread.
Record t : Type := mk {
  _id : Id;
  project_id : Id;
  title : string;
  status : ThreadStatus.t;
  priority : ThreadPriority.t;
  created_by : Role;
  last_activity : string;
  unread_count_client : Z;
  unread_count_developer : Z;
  is_archived : option bool;
  created_at : string
}.

(** The fields a handler of this file patches; [None] leaves a field as it
    is. *)
Record patch : Type := mkPatch {
  p_last_activity : option string;
  p_unread_count_client : option Z;
  p_unread_count_developer : option Z;
  p_is_archived : option bool
}.

Definition or_keep {A} (new : option A) (old : A) : A :=
  match new with Some v => v | None => old end.

Definition apply (p : patch) (th : t) : t :=
  mk (_id th) (project_id th) (title th) (status th) (priority th)
     (created_by th)
     (or_keep (p_last_activity p) (last_activity th))
     (or_keep (p_unread_count_client p) (unread_count_client th))
     (or_keep (p_unread_count_developer p) (unread_count_developer th))
     (match p_is_archived p with
      | Some b => Some b
      | None => is_archived th
      end)
     (created_at th).
End Thread.

Module Message.
Record t : Type := mk {
  _id : Id;
  thread_id : Id;
  author : Role;
  content : string;
  message_type : MessageType.t;
  is_private : bool;
  is_edited : bool;
  created_at : string;
  edited_at : option string;
  original_content : option string;
  original_language : option Lang;
  translated_content : option string;
  target_language : option Lang;
  translation_enabled : option bool;
  file_id : option Id;
  file_name : option string;
  file_type : option string;
  file_size : option Z;
  file_url : option string
}.

(** [ctx.db.patch(id, { content, is_edited, edited_at })] on the row. *)
Definition set_edit (c : string) (e : bool) (at_ : string) (m : t) : t :=
  mk (_id m) (thread_id m) (author m) c (message_type m) (is_private m)
     e (created_at m) (Some at_) (original_content m)
     (original_language m) (translated_content m) (target_language m)
     (translation_enabled m) (file_id m) (file_name m) (file_type m)
     (file_size m) (file_url m).
End Message.

Module Folder.
Record t : Type := mk {
  _id : Id;
  project_id : Id;
  name : string;
  parent_folder_id : option Id;
  color : option string;
  icon : option string;
  created_by : Role;
  created_at : string
}.
End Folder.

Module ProjectFile.
Record t : Type := mk {
  _id : Id;
  project_id : Id;
  folder_id : option Id;
  file_id : Id;
  message_id : option Id;
  file_name : string;
  file_type : string;
  file_size : Z;
  file_url : option string;
  tags : list string;
  uploaded_by : Role;
  uploaded_at : string;
  moved_at : option string
}.

(** [ctx.db.patch(id, { folder_id, moved_at })] on the row; a [folder_id] of
    [undefined] removes the field. *)
Definition set_folder (fid : option Id) (at_ : string) (f : t) : t :=
  mk (_id f) (project_id f) fid (file_id f) (message_id f) (file_name f)
     (file_type f) (file_size f) (file_url f) (tags f) (uploaded_by f)
     (uploaded_at f) (Some at_).
End ProjectFile.

Module Feedback.
(** [_creationTime] is kept as the text [_creationTime.toString()] yields,
    the only way the handlers read it. *)
Record t : Type := mk {
  _id : Id;
  _creationTime : string;
  category : FeedbackCategory.t;
  subject : string;
  description : string;
  status : FeedbackStatus.t;
  priority : FeedbackPriority.t;
  developer_notes : option string;
  client_response : option string
}.
End Feedback.

Module LegacyFeedback.
Record t : Type := mk {
  _id : Id;
  category : FeedbackCategory.t;
  subject : string;
  description : string;
  status : FeedbackStatus.t;
  priority : FeedbackPriority.t;
  developer_notes : option string;
  client_response : option string;
  migrated_to_thread : option Id;
  migration_date : option string;
  created_at : string
}.

Definition set_migrated_to_thread (th : Id) (l : t) : t :=
  mk (_id l) (category l) (subject l) (description l) (status l)
     (priority l) (developer_notes l) (client_response l) (Some th)
     (migration_date l) (created_at l).
End LegacyFeedback.

Module Notification.
Record t : Type := mk {
  _id : Id;
  type : NotificationType.t;
  recipient : string;
  message : string;
  thread_id : option Id;
  project_id : option Id;
  sent_at : option string;
  status : NotificationStatus.t;
  created_at : string
}.

(** [patch(id, { status: "sent", sent_at })] *)
Definition set_sent (at_ : string) (n : t) : t :=
  mk (_id n) (type n) (recipient n) (message n) (thread_id n)
     (project_id n) (Some at_) NotificationStatus.sent (created_at n).

(** [patch(id, { status: "failed", message })] *)
Definition set_failed (msg : string) (n : t) : t :=
  mk (_id n) (type n) (recipient n) msg (thread_id n) (project_id n)
     (sent_at n) NotificationStatus.failed (created_at n).
End Notification.

(** ** The database and the handler monad *)

Record DB : Type := mkDB {
  clients : list Client.t;
  projects : list Project.t;
  threads : list Thread.t;
  messages : list Message.t;
  project_folders : list Folder.t;
  project_files : list ProjectFile.t;
  feedback : list Feedback.t;
  legacy_feedback : list LegacyFeedback.t;
  notifications : list Notification.t;
  next_id : Id
}.

Definition with_clients v (d : DB) : DB :=
  mkDB v (projects d) (threads d) (messages d) (project_folders d)
       (project_files d) (feedback d) (legacy_feedback d) (notifications d)
       (next_id d).
Definition with_projects v (d : DB) : DB :=
  mkDB (clients d) v (threads d) (messages d) (project_folders d)
       (project_files d) (feedback d) (legacy_feedback d) (notifications d)
       (next_id d).
Definition with_threads v (d : DB) : DB :=
  mkDB (clients d) (projects d) v (messages d) (project_folders d)
       (project_files d) (feedback d) (legacy_feedback d) (notifications d)
       (next_id d).
Definition with_messages v (d : DB) : DB :=
  mkDB (clients d) (projects d) (threads d) v (project_folders d)
       (project_files d) (feedback d) (legacy_feedback d) (notifications d)
       (next_id d).
Definition with_project_folders v (d : DB) : DB :=
  mkDB (clients d) (projects d) (threads d) (messages d) v
       (project_files d) (feedback d) (legacy_feedback d) (notifications d)
       (next_id d).
Definition with_project_files v (d : DB) : DB :=
  mkDB (clients d) (projects d) (threads d) (messages d) (project_folders d)
       v (feedback d) (legacy_feedback d) (notifications d) (next_id d).
Definition with_legacy_feedback v (d : DB) : DB :=
  mkDB (clients d) (projects d) (threads d) (messages d) (project_folders d)
       (project_files d) (feedback d) v (notifications d) (next_id d).
Definition with_notifications v (d : DB) : DB :=
  mkDB (clients d) (projects d) (threads d) (messages d) (project_folders d)
       (project_files d) (feedback d) (legacy_feedback d) v (next_id d).
Definition with_next_id v (d : DB) : DB :=
  mkDB (clients d) (projects d) (threads d) (messages d) (project_folders d)
       (project_files d) (feedback d) (legacy_feedback d) (notifications d) v.

(** The outcome of running a handler: a value and the database it leaves, or
    an exception, which aborts the transaction. *)
Inductive Res (A : Type) : Type :=
| Ok (a : A) (db : DB)
| Throw (msg : string).
Arguments Ok {A} a db.
Arguments Throw {A} msg.

Definition M (A : Type) : Type := DB -> Res A.

Definition ret {A} (a : A) : M A := fun db => Ok a db.

Definition bind {A B} (m : M A) (k : A -> M B) : M B :=
  fun db => match m db with
            | Ok a db' => k a db'
            | Throw e => Throw e
            end.

Definition throw {A} (msg : string) : M A := fun _ => Throw msg.

(** [try { m } catch (e) { h e }]: what [m] wrote before it threw is rolled
    back when [m] is a nested mutation, and is discarded with the transaction
    when [h] throws again. *)
Definition try_catch {A} (m : M A) (h : string -> M A) : M A :=
  fun db => match m db with
            | Ok a db' => Ok a db'
            | Throw e => h e db
            end.

Definition gets {A} (f : DB -> A) : M A := fun db => Ok (f db) db.

Definition modify (f : DB -> DB) : M unit := fun db => Ok tt (f db).

Declare Scope handler_scope.
Delimit Scope handler_scope with handler.
Notation "x <- m ;; k" := (bind m (fun x => k))
  (at level 61, m at next level, right associativity) : handler_scope.
Notation "m ;;; k" := (bind m (fun _ => k))
  (at level 61, right associativity) : handler_scope.
Local Open Scope handler_scope.

(** [for (const x of xs) { body x }] *)
Fixpoint for_each {A} (xs : list A) (body : A -> M unit) : M unit :=
  match xs with
  | [] => ret tt
  | x :: xs' => body x ;;; for_each xs' body
  end.

(** A [for] loop that threads a local accumulator (a counter). *)
Fixpoint for_fold {A S} (xs : list A) (acc : S) (body : S -> A -> M S)
    : M S :=
  match xs with
  | [] => ret acc
  | x :: xs' => acc' <- body acc x ;; for_fold xs' acc' body
  end.

(** ** Database primitives ([ctx.db]) *)

(** A table of the database: how to read and replace its rows, and the id of
    a row. *)
Record Table (R : Type) : Type := mkTable {
  rows : DB -> list R;
  set_rows : list R -> DB -> DB;
  id_of : R -> Id
}.
Arguments rows {R} _ _.
Arguments set_rows {R} _ _ _.
Arguments id_of {R} _ _.

Definition clientsT : Table Client.t :=
  mkTable _ clients with_clients Client._id.
Definition projectsT : Table Project.t :=
  mkTable _ projects with_projects Project._id.
Definition threadsT : Table Thread.t :=
  mkTable _ threads with_threads Thread._id.
Definition messagesT : Table Message.t :=
  mkTable _ messages with_messages Message._id.
Definition project_foldersT : Table Folder.t :=
  mkTable _ project_folders with_project_folders Folder._id.
Definition project_filesT : Table ProjectFile.t :=
  mkTable _ project_files with_project_files ProjectFile._id.
Definition legacy_feedbackT : Table LegacyFeedback.t :=
  mkTable _ legacy_feedback with_legacy_feedback LegacyFeedback._id.
Definition notificationsT : Table Notification.t :=
  mkTable _ notifications with_notifications Notification._id.

Section TableOps.
Context {R : Type} (T : Table R).

Definition has_id (i : Id) (r : R) : bool := Nat.eqb (id_of T r) i.

(** [ctx.db.get(id)] *)
Definition db_get (i : Id) : M (option R) :=
  gets (fun db => find (has_id i) (rows T db)).

(** [ctx.db.insert(table, row)]: the new row takes the next id and comes
    last in creation order. *)
Definition db_insert (row : Id -> R) : M Id :=
  fun db =>
    let i := next_id db in
    Ok i (with_next_id (S i) (set_rows T (rows T db ++ [row i]) db)).

(** [ctx.db.patch(id, fields)], [f] being the effect of [fields] on a row. *)
Definition db_patch (i : Id) (f : R -> R) : M unit :=
  fun db =>
    match find (has_id i) (rows T db) with
    | Some _ =>
        Ok tt (set_rows T
                 (map (fun r => if has_id i r then f r else r) (rows T db))
                 db)
    | None => Throw "Update on nonexistent document"
    end.

(** [ctx.db.delete(id)] *)
Definition db_delete (i : Id) : M unit :=
  fun db =>
    match find (has_id i) (rows T db) with
    | Some _ =>
        Ok tt (set_rows T
                 (filter (fun r => negb (has_id i r)) (rows T db)) db)
    | None => Throw "Delete on nonexistent document"
    end.

(** [ctx.db.query(table)...filter(p).collect()], in creation order. *)
Definition collect (p : R -> bool) : M (list R) :=
  gets (fun db => filter p (rows T db)).

(** [ctx.db.query(table).filter(p).first()] *)
Definition first (p : R -> bool) : M (option R) :=
  gets (fun db => find p (rows T db)).
End TableOps.

(** [ctx.runMutation(f, args)]: the nested mutation runs on the caller's
    database; what it throws reaches the caller. *)
Definition runMutation {A} (m : M A) : M A := m.

(** [x || d] for an optional argument whose values are all truthy. *)
Definition default {A} (d : A) (x : option A) : A :=
  match x with Some v => v | None => d end.

(** [x || false] and the truth value of an optional boolean. *)
Definition is_true_opt (x : option bool) : bool :=
  match x with Some b => b | None => false end.

(** The truth value of an optional string: present and not empty. *)
Definition truthy_opt (x : option string) : bool :=
  match x with Some s => truthy s | None => false end.

(** [a || b] for an optional string [a] and a string [b]. *)
Definition str_or (a : option string) (b : string) : string :=
  match a with
  | Some s => if truthy s then s else b
  | None => b
  end.

(** [x === r] for an optional role [x]. *)
Definition role_is (r : Role) (x : option Role) : bool :=
  match x with Some r' => Role_eqb r' r | None => false end.

Definition opt_id_eqb (x : option Id) (i : Id) : bool :=
  match x with Some j => Nat.eqb j i | None => false end.

Definition is_none {A} (x : option A) : bool :=
  match x with Some _ => false | None => true end.

(** [q.eq(q.field(f), b)] on an optional boolean field: a missing field is
    [undefined], which equals neither [true] nor [false]. *)
Definition opt_bool_eq (x : option bool) (b : bool) : bool :=
  match x with Some b' => Bool.eqb b' b | None => false end.

Definition newline : string := String (ascii_of_nat 10) EmptyString.

(** ** Notifications (convex/notifications.ts) *)

(** What [fetch] to the Telegram Bot API does. *)
Inductive FetchOutcome : Type :=
| fetch_ok
| fetch_not_ok (error : string)
| fetch_throws (error : string).

(** What a handler reads from outside the database.  [alertText client
    project thread message] is the text the template literal of
    [sendTelegramAlert] builds (notifications.ts:26-49), whose date is the
    locale rendering of the clock; no handler reads a notification's text. *)
Record Env : Type := mkEnv {
  TELEGRAM_CHAT_ID : option string;
  alertText : option Client.t -> Project.t -> Thread.t -> string -> string;
  telegram : FetchOutcome
}.

Definition sendTelegramAlert (env : Env) (now : string)
    (thread_id project_id : Id) (message : string) (author : Role)
    : M (option Id) :=
  if negb (Role_eqb author client) then ret None
  else
    thread <- db_get threadsT thread_id ;;
    project <- db_get projectsT project_id ;;
    match thread, project with
    | Some thread, Some project =>
        client <- db_get clientsT (Project.client_id project) ;;
        let telegramMessage := alertText env client project thread message in
        notificationId <- db_insert notificationsT (fun i =>
          Notification.mk i NotificationType.telegram
            (str_or (TELEGRAM_CHAT_ID env) "") telegramMessage
            (Some thread_id) (Some project_id) None
            NotificationStatus.pending now) ;;
        try_catch
          (match telegram env with
           | fetch_throws error => throw error
           | fetch_ok =>
               db_patch notificationsT notificationId
                 (Notification.set_sent now)
           | fetch_not_ok error =>
               db_patch notificationsT notificationId
                 (Notification.set_failed
                    (telegramMessage ++ newline ++ newline ++ "Error: "
                       ++ error))
           end)
          (fun error =>
             db_patch notificationsT notificationId
               (Notification.set_failed
                  (telegramMessage ++ newline ++ newline ++ "Error: "
                     ++ error))) ;;;
        ret (Some notificationId)
    | _, _ => ret None
    end.

(** ** Messages (convex/messages.ts) *)

Module SendMessageArgs.
Record t : Type := mk {
  thread_id : Id;
  content : string;
  author : Role;
  message_type : option MessageType.t;
  is_private : option bool;
  original_content : option string;
  original_language : option Lang;
  translated_content : option string;
  target_language : option Lang;
  translation_enabled : option bool
}.
End SendMessageArgs.

Definition sendMessage (env : Env) (now : string) (args : SendMessageArgs.t)
    : M Id :=
  let thread_id := SendMessageArgs.thread_id args in
  let author := SendMessageArgs.author args in
  let is_private := SendMessageArgs.is_private args in
  messageId <- db_insert messagesT (fun i =>
    Message.mk i thread_id author (SendMessageArgs.content args)
      (default MessageType.text (SendMessageArgs.message_type args))
      (is_true_opt is_private) false now None
      (SendMessageArgs.original_content args)
      (SendMessageArgs.original_language args)
      (SendMessageArgs.translated_content args)
      (SendMessageArgs.target_language args)
      (SendMessageArgs.translation_enabled args)
      None None None None None) ;;
  thread <- db_get threadsT thread_id ;;
  match thread with
  | Some thread =>
      let newUnreadClient :=
        if Role_eqb author developer && negb (is_true_opt is_private)
        then (Thread.unread_count_client thread + 1)%Z
        else if Role_eqb author client then 0%Z
        else Thread.unread_count_client thread in
      let newUnreadDeveloper :=
        if Role_eqb author client
        then (Thread.unread_count_developer thread + 1)%Z
        else if Role_eqb author developer then 0%Z
        else Thread.unread_count_developer thread in
      db_patch threadsT thread_id
        (Thread.apply
           (Thread.mkPatch (Some now) (Some newUnreadClient)
              (Some newUnreadDeveloper) None)) ;;;
      db_patch projectsT (Thread.project_id thread)
        (Project.set_updated_at now) ;;;
      (if Role_eqb author client && negb (is_true_opt is_private) then
         project <- db_get projectsT (Thread.project_id thread) ;;
         match project with
         | Some project =>
             runMutation
               (sendTelegramAlert env now thread_id (Project._id project)
                  (SendMessageArgs.content args) author) ;;;
             ret tt
         | None => ret tt
         end
       else ret tt)
  | None => ret tt
  end ;;;
  ret messageId.

(** [addDeveloperNote]: the private note of the developer.  The prefix of
    the note is the literal of messages.ts:181. *)
Definition addDeveloperNote (now : string) (thread_id : Id) (note : string)
    : M Id :=
  messageId <- db_insert messagesT (fun i =>
    Message.mk i thread_id developer ("🔒 **Nota privada:** " ++ note)
      MessageType.text true false now None
      None None None None None None None None None None) ;;
  db_patch threadsT thread_id
    (Thread.apply (Thread.mkPatch (Some now) None None None)) ;;;
  ret messageId.

Definition deleteMessage (now : string) (message_id : Id) (deleter : Role)
    : M (option Id) :=
  message <- db_get messagesT message_id ;;
  match message with
  | None => ret None
  | Some message =>
      if negb (Role_eqb (Message.author message) deleter) &&
         negb (Role_eqb deleter developer)
      then throw "No puedes eliminar mensajes de otros usuarios"
      else
        db_patch messagesT message_id
          (Message.set_edit "*Mensaje eliminado*" true now) ;;;
        ret (Some message_id)
  end.

(** ** Threads (convex/threads.ts) *)

Module CreateThreadArgs.
Record t : Type := mk {
  project_id : Id;
  title : string;
  priority : option ThreadPriority.t;
  initial_message : option string;
  created_by : option Role;
  original_content : option string;
  original_language : option Lang;
  translated_content : option string;
  target_language : option Lang;
  translation_enabled : option bool
}.
End CreateThreadArgs.

Definition createThread (env : Env) (now : string) (args : CreateThreadArgs.t)
    : M Id :=
  let created_by := CreateThreadArgs.created_by args in
  threadId <- db_insert threadsT (fun i =>
    Thread.mk i (CreateThreadArgs.project_id args)
      (CreateThreadArgs.title args) ThreadStatus.new
      (default ThreadPriority.normal (CreateThreadArgs.priority args))
      (default client created_by) now
      (if role_is developer created_by then 1%Z else 0%Z)
      (if role_is client created_by then 1%Z else 0%Z)
      None now) ;;
  (if truthy_opt (CreateThreadArgs.initial_message args) then
     runMutation
       (sendMessage env now
          (SendMessageArgs.mk threadId
             (str_or (CreateThreadArgs.translated_content args)
                (default "" (CreateThreadArgs.initial_message args)))
             (default client created_by)
             (Some MessageType.text) (Some false)
             (CreateThreadArgs.original_content args)
             (CreateThreadArgs.original_language args)
             (CreateThreadArgs.translated_content args)
             (CreateThreadArgs.target_language args)
             (CreateThreadArgs.translation_enabled args))) ;;;
     ret tt
   else ret tt) ;;;
  db_patch projectsT (CreateThreadArgs.project_id args)
    (Project.set_updated_at now) ;;;
  ret threadId.

Definition toggleThreadArchive (now : string) (thread_id : Id)
    (archived : bool) : M bool :=
  db_patch threadsT thread_id
    (Thread.apply (Thread.mkPatch (Some now) None None (Some archived))) ;;;
  ret archived.

Definition markThreadAsRead (thread_id : Id) (reader : Role) : M Id :=
  let updates :=
    if Role_eqb reader client
    then Thread.mkPatch None (Some 0%Z) None None
    else Thread.mkPatch None None (Some 0%Z) None in
  db_patch threadsT thread_id (Thread.apply updates) ;;;
  ret thread_id.

(** The counter of a thread that [viewer] reads. *)
Definition unreadCount (viewer : Role) (thread : Thread.t) : Z :=
  if Role_eqb viewer developer
  then Thread.unread_count_developer thread
  else Thread.unread_count_client thread.

(** A query: it reads the database and writes nothing. *)
Definition getTotalUnreadCount (viewer : Role) (db : DB) : Z :=
  let threads :=
    filter (fun t => opt_bool_eq (Thread.is_archived t) false) (threads db) in
  fold_left (fun total thread => (total + unreadCount viewer thread)%Z)
    threads 0%Z.

(** ** Default folders (convex/projectSetup.ts) *)

Module DefaultFolder.
Record t : Type := mk {
  name : string;
  name_es : string;
  icon : string;
  color : string
}.
End DefaultFolder.

Definition defaultFolders : list DefaultFolder.t :=
  [ DefaultFolder.mk "Images" "Imágenes" "🖼️" "#10B981";
    DefaultFolder.mk "Documents" "Documentos" "📄" "#3B82F6";
    DefaultFolder.mk "PDFs" "PDFs" "📑" "#EF4444";
    DefaultFolder.mk "Other" "Otros" "📁" "#6B7280" ].

Module CreatedFolder.
Record t : Type := mk {
  id : Id;
  name : string;
  icon : string;
  color : string
}.
End CreatedFolder.

Module SetupResult.
Record t : Type := mk {
  message : string;
  foldersCreated : nat;
  folders : option (list CreatedFolder.t)
}.
End SetupResult.

Definition folder_of_project (project_id : Id) (f : Folder.t) : bool :=
  Nat.eqb (Folder.project_id f) project_id.

Definition setupDefaultFolders (now : string) (project_id : Id)
    (created_by : Role) : M SetupResult.t :=
  existingFolders <- collect project_foldersT (folder_of_project project_id) ;;
  if Nat.ltb 0 (length existingFolders) then
    ret (SetupResult.mk "Default folders already exist" 0 None)
  else
    createdFolders <- for_fold defaultFolders [] (fun createdFolders folder =>
      folderId <- db_insert project_foldersT (fun i =>
        Folder.mk i project_id (DefaultFolder.name folder) None
          (Some (DefaultFolder.color folder))
          (Some (DefaultFolder.icon folder)) created_by now) ;;
      ret (createdFolders ++
             [CreatedFolder.mk folderId (DefaultFolder.name folder)
                (DefaultFolder.icon folder) (DefaultFolder.color folder)])%list) ;;
    ret (SetupResult.mk "Default folders created successfully"
           (length createdFolders) (Some createdFolders)).

(** ** Project files (convex/projectFiles.ts) *)

(** One step of the [forEach] that fills [folderMap]: a later folder of the
    same name replaces an earlier one. *)
Definition folderMap_add (fm : FolderMap) (folder : Folder.t) : FolderMap :=
  let i := Some (Folder._id folder) in
  if String.eqb (Folder.name folder) "Images" then
    mkFolderMap i (fm_documents fm) (fm_pdfs fm) (fm_other fm)
  else if String.eqb (Folder.name folder) "Documents" then
    mkFolderMap (fm_images fm) i (fm_pdfs fm) (fm_other fm)
  else if String.eqb (Folder.name folder) "PDFs" then
    mkFolderMap (fm_images fm) (fm_documents fm) i (fm_other fm)
  else if String.eqb (Folder.name folder) "Other" then
    mkFolderMap (fm_images fm) (fm_documents fm) (fm_pdfs fm) i
  else fm.

Definition buildFolderMap (folders : list Folder.t) : FolderMap :=
  fold_left folderMap_add folders (mkFolderMap None None None None).

Definition getAutoFolderId (now : string) (projectId : Id)
    (fileType : string) : M (option Id) :=
  try_catch
    (runMutation (setupDefaultFolders now projectId client) ;;; ret tt)
    (fun _ => ret tt) ;;;
  folders <- collect project_foldersT (folder_of_project projectId) ;;
  let folderMap := buildFolderMap folders in
  ret (autoFolderChoice folderMap (option_map Folder._id (hd_error folders))
         fileType).

Module OrganizeResult.
Record t : Type := mk {
  message : string;
  filesOrganized : nat
}.
End OrganizeResult.

(** The files [autoOrganizeFiles] selects: of the project, with no
    [folder_id]. *)
Definition unorganized (project_id : Id) (f : ProjectFile.t) : bool :=
  Nat.eqb (ProjectFile.project_id f) project_id &&
  is_none (ProjectFile.folder_id f).

(** The body of the loop over the unorganized files. *)
Definition autoOrganizeFiles_file (now : string) (project_id : Id)
    (organizedCount : nat) (file : ProjectFile.t) : M nat :=
  targetFolderId <-
    getAutoFolderId now project_id (ProjectFile.file_type file) ;;
  match targetFolderId with
  | Some _ =>
      db_patch project_filesT (ProjectFile._id file)
        (ProjectFile.set_folder targetFolderId now) ;;;
      ret (S organizedCount)
  | None => ret organizedCount
  end.

Definition autoOrganizeFiles (now : string) (project_id : Id)
    : M OrganizeResult.t :=
  unorganizedFiles <- collect project_filesT (unorganized project_id) ;;
  organizedCount <-
    for_fold unorganizedFiles 0 (autoOrganizeFiles_file now project_id) ;;
  ret (OrganizeResult.mk "Files organized successfully" organizedCount).

(** ** Projects (convex/projects.ts) *)

Module DeleteProjectResult.
Record t : Type := mk {
  success : bool;
  deleted_threads : nat
}.
End DeleteProjectResult.

Definition thread_of_project (project_id : Id) (t : Thread.t) : bool :=
  Nat.eqb (Thread.project_id t) project_id.

Definition message_of_thread (thread_id : Id) (m : Message.t) : bool :=
  Nat.eqb (Message.thread_id m) thread_id.

Definition notification_of_thread (thread_id : Id) (n : Notification.t)
    : bool :=
  opt_id_eqb (Notification.thread_id n) thread_id.

Definition notification_of_project (project_id : Id) (n : Notification.t)
    : bool :=
  opt_id_eqb (Notification.project_id n) project_id.

(** The body of the loop over the threads of the project.  The test
    [if (thread._id)] holds of every id. *)
Definition deleteProject_thread (thread : Thread.t) : M unit :=
  messages <- collect messagesT (message_of_thread (Thread._id thread)) ;;
  for_each messages (fun message =>
    db_delete messagesT (Message._id message)) ;;;
  threadNotifications <-
    collect notificationsT (notification_of_thread (Thread._id thread)) ;;
  for_each threadNotifications (fun notification =>
    db_delete notificationsT (Notification._id notification)) ;;;
  db_delete threadsT (Thread._id thread).

Definition deleteProject (project_id : Id) : M DeleteProjectResult.t :=
  try_catch
    (threads <- collect threadsT (thread_of_project project_id) ;;
     for_each threads deleteProject_thread ;;;
     projectNotifications <-
       collect notificationsT (notification_of_project project_id) ;;
     for_each projectNotifications (fun notification =>
       db_delete notificationsT (Notification._id notification)) ;;;
     db_delete projectsT project_id ;;;
     ret (DeleteProjectResult.mk true (length threads)))
    (fun error => throw ("Failed to delete project: " ++ error)).

(** ** Migration (convex/migration.ts) *)

Module MigrationResult.
Record t : Type := mk {
  success : bool;
  message : string;
  client_id : Id;
  main_project_id : option Id;
  migrated_feedback_count : option nat;
  sample_project_ids : option (list Id);
  total_projects : option nat
}.
End MigrationResult.

Module SampleProject.
Record t : Type := mk {
  name : string;
  type : ProjectType.t;
  icon : string;
  color : string;
  description : string
}.
End SampleProject.

Definition sampleProjects : list SampleProject.t :=
  [ SampleProject.mk "Tarjetas Físicas - Rediseño" ProjectType.cards "🃏"
      "#10B981"
      "Rediseño de tarjetas de presentación y materiales físicos para el negocio.";
    SampleProject.mk "Sistema Generador de Leads" ProjectType.lead_gen "🎯"
      "#F59E0B"
      "Implementación de sistema automatizado para captura y gestión de prospectos." ].

(** [args.client_name || "Cliente Principal"] *)
Definition targetClientName (client_name : option string) : string :=
  str_or client_name "Cliente Principal".

Definition client_named (name : string) (c : Client.t) : bool :=
  String.eqb (Client.name c) name.

Definition legacy_with_subject (subject : string) (l : LegacyFeedback.t)
    : bool :=
  String.eqb (LegacyFeedback.subject l) subject.

Definition migrated_status (s : FeedbackStatus.t) : ThreadStatus.t :=
  match s with
  | FeedbackStatus.new => ThreadStatus.new
  | FeedbackStatus.in_progress => ThreadStatus.in_progress
  | FeedbackStatus.completed => ThreadStatus.resolved
  | FeedbackStatus.released => ThreadStatus.closed
  end.

(** The body of the loop over the legacy feedback rows. *)
Definition migrateFeedback_item (now : string) (mainProjectId : Id)
    (migratedCount : nat) (feedback : Feedback.t) : M nat :=
  db_insert legacy_feedbackT (fun i =>
    LegacyFeedback.mk i (Feedback.category feedback)
      (Feedback.subject feedback) (Feedback.description feedback)
      (Feedback.status feedback) (Feedback.priority feedback)
      (Feedback.developer_notes feedback)
      (Feedback.client_response feedback) None (Some now)
      (Feedback._creationTime feedback)) ;;;
  threadId <- db_insert threadsT (fun i =>
    Thread.mk i mainProjectId (Feedback.subject feedback)
      (migrated_status (Feedback.status feedback))
      (match Feedback.priority feedback with
       | FeedbackPriority.high => ThreadPriority.urgent
       | _ => ThreadPriority.normal
       end)
      client now 0%Z
      (match Feedback.status feedback with
       | FeedbackStatus.new => 1%Z
       | _ => 0%Z
       end)
      None (Feedback._creationTime feedback)) ;;
  db_insert messagesT (fun i =>
    Message.mk i threadId client (Feedback.description feedback)
      MessageType.text false false (Feedback._creationTime feedback) None
      None None None None None None None None None None) ;;;
  (if truthy_opt (Feedback.developer_notes feedback) then
     db_insert messagesT (fun i =>
       Message.mk i threadId developer
         ("📝 **Nota del desarrollador:**" ++ newline ++ newline ++
            default "" (Feedback.developer_notes feedback))
         MessageType.text false false (Feedback._creationTime feedback) None
         None None None None None None None None None None) ;;;
     ret tt
   else ret tt) ;;;
  legacyFeedback <-
    first legacy_feedbackT (legacy_with_subject (Feedback.subject feedback)) ;;
  match legacyFeedback with
  | Some legacyFeedback =>
      db_patch legacy_feedbackT (LegacyFeedback._id legacyFeedback)
        (LegacyFeedback.set_migrated_to_thread threadId)
  | None => ret tt
  end ;;;
  ret (S migratedCount).

Definition migrateFeedbackData (now : string) (client_name : option string)
    : M MigrationResult.t :=
  existingClient <-
    first clientsT (client_named (targetClientName client_name)) ;;
  match existingClient with
  | Some existingClient =>
      ret (MigrationResult.mk false "Migration already completed"
             (Client._id existingClient) None None None None)
  | None =>
      clientId <- db_insert clientsT (fun i =>
        Client.mk i (targetClientName client_name)
          (Some "cliente@agualimpia.com") es (Some 3%Z)
          (Some "America/Mexico_City") now (Some now)) ;;
      mainProjectId <- db_insert projectsT (fun i =>
        Project.mk i clientId "Agua Limpia - Presentación"
          ProjectType.presentation ProjectStatus.in_progress
          ProjectPriority.high "💧" "#0EA5E9"
          (Some "Presentación profesional para sistema de tratamiento de agua con PWA offline y funcionalidad completa.")
          None None now now) ;;
      existingFeedback <- gets feedback ;;
      migratedCount <-
        for_fold existingFeedback 0 (migrateFeedback_item now mainProjectId) ;;
      sampleProjectIds <- for_fold sampleProjects [] (fun ids project =>
        projectId <- db_insert projectsT (fun i =>
          Project.mk i clientId (SampleProject.name project)
            (SampleProject.type project) ProjectStatus.not_started
            ProjectPriority.medium (SampleProject.icon project)
            (SampleProject.color project)
            (Some (SampleProject.description project)) None None now now) ;;
        ret (ids ++ [projectId])%list) ;;
      ret (MigrationResult.mk true "Migration completed successfully"
             clientId (Some mainProjectId) (Some migratedCount)
             (Some sampleProjectIds) (Some (length sampleProjects + 1)))
  end.

(** ** Translation (src/utils/translation.ts)

    Case mapping, [trim] and the class [\s] are modelled on ASCII; other
    bytes are kept as they are.  [length] counts UTF-16 code units.  So
    the helpers of [JsText] agree with JavaScript on texts whose letters and
    white space are ASCII, and differ from it on a text with a capital
    letter outside ASCII, which JavaScript maps to its small letter, or
    with a space such as U+00A0, which JavaScript trims and splits at.
    They are read by [fallbackPhraseTranslate] and [detectLanguage] only,
    and the properties below evaluate those on ASCII texts. *)

Module JsText.
Local Open Scope nat_scope.

Definition isUpper (c : ascii) : bool :=
  let n := nat_of_ascii c in (65 <=? n) && (n <=? 90).

Definition isLower (c : ascii) : bool :=
  let n := nat_of_ascii c in (97 <=? n) && (n <=? 122).

Definition isDigit (c : ascii) : bool :=
  let n := nat_of_ascii c in (48 <=? n) && (n <=? 57).

Definition lowerChar (c : ascii) : ascii :=
  if isUpper c then ascii_of_nat (nat_of_ascii c + 32) else c.

Definition upperChar (c : ascii) : ascii :=
  if isLower c then ascii_of_nat (nat_of_ascii c - 32) else c.

(** [\s]: space, tab, line feed, vertical tab, form feed, carriage return. *)
Definition isSpace (c : ascii) : bool :=
  let n := nat_of_ascii c in (n =? 32) || ((9 <=? n) && (n <=? 13)).

(** [\w] *)
Definition isWord (c : ascii) : bool :=
  isUpper c || isLower c || isDigit c || (nat_of_ascii c =? 95).

Fixpoint toLowerCase (s : string) : string :=
  match s with
  | EmptyString => EmptyString
  | String c s' => String (lowerChar c) (toLowerCase s')
  end.

Fixpoint trimStart (s : string) : string :=
  match s with
  | EmptyString => EmptyString
  | String c s' => if isSpace c then trimStart s' else s
  end.

Fixpoint rev_onto (s acc : string) : string :=
  match s with
  | EmptyString => acc
  | String c s' => rev_onto s' (String c acc)
  end.

Definition reverse (s : string) : string := rev_onto s EmptyString.

Definition trim (s : string) : string :=
  reverse (trimStart (reverse (trimStart s))).

(** [s.length]: the UTF-16 code units of the text whose UTF-8 bytes are
    [s]. *)
Fixpoint length (s : string) : nat :=
  match s with
  | EmptyString => 0
  | String c s' =>
      let n := nat_of_ascii c in
      (if n <? 128 then 1
       else if n <? 192 then 0
       else if n <? 240 then 1
       else 2) + length s'
  end.

(** [s.charAt(0).toUpperCase() + s.slice(1)] *)
Definition capitalize (s : string) : string :=
  match s with
  | EmptyString => EmptyString
  | String c s' => String (upperChar c) s'
  end.

(** [s.split(/\s+/)] *)
Fixpoint split_go (cur : string) (afterSpace : bool) (s : string)
    : list string :=
  match s with
  | EmptyString => [reverse cur]
  | String c s' =>
      if isSpace c then
        if afterSpace then split_go cur true s'
        else reverse cur :: split_go EmptyString true s'
      else split_go (String c cur) false s'
  end.

Definition splitSpaces (s : string) : list string :=
  split_go EmptyString false s.

(** [pat] matches a prefix of [s], letters compared without case: what is
    left of [s], and whether the last character matched is a word
    character. *)
Fixpoint matchPrefix (pat s : string) (lastWord : bool)
    : option (string * bool) :=
  match pat with
  | EmptyString => Some (s, lastWord)
  | String p pat' =>
      match s with
      | EmptyString => None
      | String c s' =>
          if Ascii.eqb (lowerChar p) (lowerChar c)
          then matchPrefix pat' s' (isWord c)
          else None
      end
  end.

Definition nextIsWord (s : string) : bool :=
  match s with
  | EmptyString => false
  | String c _ => isWord c
  end.

(** The regular expression [\bpat\b] with flag [i] matches at the head of
    [s], the character before being a word character or not. *)
Definition matchesHere (pat : string) (prevWord : bool) (s : string) : bool :=
  negb (Bool.eqb prevWord (nextIsWord s)) &&
  match matchPrefix pat s prevWord with
  | Some (rest, lastWord) => negb (Bool.eqb lastWord (nextIsWord rest))
  | None => false
  end.

Fixpoint replace_go (pat rep : string) (prevWord : bool) (skip : nat)
    (s : string) : string :=
  match s with
  | EmptyString => EmptyString
  | String c s' =>
      match skip with
      | S k => replace_go pat rep (isWord c) k s'
      | O =>
          if matchesHere pat prevWord s
          then rep ++ replace_go pat rep (isWord c) (String.length pat - 1) s'
          else String c (replace_go pat rep (isWord c) 0 s')
      end
  end.

(** [s.replace(new RegExp("\\b" + escaped(pat) + "\\b", "gi"), rep)] for a
    pattern that is not empty and a replacement without [$]. *)
Definition replaceWord (pat rep s : string) : string :=
  match pat with
  | EmptyString => s
  | _ => replace_go pat rep false 0 s
  end.

(** Stable insertion of [k] into a list sorted by decreasing [length]. *)
Fixpoint insertByLength (k : string) (ks : list string) : list string :=
  match ks with
  | [] => [k]
  | k' :: ks' =>
      if length k' <? length k then k :: ks
      else k' :: insertByLength k ks'
  end.

(** [keys.sort((a, b) => b.length - a.length)], a stable sort. *)
Definition sortByLengthDesc (ks : list string) : list string :=
  fold_left (fun acc k => insertByLength k acc) ks [].

End JsText.

Module Translation.

(** The [sourceLang] parameter: a language, or its default ['auto']. *)
Inductive SourceLang : Type := source (l : Lang) | auto.

Definition Lang_eqb (a b : Lang) : bool :=
  match a, b with en, en | es, es => true | _, _ => false end.

Definition code (l : Lang) : string :=
  match l with en => "en" | es => "es" end.

Definition sourceCode (s : SourceLang) : string :=
  match s with source l => code l | auto => "auto" end.

Record TranslationResult : Type := mkResult {
  originalText : string;
  translatedText : string;
  sourceLanguage : string;
  targetLanguage : string;
  success : bool;
  error : option string
}.

(** [phraseTranslations], each table in the order of its keys; the key
    that the literal repeats keeps its first place. *)
Definition en_to_es : list (string * string) :=
  [ ("hello", "hola"); ("hi", "hola"); ("good morning", "buenos días");
    ("good afternoon", "buenas tardes"); ("good evening", "buenas noches");
    ("goodbye", "adiós"); ("see you later", "hasta luego");
    ("thank you", "gracias"); ("thanks", "gracias");
    ("please", "por favor"); ("you're welcome", "de nada");
    ("excuse me", "disculpe"); ("sorry", "lo siento"); ("yes", "sí");
    ("no", "no"); ("maybe", "tal vez");
    ("how are you", "cómo estás"); ("i am fine", "estoy bien");
    ("what do you think", "qué piensas"); ("let me know", "hazme saber");
    ("no problem", "no hay problema"); ("of course", "por supuesto");
    ("i understand", "entiendo"); ("i don't understand", "no entiendo");
    ("can you help me", "puedes ayudarme"); ("this works", "esto funciona");
    ("it works", "funciona"); ("it doesn't work", "no funciona");
    ("is working", "está funcionando");
    ("the function", "la función"); ("testing", "probando");
    ("test", "prueba"); ("bug", "error"); ("problem", "problema");
    ("issue", "problema"); ("feature", "característica");
    ("update", "actualización"); ("new", "nuevo"); ("old", "viejo");
    ("done", "hecho"); ("finished", "terminado");
    ("working", "trabajando"); ("complete", "completo");
    ("ready", "listo") ].

Definition es_to_en : list (string * string) :=
  [ ("hola", "hello"); ("buenos días", "good morning");
    ("buenas tardes", "good afternoon"); ("buenas noches", "good evening");
    ("adiós", "goodbye"); ("hasta luego", "see you later");
    ("gracias", "thank you"); ("por favor", "please");
    ("de nada", "you're welcome"); ("disculpe", "excuse me");
    ("lo siento", "sorry"); ("sí", "yes"); ("no", "no");
    ("tal vez", "maybe");
    ("cómo estás", "how are you"); ("estoy bien", "i am fine");
    ("qué piensas", "what do you think"); ("hazme saber", "let me know");
    ("no hay problema", "no problem"); ("por supuesto", "of course");
    ("entiendo", "i understand"); ("no entiendo", "i don't understand");
    ("puedes ayudarme", "can you help me"); ("esto funciona", "this works");
    ("funciona", "it works"); ("no funciona", "it doesn't work");
    ("está funcionando", "is working");
    ("la función", "the function"); ("probando", "testing");
    ("prueba", "test"); ("error", "bug"); ("problema", "problem");
    ("característica", "feature"); ("actualización", "update");
    ("nuevo", "new"); ("viejo", "old"); ("hecho", "done");
    ("terminado", "finished"); ("trabajando", "working");
    ("completo", "complete"); ("listo", "ready") ].

(** [phraseTranslations[`${from}_to_${to}`] || {}] *)
Definition phraseTranslations (from to : Lang) : list (string * string) :=
  match from, to with
  | en, es => en_to_es
  | es, en => es_to_en
  | _, _ => []
  end.

(** [phrases[key]] on the keys of the table. *)
Fixpoint lookup (phrases : list (string * string)) (key : string)
    : option string :=
  match phrases with
  | [] => None
  | (k, v) :: rest => if String.eqb k key then Some v else lookup rest key
  end.

Definition spanishWords : list string :=
  [ "el"; "la"; "es"; "en"; "de"; "que"; "y"; "a"; "un"; "se"; "no"; "te";
    "lo"; "le"; "da"; "su"; "por"; "son"; "con"; "para"; "una"; "está";
    "las"; "los"; "del"; "al"; "gracias"; "hola"; "sí"; "problema" ].

Definition englishWords : list string :=
  [ "the"; "of"; "and"; "a"; "to"; "in"; "is"; "you"; "that"; "it"; "he";
    "was"; "for"; "on"; "are"; "as"; "with"; "his"; "they"; "i"; "at";
    "be"; "this"; "have"; "thank"; "hello"; "yes"; "problem" ].

Definition inList (words : list string) (w : string) : bool :=
  existsb (String.eqb w) words.

Definition detectLanguage (text : string) : SourceLang :=
  let words := JsText.splitSpaces (JsText.toLowerCase text) in
  let spanishCount := List.length (filter (inList spanishWords) words) in
  let englishCount := List.length (filter (inList englishWords) words) in
  if Nat.ltb englishCount spanishCount then source es
  else if Nat.ltb spanishCount englishCount then source en
  else auto.

(** The loop over [sortedPhrases]: the text so far and [hasTranslation]. *)
Definition substitute (phrases : list (string * string))
    (state : string * bool) (original : string) : string * bool :=
  let (translatedText, hasTranslation) := state in
  let newText :=
    JsText.replaceWord original (default "" (lookup phrases original))
      translatedText in
  if String.eqb newText translatedText then state else (newText, true).

Definition fallbackPhraseTranslate (text : string) (targetLang : Lang)
    (sourceLang : SourceLang) : TranslationResult :=
  let finalSourceLang :=
    match sourceLang with auto => detectLanguage text | _ => sourceLang end in
  match finalSourceLang with
  | auto =>
      mkResult text text (sourceCode finalSourceLang) (code targetLang)
        true None
  | source from =>
      if Lang_eqb from targetLang then
        mkResult text text (sourceCode finalSourceLang) (code targetLang)
          true None
      else
        let phrases := phraseTranslations from targetLang in
        let translatedText := JsText.trim (JsText.toLowerCase text) in
        match lookup phrases translatedText with
        | Some whole =>
            mkResult text whole (sourceCode finalSourceLang)
              (code targetLang) true None
        | None =>
            let sortedPhrases :=
              JsText.sortByLengthDesc (map fst phrases) in
            let (translatedText', hasTranslation) :=
              fold_left (substitute phrases) sortedPhrases
                (translatedText, false) in
            if hasTranslation then
              mkResult text (JsText.capitalize translatedText')
                (sourceCode finalSourceLang) (code targetLang) true None
            else
              let helpMessage :=
                match targetLang with
                | es => "[Mensaje en inglés: " ++ dquote ++ text ++ dquote
                          ++ "]"
                | en => "[Message in Spanish: " ++ dquote ++ text ++ dquote
                          ++ "]"
                end in
              mkResult text helpMessage (sourceCode finalSourceLang)
                (code targetLang) true None
        end
  end.

(** What an HTTP call does: [fetch] throws (network failure, or the abort
    of the 5 second timer), or a response arrives with its [ok] flag and
    the value [response.json()] yields, [None] when that throws. *)
Inductive Http (D : Type) : Type :=
| http_throws
| http_response (ok : bool) (body : option D).
Arguments http_throws {D}.
Arguments http_response {D} ok body.

(** The body MyMemory answers with; [responseData] is the
    [translatedText] of a truthy [data.responseData]. *)
Record MyMemoryData : Type := mkMyMemory {
  responseStatus : Z;
  responseData : option string
}.

(** The body LibreTranslate answers with; [detectedLanguage] is
    [data.detectedLanguage?.language]. *)
Record LibreData : Type := mkLibre {
  libreTranslatedText : option string;
  detectedLanguage : option string
}.

(** The first [try] block; [None] when it throws. *)
Definition tryMyMemory (r : Http MyMemoryData) (text : string)
    (targetLang : Lang) (sourceLang : SourceLang)
    : option TranslationResult :=
  match r with
  | http_throws => None
  | http_response ok body =>
      if negb ok then None
      else
        match body with
        | None => None
        | Some data =>
            match responseData data with
            | Some translated =>
                if Z.eqb (responseStatus data) 200 then
                  Some (mkResult text translated (sourceCode sourceLang)
                          (code targetLang) true None)
                else None
            | None => None
            end
        end
  end.

(** The second [try] block; [None] when it throws. *)
Definition tryLibreTranslate (r : Http LibreData) (text : string)
    (targetLang : Lang) (sourceLang : SourceLang)
    : option TranslationResult :=
  match r with
  | http_throws => None
  | http_response ok body =>
      if negb ok then None
      else
        match body with
        | None => None
        | Some data =>
            Some (mkResult text (str_or (libreTranslatedText data) text)
                    (str_or (detectedLanguage data)
                       (sourceCode sourceLang))
                    (code targetLang) true None)
        end
  end.

(** The text of the last [catch] block, the same for both targets. *)
Definition cleanMessage (text : string) : string :=
  "💬 " ++ dquote ++ text ++ dquote.

Definition tryRealTranslation (myMemory : Http MyMemoryData)
    (libre : Http LibreData) (text : string) (targetLang : Lang)
    (sourceLang : SourceLang) : TranslationResult :=
  match tryMyMemory myMemory text targetLang sourceLang with
  | Some result => result
  | None =>
      match tryLibreTranslate libre text targetLang sourceLang with
      | Some result => result
      | None =>
          mkResult text (cleanMessage text) (sourceCode sourceLang)
            (code targetLang) true None
      end
  end.

Definition translateText (myMemory : Http MyMemoryData)
    (libre : Http LibreData) (text : string) (targetLang : Lang)
    (sourceLang : SourceLang) : TranslationResult :=
  match sourceLang with
  | source l =>
      if Lang_eqb l targetLang then
        mkResult text text (sourceCode sourceLang) (code targetLang) true
          None
      else tryRealTranslation myMemory libre text targetLang sourceLang
  | auto => tryRealTranslation myMemory libre text targetLang sourceLang
  end.

End Translation.

(** ** Well-formed databases and sample data *)

(** The ids of a table identify its rows. *)
Definition unique_ids {R} (T : Table R) (db : DB) : Prop :=
  NoDup (map (id_of T) (rows T db)).

(** Running handlers one after the other, keeping what each returns. *)
Fixpoint run_all {A} (calls : list (M A)) : M (list A) :=
  match calls with
  | [] => ret []
  | call :: calls' =>
      a <- call ;; rest <- run_all calls' ;; ret (a :: rest)
  end.

(** The four rows [setupDefaultFolders] inserts from id [i] on. *)
Definition fourFolders (now : string) (project_id : Id) (created_by : Role)
    (i : Id) : list Folder.t :=
  [ Folder.mk i project_id "Images" None (Some "#10B981") (Some "🖼️")
      created_by now;
    Folder.mk (1 + i) project_id "Documents" None (Some "#3B82F6")
      (Some "📄") created_by now;
    Folder.mk (2 + i) project_id "PDFs" None (Some "#EF4444") (Some "📑")
      created_by now;
    Folder.mk (3 + i) project_id "Other" None (Some "#6B7280") (Some "📁")
      created_by now ].

Definition fourCreated (i : Id) : list CreatedFolder.t :=
  [ CreatedFolder.mk i "Images" "🖼️" "#10B981";
    CreatedFolder.mk (1 + i) "Documents" "📄" "#3B82F6";
    CreatedFolder.mk (2 + i) "PDFs" "📑" "#EF4444";
    CreatedFolder.mk (3 + i) "Other" "📁" "#6B7280" ].

(** The database once [setupDefaultFolders] has run for a project. *)
Definition ensureFolders (now : string) (project_id : Id) (created_by : Role)
    (db : DB) : DB :=
  if existsb (folder_of_project project_id) (project_folders db) then db
  else
    with_next_id (4 + next_id db)
      (with_project_folders
         (project_folders db ++
            fourFolders now project_id created_by (next_id db))
         db).

(** The folder [getAutoFolderId] yields for a file type once the folders of
    the project are [folders]. *)
Definition targetFolder (folders : list Folder.t) (fileType : string)
    : option Id :=
  autoFolderChoice (buildFolderMap folders)
    (option_map Folder._id (hd_error folders)) fileType.

Module Sample.

Definition env : Env :=
  mkEnv (Some "42") (fun _ _ _ message => message)
    (fetch_throws "fetch failed").

Definition client0 : Client.t :=
  Client.mk 0 "Cliente Principal" (Some "cliente@agualimpia.com") es
    (Some 3%Z) None "t0" None.

Definition project1 : Project.t :=
  Project.mk 1 0 "Agua Limpia" ProjectType.presentation
    ProjectStatus.in_progress ProjectPriority.high "💧" "#0EA5E9" None None
    None "t0" "t0".

(** A thread with two unread messages for the client and three for the
    developer. *)
Definition thread2 : Thread.t :=
  Thread.mk 2 1 "Dudas" ThreadStatus.new ThreadPriority.normal client "t0"
    2%Z 3%Z (Some false) "t0".

Definition message3 : Message.t :=
  Message.mk 3 2 client "Hola" MessageType.text false false "t0" None
    None None None None None None None None None None.

Definition notification4 : Notification.t :=
  Notification.mk 4 NotificationType.telegram "42" "Hola" (Some 2) (Some 1)
    None NotificationStatus.failed "t0".

Definition file5 : ProjectFile.t :=
  ProjectFile.mk 5 1 None 100 (Some 3) "foto.png" "image/png" 2048%Z None
    [] client "t0" None.

Definition file6 : ProjectFile.t :=
  ProjectFile.mk 6 1 None 101 None "plan.pdf" "application/pdf" 4096%Z None
    [] developer "t0" None.

Definition feedback7 : Feedback.t :=
  Feedback.mk 7 "1700000000000" FeedbackCategory.bug "Botón" "No responde"
    FeedbackStatus.new FeedbackPriority.high (Some "Revisado") None.

(** A message of the thread written by [author]. *)
Definition noteOf (author : Role) : Message.t :=
  Message.mk 3 2 author "Listo" MessageType.text false false "t0" None
    None None None None None None None None None None.

(** A project without threads. *)
Definition db_project : DB :=
  mkDB [client0] [project1] [] [] [] [] [] [] [] 2.

(** The project with a thread, a message, a notification and two files
    not yet in a folder. *)
Definition db_thread : DB :=
  mkDB [client0] [project1] [thread2] [message3] [] [file5; file6] [] []
    [notification4] 7.

(** Legacy feedback and no client yet. *)
Definition db_legacy : DB :=
  mkDB [] [] [] [] [] [] [feedback7] [] [] 8.

Definition privateNote (author : Role) : SendMessageArgs.t :=
  SendMessageArgs.mk 2 "Solo para mí" author None (Some true) None None
    None None None.


Definition newThread (created_by : option Role)
    (initial_message : option string) : CreateThreadArgs.t :=
  CreateThreadArgs.mk 1 "Consulta" None initial_message created_by None
    None None None None.

(** The two counters of the thread [i]: the client's, the developer's. *)
Definition counters (i : Id) (r : Res Id) : option (Z * Z) :=
  match r with
  | Ok _ db =>
      option_map
        (fun t => (Thread.unread_count_client t,
                   Thread.unread_count_developer t))
        (find (has_id threadsT i) (threads db))
  | Throw _ => None
  end.

End Sample.

(** ** What the handlers write, in closed form *)

(** [ctx.db.patch(i, fields)] on one row of a table. *)
Definition patching {R} (T : Table R) (i : Id) (f : R -> R) (r : R) : R :=
  if has_id T i r then f r else r.

(** The row [sendMessage] inserts. *)
Definition sentMessage (now : string) (args : SendMessageArgs.t) (i : Id)
    : Message.t :=
  Message.mk i (SendMessageArgs.thread_id args) (SendMessageArgs.author args)
    (SendMessageArgs.content args)
    (default MessageType.text (SendMessageArgs.message_type args))
    (is_true_opt (SendMessageArgs.is_private args)) false now None
    (SendMessageArgs.original_content args)
    (SendMessageArgs.original_language args)
    (SendMessageArgs.translated_content args)
    (SendMessageArgs.target_language args)
    (SendMessageArgs.translation_enabled args)
    None None None None None.

(** The fields [sendMessage] patches on the thread it found. *)
Definition sendMessage_patch (now : string) (args : SendMessageArgs.t)
    (thread : Thread.t) : Thread.patch :=
  let author := SendMessageArgs.author args in
  let is_private := SendMessageArgs.is_private args in
  Thread.mkPatch (Some now)
    (Some (if Role_eqb author developer && negb (is_true_opt is_private)
           then (Thread.unread_count_client thread + 1)%Z
           else if Role_eqb author client then 0%Z
           else Thread.unread_count_client thread))
    (Some (if Role_eqb author client
           then (Thread.unread_count_developer thread + 1)%Z
           else if Role_eqb author developer then 0%Z
           else Thread.unread_count_developer thread))
    None.

(** The role that is not [r]. *)
Definition opposite (r : Role) : Role :=
  match r with client => developer | developer => client end.

(** No row of the table has an id that [ctx.db.insert] is still to hand
    out. *)
Definition ids_below {R} (T : Table R) (db : DB) : Prop :=
  forall r, In r (rows T db) -> id_of T r < next_id db.

(** The row [createThread] inserts. *)
Definition createdThread (now : string) (args : CreateThreadArgs.t) (i : Id)
    : Thread.t :=
  let created_by := CreateThreadArgs.created_by args in
  Thread.mk i (CreateThreadArgs.project_id args)
    (CreateThreadArgs.title args) ThreadStatus.new
    (default ThreadPriority.normal (CreateThreadArgs.priority args))
    (default client created_by) now
    (if role_is developer created_by then 1%Z else 0%Z)
    (if role_is client created_by then 1%Z else 0%Z)
    None now.

(** The sum of the counters [viewer] reads over a list of threads. *)
Definition sumUnread (viewer : Role) (l : list Thread.t) : Z :=
  fold_right (fun thread total => (unreadCount viewer thread + total)%Z) 0%Z l.

(** What [setupDefaultFolders] returns when the project has a folder. *)
Definition alreadySetup : SetupResult.t :=
  SetupResult.mk "Default folders already exist" 0 None.

(** The folders of a project, in creation order. *)
Definition foldersOf (project_id : Id) (db : DB) : list Folder.t :=
  filter (folder_of_project project_id) (project_folders db).

(** What [autoOrganizeFiles] does to one row, the folders of the project
    being [folders]. *)
Definition organize (now : string) (project_id : Id) (folders : list Folder.t)
    (f : ProjectFile.t) : ProjectFile.t :=
  if unorganized project_id f
  then ProjectFile.set_folder (targetFolder folders (ProjectFile.file_type f))
         now f
  else f.

(** The patch of the loop of [autoOrganizeFiles] for the file [file]. *)
Definition organizeStep (now : string) (folders : list Folder.t)
    (files : list ProjectFile.t) (file : ProjectFile.t)
    : list ProjectFile.t :=
  map (patching project_filesT (ProjectFile._id file)
         (ProjectFile.set_folder
            (targetFolder folders (ProjectFile.file_type file)) now))
    files.

(** The text [deleteMessage] leaves in place of the content. *)
Definition deletedMarker : string := "*Mensaje eliminado*".

(** The message [m] after [deleteMessage] at the instant [now]: its content,
    [is_edited] and [edited_at] are rewritten. *)
Definition deletedMessage (now : string) (m : Message.t) : Message.t :=
  Message.mk (Message._id m) (Message.thread_id m) (Message.author m)
    deletedMarker (Message.message_type m) (Message.is_private m) true
    (Message.created_at m) (Some now) (Message.original_content m)
    (Message.original_language m) (Message.translated_content m)
    (Message.target_language m) (Message.translation_enabled m)
    (Message.file_id m) (Message.file_name m) (Message.file_type m)
    (Message.file_size m) (Message.file_url m).

(** The laws of reading and replacing the rows of a table. *)
Definition lawful {R} (T : Table R) : Prop :=
  (forall l db, rows T (set_rows T l db) = l) /\
  (forall l l' db, set_rows T l (set_rows T l' db) = set_rows T l db) /\
  (forall db, set_rows T (rows T db) db = db).

(** The threads of a project, in creation order. *)
Definition threadsOf (project_id : Id) (db : DB) : list Thread.t :=
  filter (thread_of_project project_id) (threads db).

(** The message belongs to one of the threads. *)
Definition message_in (ts : list Thread.t) (m : Message.t) : bool :=
  existsb (fun t => message_of_thread (Thread._id t) m) ts.

(** The notification refers to one of the threads. *)
Definition notification_in (ts : list Thread.t) (n : Notification.t) : bool :=
  existsb (fun t => notification_of_thread (Thread._id t) n) ts.

(** The database [deleteProject] leaves. *)
Definition afterDeleteProject (project_id : Id) (db : DB) : DB :=
  let ts := threadsOf project_id db in
  with_projects
    (filter (fun r => negb (has_id projectsT project_id r)) (projects db))
    (with_notifications
       (filter (fun n => negb (notification_in ts n) &&
                         negb (notification_of_project project_id n))
          (notifications db))
       (with_threads
          (filter (fun t => negb (thread_of_project project_id t))
             (threads db))
          (with_messages
             (filter (fun m => negb (message_in ts m)) (messages db)) db))).

(** The messages the migration writes for one feedback row: its
    description, and the note of the developer when there is one. *)
Definition seedMessages (f : Feedback.t) : nat :=
  if truthy_opt (Feedback.developer_notes f) then 2 else 1.

(** [db'] is [db] after the migration of the feedback rows [fs]: a thread
    and an archived row for each, their messages, and nothing else. *)
Definition migrated (fs : list Feedback.t) (db db' : DB) : Prop :=
  clients db' = clients db /\
  projects db' = projects db /\
  feedback db' = feedback db /\
  length (legacy_feedback db') = length (legacy_feedback db) + length fs /\
  length (threads db') = length (threads db) + length fs /\
  length (messages db') =
    length (messages db) + list_sum (map seedMessages fs).

(** The client the migration creates. *)
Definition migratedClient (now : string) (client_name : option string)
    (i : Id) : Client.t :=
  Client.mk i (targetClientName client_name) (Some "cliente@agualimpia.com")
    es (Some 3%Z) (Some "America/Mexico_City") now (Some now).

(** The fields [markThreadAsRead] patches for a reader. *)
Definition readPatch (reader : Role) : Thread.patch :=
  if Role_eqb reader client
  then Thread.mkPatch None (Some 0%Z) None None
  else Thread.mkPatch None None (Some 0%Z) None.

(** ** More of convex/threads.ts and convex/messages.ts *)

Definition deleteThread (thread_id : Id) : M bool :=
  messages <- collect messagesT (message_of_thread thread_id) ;;
  for_each messages (fun message =>
    db_delete messagesT (Message._id message)) ;;;
  db_delete threadsT thread_id ;;;
  ret true.

(** [ctx.db.patch(id, { status, last_activity })] on a thread. *)
Definition thread_with_status (status : ThreadStatus.t) (now : string)
    (th : Thread.t) : Thread.t :=
  Thread.mk (Thread._id th) (Thread.project_id th) (Thread.title th) status
    (Thread.priority th) (Thread.created_by th) now
    (Thread.unread_count_client th) (Thread.unread_count_developer th)
    (Thread.is_archived th) (Thread.created_at th).

(** The table [statusMessages] of [updateThreadStatus]. *)
Definition statusMessages (status : ThreadStatus.t) : string :=
  match status with
  | ThreadStatus.new => "Nueva conversación iniciada"
  | ThreadStatus.acknowledged => "Conversación vista por el desarrollador"
  | ThreadStatus.in_progress => "Trabajando en esta conversación"
  | ThreadStatus.resolved => "Conversación marcada como resuelta"
  | ThreadStatus.closed => "Conversación cerrada"
  end.

(** The text of the message [updateThreadStatus] inserts. *)
Definition statusSystemMessage (status : ThreadStatus.t)
    (note : option string) : string :=
  if truthy_opt note then
    "📋 **Estado actualizado: " ++ statusMessages status ++ "**" ++ newline
      ++ newline ++ default "" note
  else "📋 **Estado actualizado: " ++ statusMessages status ++ "**".

Definition updateThreadStatus (now : string) (thread_id : Id)
    (status : ThreadStatus.t) (updated_by : Role) (note : option string)
    : M Id :=
  db_patch threadsT thread_id (thread_with_status status now) ;;;
  db_insert messagesT (fun i =>
    Message.mk i thread_id updated_by (statusSystemMessage status note)
      MessageType.status_update false false now None
      None None None None None None None None None None) ;;;
  thread <- db_get threadsT thread_id ;;
  match thread with
  | Some thread =>
      db_patch threadsT thread_id
        (Thread.apply
           (Thread.mkPatch None
              (Some (if Role_eqb updated_by developer
                     then (Thread.unread_count_client thread + 1)%Z
                     else 0%Z))
              (Some (if Role_eqb updated_by client
                     then (Thread.unread_count_developer thread + 1)%Z
                     else 0%Z))
              None))
  | None => ret tt
  end ;;;
  ret thread_id.

(** [getThreadMessages]; [limit] is a count of rows, and the cursor
    [before] is not read by the handler.  A query: it writes nothing. *)
Definition getThreadMessages (thread_id : Id) (include_private : option bool)
    (limit : option nat) (db : DB) : list Message.t :=
  let messagesQuery :=
    rev (filter (message_of_thread thread_id) (messages db)) in
  let messages :=
    match limit with
    | Some (S n) => firstn (S n) messagesQuery
    | _ => messagesQuery
    end in
  let filteredMessages :=
    if is_true_opt include_private then messages
    else filter (fun msg => negb (Message.is_private msg)) messages in
  rev filteredMessages.

Definition editMessage (now : string) (message_id : Id)
    (new_content : string) (editor : Role) : M (option Id) :=
  message <- db_get messagesT message_id ;;
  match message with
  | None => ret None
  | Some message =>
      if negb (Role_eqb (Message.author message) editor)
      then throw "No puedes editar mensajes de otros usuarios"
      else
        db_patch messagesT message_id
          (Message.set_edit new_content true now) ;;;
        db_patch threadsT (Message.thread_id message)
          (Thread.apply (Thread.mkPatch (Some now) None None None)) ;;;
        ret (Some message_id)
  end.

(** ** More of convex/projectFiles.ts, and convex/files.ts *)

(** [ctx.storage.getUrl]: the URL of a stored object, when there is one. *)
Definition Storage : Type := Id -> option string.

(** [x || undefined] on the URL the storage gives. *)
Definition url_or_undefined (x : option string) : option string :=
  match x with
  | Some s => if truthy s then Some s else None
  | None => None
  end.

Definition createFolder (now : string) (project_id : Id) (name : string)
    (parent_folder_id : option Id) (color icon : option string)
    (created_by : Role) : M Id :=
  db_insert project_foldersT (fun i =>
    Folder.mk i project_id name parent_folder_id
      (Some (str_or color "#3B82F6")) (Some (str_or icon "📁"))
      created_by now).

Definition moveFileToFolder (now : string) (file_id : Id)
    (folder_id : option Id) : M bool :=
  db_patch project_filesT file_id (ProjectFile.set_folder folder_id now) ;;;
  ret true.

Module AddFileArgs.
Record t : Type := mk {
  project_id : Id;
  folder_id : option Id;
  file_id : Id;
  message_id : option Id;
  file_name : string;
  file_type : string;
  file_size : Z;
  tags : option (list string);
  uploaded_by : Role
}.
End AddFileArgs.

Definition addFileToProject (storage : Storage) (now : string)
    (args : AddFileArgs.t) : M Id :=
  let file_url := storage (AddFileArgs.file_id args) in
  targetFolderId <-
    match AddFileArgs.folder_id args with
    | Some folder => ret (Some folder)
    | None =>
        getAutoFolderId now (AddFileArgs.project_id args)
          (AddFileArgs.file_type args)
    end ;;
  db_insert project_filesT (fun i =>
    ProjectFile.mk i (AddFileArgs.project_id args) targetFolderId
      (AddFileArgs.file_id args) (AddFileArgs.message_id args)
      (AddFileArgs.file_name args) (AddFileArgs.file_type args)
      (AddFileArgs.file_size args) (url_or_undefined file_url)
      (default [] (AddFileArgs.tags args)) (AddFileArgs.uploaded_by args)
      now None).

(** [ctx.db.patch(id, { tags })] on a file. *)
Definition file_with_tags (tags : list string) (f : ProjectFile.t)
    : ProjectFile.t :=
  ProjectFile.mk (ProjectFile._id f) (ProjectFile.project_id f)
    (ProjectFile.folder_id f) (ProjectFile.file_id f)
    (ProjectFile.message_id f) (ProjectFile.file_name f)
    (ProjectFile.file_type f) (ProjectFile.file_size f)
    (ProjectFile.file_url f) tags (ProjectFile.uploaded_by f)
    (ProjectFile.uploaded_at f) (ProjectFile.moved_at f).

Definition updateFileTags (file_id : Id) (tags : list string) : M bool :=
  db_patch project_filesT file_id (file_with_tags tags) ;;; ret true.

Definition deleteFileFromProject (file_id : Id) : M bool :=
  db_delete project_filesT file_id ;;; ret true.

(** The project file of a message: [withIndex("by_message", ...)]. *)
Definition file_of_message (message_id : Id) (f : ProjectFile.t) : bool :=
  opt_id_eqb (ProjectFile.message_id f) message_id.

(** The messages [syncMessageFilesToProject] reads in a thread. *)
Definition file_message_of (thread_id : Id) (m : Message.t) : bool :=
  message_of_thread thread_id m &&
  MessageType.eqb (Message.message_type m) MessageType.file.

(** The body of the inner loop of [syncMessageFilesToProject].  The row it
    inserts takes [file_name], [file_type] and [file_size] from the message;
    the schema requires them, and the insert of a row without one throws. *)
Definition syncMessageFile (storage : Storage) (project_id : Id)
    (syncedCount : nat) (message : Message.t) : M nat :=
  match Message.file_id message with
  | Some file_id =>
      existingFile <-
        first project_filesT (file_of_message (Message._id message)) ;;
      match existingFile with
      | Some _ => ret syncedCount
      | None =>
          let file_url := storage file_id in
          match Message.file_name message, Message.file_type message,
                Message.file_size message with
          | Some file_name, Some file_type, Some file_size =>
              db_insert project_filesT (fun i =>
                ProjectFile.mk i project_id None file_id
                  (Some (Message._id message)) file_name file_type file_size
                  (url_or_undefined file_url) [] (Message.author message)
                  (Message.created_at message) None) ;;;
              ret (S syncedCount)
          | _, _, _ => throw "Validator error: missing required field"
          end
      end
  | None => ret syncedCount
  end.

(** The body of the outer loop, over the threads of the project. *)
Definition syncThreadFiles (storage : Storage) (project_id : Id)
    (syncedCount : nat) (thread : Thread.t) : M nat :=
  fileMessages <- collect messagesT (file_message_of (Thread._id thread)) ;;
  for_fold fileMessages syncedCount (syncMessageFile storage project_id).

Definition syncMessageFilesToProject (storage : Storage) (project_id : Id)
    : M nat :=
  threads <- collect threadsT (thread_of_project project_id) ;;
  for_fold threads 0 (syncThreadFiles storage project_id).

Module SendFileArgs.
Record t : Type := mk {
  thread_id : Id;
  author : Role;
  file_id : Id;
  file_name : string;
  file_type : string;
  file_size : Z;
  caption : option string
}.
End SendFileArgs.

(** The content of a file message: the name, and the caption if any. *)
Definition fileContent (file_name : string) (caption : option string)
    : string :=
  if truthy_opt caption
  then "📎 " ++ file_name ++ newline ++ default "" caption
  else "📎 " ++ file_name.

Definition sendFileMessage (storage : Storage) (now : string)
    (args : SendFileArgs.t) : M Id :=
  let thread_id := SendFileArgs.thread_id args in
  let author := SendFileArgs.author args in
  let file_url := storage (SendFileArgs.file_id args) in
  let content :=
    fileContent (SendFileArgs.file_name args) (SendFileArgs.caption args) in
  messageId <- db_insert messagesT (fun i =>
    Message.mk i thread_id author content MessageType.file false false now
      None None None None None None
      (Some (SendFileArgs.file_id args)) (Some (SendFileArgs.file_name args))
      (Some (SendFileArgs.file_type args))
      (Some (SendFileArgs.file_size args)) (url_or_undefined file_url)) ;;
  thread <- db_get threadsT thread_id ;;
  match thread with
  | Some thread =>
      let newUnreadClient :=
        if Role_eqb author developer
        then (Thread.unread_count_client thread + 1)%Z
        else 0%Z in
      let newUnreadDeveloper :=
        if Role_eqb author client
        then (Thread.unread_count_developer thread + 1)%Z
        else 0%Z in
      db_patch threadsT thread_id
        (Thread.apply
           (Thread.mkPatch (Some now) (Some newUnreadClient)
              (Some newUnreadDeveloper) None)) ;;;
      db_patch projectsT (Thread.project_id thread)
        (Project.set_updated_at now) ;;;
      try_catch
        (runMutation
           (addFileToProject storage now
              (AddFileArgs.mk (Thread.project_id thread) None
                 (SendFileArgs.file_id args) (Some messageId)
                 (SendFileArgs.file_name args) (SendFileArgs.file_type args)
                 (SendFileArgs.file_size args) None author)) ;;;
         ret tt)
        (fun _ => ret tt)
  | None => ret tt
  end ;;;
  ret messageId.

(** ** More of convex/projectSetup.ts *)

(** The body of the loop of [autoOrganizeProjectFiles]: the file is patched
    and counted whatever [targetFolderId] is. *)
Definition autoOrganizeProjectFiles_file (now : string)
    (folderMap : FolderMap) (organizedCount : nat) (file : ProjectFile.t)
    : M nat :=
  let targetFolderId :=
    setupFolderChoice folderMap (ProjectFile.file_type file) in
  db_patch project_filesT (ProjectFile._id file)
    (ProjectFile.set_folder targetFolderId now) ;;;
  ret (S organizedCount).

Definition autoOrganizeProjectFiles (now : string) (project_id : Id)
    : M OrganizeResult.t :=
  folders <- collect project_foldersT (folder_of_project project_id) ;;
  let folderMap := buildFolderMap folders in
  unorganizedFiles <- collect project_filesT (unorganized project_id) ;;
  organizedCount <-
    for_fold unorganizedFiles 0
      (autoOrganizeProjectFiles_file now folderMap) ;;
  ret (OrganizeResult.mk "Files organized successfully" organizedCount).

Module FileSystemResult.
Record t : Type := mk {
  success : bool;
  foldersCreated : nat;
  filesSynced : nat;
  filesOrganized : nat;
  summary : string
}.
End FileSystemResult.

(** A count as a template literal prints it. *)
Definition showCount (n : nat) : string :=
  NilZero.string_of_uint (Nat.to_uint n).

Definition setupProjectFileSystem (storage : Storage) (now : string)
    (project_id : Id) (created_by : Role) : M FileSystemResult.t :=
  foldersResult <-
    runMutation (setupDefaultFolders now project_id created_by) ;;
  syncResult <-
    runMutation (syncMessageFilesToProject storage project_id) ;;
  organizeResult <- runMutation (autoOrganizeProjectFiles now project_id) ;;
  ret (FileSystemResult.mk true
         (SetupResult.foldersCreated foldersResult) syncResult
         (OrganizeResult.filesOrganized organizeResult)
         ("Created " ++ showCount (SetupResult.foldersCreated foldersResult)
            ++ " folders, synced " ++ showCount syncResult
            ++ " files from conversations, and organized "
            ++ showCount (OrganizeResult.filesOrganized organizeResult)
            ++ " files")).

Module ProjectSetupStatus.
Record t : Type := mk {
  isSetup : bool;
  foldersCount : nat;
  filesCount : nat;
  needsSetup : bool
}.
End ProjectSetupStatus.

Definition file_of_project (project_id : Id) (f : ProjectFile.t) : bool :=
  Nat.eqb (ProjectFile.project_id f) project_id.


(** ** More of convex/projects.ts *)

Module CreateProjectArgs.
Record t : Type := mk {
  client_id : Id;
  name : string;
  type : ProjectType.t;
  icon : string;
  color : string;
  description : option string;
  deadline : option string;
  priority : option ProjectPriority.t
}.
End CreateProjectArgs.

Definition createProject (now : string) (args : CreateProjectArgs.t) : M Id :=
  db_insert projectsT (fun i =>
    Project.mk i (CreateProjectArgs.client_id args)
      (CreateProjectArgs.name args) (CreateProjectArgs.type args)
      ProjectStatus.not_started
      (default ProjectPriority.medium (CreateProjectArgs.priority args))
      (CreateProjectArgs.icon args) (CreateProjectArgs.color args)
      (CreateProjectArgs.description args) (CreateProjectArgs.deadline args)
      None now now).

(** [ctx.db.patch(id, { status, updated_at })] on a project. *)
Definition project_with_status (status : ProjectStatus.t) (now : string)
    (p : Project.t) : Project.t :=
  Project.mk (Project._id p) (Project.client_id p) (Project.name p)
    (Project.type p) status (Project.priority p) (Project.icon p)
    (Project.color p) (Project.description p) (Project.deadline p)
    (Project.is_archived p) (Project.created_at p) now.

(** [ctx.db.patch(id, { is_archived, updated_at })] on a project. *)
Definition project_with_archived (archived : bool) (now : string)
    (p : Project.t) : Project.t :=
  Project.mk (Project._id p) (Project.client_id p) (Project.name p)
    (Project.type p) (Project.status p) (Project.priority p) (Project.icon p)
    (Project.color p) (Project.description p) (Project.deadline p)
    (Some archived) (Project.created_at p) now.

(** [args.status.toUpperCase()] *)
Definition statusUpper (status : ProjectStatus.t) : string :=
  match status with
  | ProjectStatus.not_started => "NOT_STARTED"
  | ProjectStatus.in_progress => "IN_PROGRESS"
  | ProjectStatus.review => "REVIEW"
  | ProjectStatus.complete => "COMPLETE"
  | ProjectStatus.paused => "PAUSED"
  end.

(** [ctx.db.patch(id, { last_activity, unread_count_client })] *)
Definition thread_notified (now : string) (unread_count_client : Z)
    : Thread.t -> Thread.t :=
  Thread.apply (Thread.mkPatch (Some now) (Some unread_count_client) None
                  None).

Definition updateProjectStatus (now : string) (project_id : Id)
    (status : ProjectStatus.t) (developer_note : option string) : M Id :=
  db_patch projectsT project_id (project_with_status status now) ;;;
  (if truthy_opt developer_note then
     threads <- collect threadsT (thread_of_project project_id) ;;
     threadId <-
       match rev threads with
       | latest :: _ => ret (Thread._id latest)
       | [] =>
           db_insert threadsT (fun i =>
             Thread.mk i project_id "Actualizaciones del Proyecto"
               ThreadStatus.new ThreadPriority.normal developer now 1%Z 0%Z
               None now)
       end ;;
     db_insert messagesT (fun i =>
       Message.mk i threadId developer
         ("📊 **Estado del proyecto actualizado: " ++ statusUpper status
            ++ "**" ++ newline ++ newline ++ default "" developer_note)
         MessageType.status_update false false now None
         None None None None None None None None None None) ;;;
     current <- db_get threadsT threadId ;;
     match current with
     | Some current =>
         db_patch threadsT threadId
           (thread_notified now (Thread.unread_count_client current + 1)%Z)
     | None => throw "TypeError: null has no unread_count_client"
     end
   else ret tt) ;;;
  ret project_id.

Definition toggleProjectArchive (now : string) (project_id : Id)
    (archived : bool) : M bool :=
  db_patch projectsT project_id (project_with_archived archived now) ;;;
  ret archived.

(** ** More of convex/migration.ts *)

Module ResetResult.
Record t : Type := mk {
  success : bool;
  deleted_records : nat;
  message : string
}.
End ResetResult.

(** One of the six loops of [resetAllData]: every row is deleted and
    counted. *)
Definition deleteCounting {R} (T : Table R) (items : list R)
    (deletedCount : nat) : M nat :=
  for_fold items deletedCount (fun count item =>
    db_delete T (id_of T item) ;;; ret (S count)).

Definition resetAllData (confirm : string) : M ResetResult.t :=
  if negb (String.eqb confirm "RESET_ALL_DATA")
  then throw "Invalid confirmation"
  else
    clients <- gets clients ;;
    projects <- gets projects ;;
    threads <- gets threads ;;
    messages <- gets messages ;;
    legacyFeedback <- gets legacy_feedback ;;
    notifications <- gets notifications ;;
    deletedCount <- deleteCounting messagesT messages 0 ;;
    deletedCount <- deleteCounting threadsT threads deletedCount ;;
    deletedCount <- deleteCounting projectsT projects deletedCount ;;
    deletedCount <- deleteCounting clientsT clients deletedCount ;;
    deletedCount <-
      deleteCounting legacy_feedbackT legacyFeedback deletedCount ;;
    deletedCount <-
      deleteCounting notificationsT notifications deletedCount ;;
    ret (ResetResult.mk true deletedCount
           "All platform data reset successfully").

(** ** Closed forms for the later sections *)

(** What a thread adds to the total of [getTotalUnreadCount]. *)
Definition counted (viewer : Role) (thread : Thread.t) : Z :=
  if opt_bool_eq (Thread.is_archived thread) false
  then unreadCount viewer thread
  else 0%Z.

(** The messages of a thread that a reader without [include_private]
    sees. *)
Definition visible (include_private : option bool) (m : Message.t) : bool :=
  is_true_opt include_private || negb (Message.is_private m).

(** The last [n] rows of a list. *)
Definition lastn {A} (n : nat) (l : list A) : list A :=
  skipn (length l - n) l.

(** The place of the folder of a bucket among the four default folders, in
    the order [setupDefaultFolders] creates them. *)
Definition bucketIndex (b : Bucket) : nat :=
  match b with
  | Images => 0
  | Documents => 1
  | PDFs => 2
  | Other => 3
  end.

(** The row [addFileToProject] inserts, with the id and the folder it got. *)
Definition addedFile (storage : Storage) (now : string)
    (args : AddFileArgs.t) (i : Id) (folder : option Id) : ProjectFile.t :=
  ProjectFile.mk i (AddFileArgs.project_id args) folder
    (AddFileArgs.file_id args) (AddFileArgs.message_id args)
    (AddFileArgs.file_name args) (AddFileArgs.file_type args)
    (AddFileArgs.file_size args)
    (url_or_undefined (storage (AddFileArgs.file_id args)))
    (default [] (AddFileArgs.tags args)) (AddFileArgs.uploaded_by args)
    now None.

(** The database with one more file. *)
Definition withFile (file : ProjectFile.t) (db : DB) : DB :=
  with_next_id (S (next_id db))
    (with_project_files (project_files db ++ [file]) db).

(** A folder of every id recorded in a folder map is in [folders]. *)
Definition recorded_in (folders : list Folder.t) (fm : FolderMap) : Prop :=
  forall i,
    fm_images fm = Some i \/ fm_documents fm = Some i \/
    fm_pdfs fm = Some i \/ fm_other fm = Some i ->
    exists f, In f folders /\ Folder._id f = i.

(** The row [sendFileMessage] inserts into [messages]. *)
Definition sentFile (storage : Storage) (now : string)
    (args : SendFileArgs.t) (i : Id) : Message.t :=
  Message.mk i (SendFileArgs.thread_id args) (SendFileArgs.author args)
    (fileContent (SendFileArgs.file_name args) (SendFileArgs.caption args))
    MessageType.file false false now None None None None None None
    (Some (SendFileArgs.file_id args)) (Some (SendFileArgs.file_name args))
    (Some (SendFileArgs.file_type args))
    (Some (SendFileArgs.file_size args))
    (url_or_undefined (storage (SendFileArgs.file_id args))).

(** The arguments [sendFileMessage] passes to [addFileToProject]. *)
Definition fileOfMessage (args : SendFileArgs.t) (project_id messageId : Id)
    : AddFileArgs.t :=
  AddFileArgs.mk project_id None (SendFileArgs.file_id args) (Some messageId)
    (SendFileArgs.file_name args) (SendFileArgs.file_type args)
    (SendFileArgs.file_size args) None (SendFileArgs.author args).

(** What [autoOrganizeProjectFiles] does to one row, the folders of the
    project being [folders]: no folder is created, and a bucket without a
    folder gives [undefined]. *)
Definition organizeSetup (now : string) (project_id : Id)
    (folders : list Folder.t) (f : ProjectFile.t) : ProjectFile.t :=
  if unorganized project_id f
  then ProjectFile.set_folder
         (bucketFolder (buildFolderMap folders)
            (classifyFile (ProjectFile.file_type f)))
         now f
  else f.

(** The database once [resetAllData] has run: six tables are empty, and the
    feedback, the folders, the files and the id counter are as they were. *)
Definition emptied (db : DB) : DB :=
  mkDB [] [] [] [] (project_folders db) (project_files db) (feedback db) []
    [] (next_id db).

(** The rows [resetAllData] deletes. *)
Definition platformRecords (db : DB) : nat :=
  length (messages db) + length (threads db) + length (projects db)
  + length (clients db) + length (legacy_feedback db)
  + length (notifications db).

(** The thread [updateProjectStatus] opens in a project without threads. *)
Definition statusThread (now : string) (project_id i : Id) : Thread.t :=
  Thread.mk i project_id "Actualizaciones del Proyecto" ThreadStatus.new
    ThreadPriority.normal developer now 1%Z 0%Z None now.

(** The message [updateProjectStatus] inserts for a note. *)
Definition statusNote (now : string) (status : ProjectStatus.t)
    (developer_note : option string) (threadId i : Id) : Message.t :=
  Message.mk i threadId developer
    ("📊 **Estado del proyecto actualizado: " ++ statusUpper status
       ++ "**" ++ newline ++ newline ++ default "" developer_note)
    MessageType.status_update false false now None
    None None None None None None None None None None.

(** The notification [sendTelegramAlert] inserts, still pending. *)
Definition pendingAlert (env : Env) (now : string) (thread_id project_id : Id)
    (text : string) (i : Id) : Notification.t :=
  Notification.mk i NotificationType.telegram
    (str_or (TELEGRAM_CHAT_ID env) "") text (Some thread_id)
    (Some project_id) None NotificationStatus.pending now.

(** The notification once the call to Telegram is over. *)
Definition settledAlert (env : Env) (now : string) (n : Notification.t)
    : Notification.t :=
  match telegram env with
  | fetch_ok => Notification.set_sent now n
  | fetch_not_ok error | fetch_throws error =>
      Notification.set_failed
        (Notification.message n ++ newline ++ newline ++ "Error: " ++ error)
        n
  end.

(** The database with the files [extra] added, one id each. *)
Definition withFiles (extra : list ProjectFile.t) (db : DB) : DB :=
  with_next_id (next_id db + length extra)
    (with_project_files (project_files db ++ extra) db).

(** A file message has a project file, or no stored file to make one of. *)
Definition covered (m : Message.t) (db : DB) : Prop :=
  Message.file_id m = None \/
  find (file_of_message (Message._id m)) (project_files db) <> None.

(** The file messages carry the fields a project file requires. *)
Definition describesFile (m : Message.t) : Prop :=
  Message.file_id m <> None ->
  Message.file_name m <> None /\ Message.file_type m <> None /\
  Message.file_size m <> None.

(** A file at the root of the project [project_id], made of a message. *)
Definition syncedFile (project_id : Id) (f : ProjectFile.t) : Prop :=
  ProjectFile.project_id f = project_id /\
  ProjectFile.folder_id f = None /\
  ProjectFile.message_id f <> None.

(** ** Statistics of messages (convex/messages.ts) *)

Module MessageStats.
Record t : Type := mk {
  total_messages : nat;
  client_messages : nat;
  developer_messages : nat;
  private_notes : nat;
  avg_response_time_hours : Z;
  most_active_day : string
}.
End MessageStats.

(** [threadIds.has(msg.thread_id)], the set being the ids of [threads]. *)
Definition in_threads (threads : list Thread.t) (msg : Message.t) : bool :=
  existsb (fun t => Nat.eqb (Thread._id t) (Message.thread_id msg)) threads.

(** [getMessageStats]; [cutoffDate] is the ISO text of the clock less the
    time frame, and [notBefore a b] is [a >= b] on strings.  A query. *)
Definition getMessageStats (notBefore : string -> string -> bool)
    (cutoffDate : string) (thread_id project_id : option Id) (db : DB)
    : MessageStats.t :=
  let allMessages :=
    match thread_id with
    | Some thread_id => filter (message_of_thread thread_id) (messages db)
    | None => messages db
    end in
  let filteredMessages :=
    match project_id with
    | Some project_id =>
        let projectThreads :=
          filter (thread_of_project project_id) (threads db) in
        filter (in_threads projectThreads) allMessages
    | None => allMessages
    end in
  let recentMessages :=
    filter (fun msg => notBefore (Message.created_at msg) cutoffDate)
      filteredMessages in
  MessageStats.mk (length recentMessages)
    (length (filter (fun msg => Role_eqb (Message.author msg) client)
               recentMessages))
    (length (filter (fun msg => Role_eqb (Message.author msg) developer)
               recentMessages))
    (length (filter Message.is_private recentMessages))
    0%Z "".

(** ** Retrying notifications (convex/notifications.ts) *)

Module RetryResult.
Record t : Type := mk {
  total_attempted : nat;
  successful : nat;
  failed : Z
}.
End RetryResult.

Definition is_failed (n : Notification.t) : bool :=
  match Notification.status n with
  | NotificationStatus.failed => true
  | _ => false
  end.

(** The body of the loop of [retryFailedNotifications]; [fetch] is what the
    call to Telegram for a notification does. *)
Definition retryOne (fetch : Notification.t -> FetchOutcome) (now : string)
    (successCount : nat) (notification : Notification.t) : M nat :=
  try_catch
    (match fetch notification with
     | fetch_throws error => throw error
     | fetch_ok =>
         db_patch notificationsT (Notification._id notification)
           (Notification.set_sent now) ;;;
         ret (S successCount)
     | fetch_not_ok _ => ret successCount
     end)
    (fun _ => ret successCount).

Definition retryFailedNotifications (fetch : Notification.t -> FetchOutcome)
    (now : string) (notification_id : option Id) : M RetryResult.t :=
  notifications <-
    match notification_id with
    | Some notification_id =>
        notification <- db_get notificationsT notification_id ;;
        ret (match notification with
             | Some notification => [notification]
             | None => []
             end)
    | None => collect notificationsT is_failed
    end ;;
  successCount <- for_fold notifications 0 (retryOne fetch now) ;;
  ret (RetryResult.mk (length notifications) successCount
         (Z.of_nat (length notifications) - Z.of_nat successCount)).

(** Telegram answers ok for the notification. *)
Definition delivered (fetch : Notification.t -> FetchOutcome)
    (n : Notification.t) : bool :=
  match fetch n with fetch_ok => true | _ => false end.

(** What a retry of all failed notifications does to one row. *)
Definition retried (fetch : Notification.t -> FetchOutcome) (now : string)
    (n : Notification.t) : Notification.t :=
  if is_failed n && delivered fetch n then Notification.set_sent now n
  else n.

(** ** The status of the migration (convex/migration.ts) *)

Module MigrationStatus.
Record t : Type := mk {
  clients_count : nat;
  projects_count : nat;
  threads_count : nat;
  messages_count : nat;
  legacy_feedback_count : nat;
  original_feedback_count : nat;
  migration_completed : bool;
  main_client : option Client.t
}.
End MigrationStatus.

(** A query. *)
Definition getMigrationStatus (db : DB) : MigrationStatus.t :=
  MigrationStatus.mk (length (clients db)) (length (projects db))
    (length (threads db)) (length (messages db))
    (length (legacy_feedback db)) (length (feedback db))
    (Nat.ltb 0 (length (clients db)))
    (find (client_named "Cliente Principal") (clients db)
     <||> hd_error (clients db)).

(** ** Feedback (convex/feedback.ts) *)

Definition with_feedback v (d : DB) : DB :=
  mkDB (clients d) (projects d) (threads d) (messages d) (project_folders d)
    (project_files d) v (legacy_feedback d) (notifications d) (next_id d).

Definition feedbackT : Table Feedback.t :=
  mkTable _ feedback with_feedback Feedback._id.

(** [ctx.db.patch(id, { status })] on a feedback row. *)
Definition feedback_with_status (status : FeedbackStatus.t) (f : Feedback.t)
    : Feedback.t :=
  Feedback.mk (Feedback._id f) (Feedback._creationTime f)
    (Feedback.category f) (Feedback.subject f) (Feedback.description f)
    status (Feedback.priority f) (Feedback.developer_notes f)
    (Feedback.client_response f).

Definition is_completed (f : Feedback.t) : bool :=
  match Feedback.status f with
  | FeedbackStatus.completed => true
  | _ => false
  end.

Definition markCompletedAsReleased : M nat :=
  completedFeedback <- collect feedbackT is_completed ;;
  for_each completedFeedback (fun feedback =>
    db_patch feedbackT (Feedback._id feedback)
      (feedback_with_status FeedbackStatus.released)) ;;;
  ret (length completedFeedback).

(** A feedback row after [markCompletedAsReleased]. *)
Definition release (f : Feedback.t) : Feedback.t :=
  if is_completed f then feedback_with_status FeedbackStatus.released f
  else f.

(** ** Cleaning up the welcome threads (convex/migration.ts) *)

(** [s.endsWith(p)]: a suffix of [s] is [p]. *)
Fixpoint endsWith (s p : string) : bool :=
  String.eqb s p ||
  match s with
  | EmptyString => false
  | String _ s' => endsWith s' p
  end.

(** [s.slice(n)] for [n] within the string. *)
Fixpoint dropChars (n : nat) (s : string) : string :=
  match n, s with
  | S n', String _ s' => dropChars n' s'
  | _, _ => s
  end.

(** [s.replace(pattern, replacement)] for a pattern and a replacement that
    are plain texts: the first occurrence only. *)
Fixpoint replaceFirst (pattern replacement s : string) : string :=
  if String.prefix pattern s
  then replacement ++ dropChars (String.length pattern) s
  else match s with
       | EmptyString => EmptyString
       | String c s' => String c (replaceFirst pattern replacement s')
       end.

Module CleanupResult.
Record t : Type := mk {
  success : bool;
  updated_threads : nat;
  deleted_messages : nat
}.
End CleanupResult.

Definition welcomeTitle (title : string) : bool :=
  startsWith title "¡Bienvenido a " && endsWith title "!".

Definition projectNameOf (title : string) : string :=
  replaceFirst "!" "" (replaceFirst "¡Bienvenido a " "" title).

Definition isWelcome (message : Message.t) : bool :=
  includes (Message.content message)
    "¡Hola! Este es tu espacio de comunicación" ||
  includes (Message.content message) "¡Bienvenido al proyecto".

(** [ctx.db.patch(id, { title })] on a thread. *)
Definition thread_with_title (title : string) (th : Thread.t) : Thread.t :=
  Thread.mk (Thread._id th) (Thread.project_id th) title (Thread.status th)
    (Thread.priority th) (Thread.created_by th) (Thread.last_activity th)
    (Thread.unread_count_client th) (Thread.unread_count_developer th)
    (Thread.is_archived th) (Thread.created_at th).

(** The body of the loop over the threads; the two counters are threaded
    through it. *)
Definition cleanupThread (counts : nat * nat) (thread : Thread.t)
    : M (nat * nat) :=
  updatedThreads <-
    (if welcomeTitle (Thread.title thread) then
       let projectName := projectNameOf (Thread.title thread) in
       db_patch threadsT (Thread._id thread)
         (thread_with_title projectName) ;;;
       ret (S (fst counts))
     else ret (fst counts)) ;;
  messages <- collect messagesT (message_of_thread (Thread._id thread)) ;;
  deletedMessages <-
    for_fold messages (snd counts) (fun deletedMessages message =>
      if isWelcome message then
        db_delete messagesT (Message._id message) ;;;
        ret (S deletedMessages)
      else ret deletedMessages) ;;
  ret (updatedThreads, deletedMessages).

Definition cleanupWelcomeMessages : M CleanupResult.t :=
  threads <- gets threads ;;
  counts <- for_fold threads (0, 0) cleanupThread ;;
  ret (CleanupResult.mk true (fst counts) (snd counts)).

(** A thread after the cleanup. *)
Definition cleanTitle (th : Thread.t) : Thread.t :=
  if welcomeTitle (Thread.title th)
  then thread_with_title (projectNameOf (Thread.title th)) th
  else th.

(** What the turn of [thread] in the loop does to a row of [threads]. *)
Definition cleanTitleOf (thread : Thread.t) (row : Thread.t) : Thread.t :=
  if welcomeTitle (Thread.title thread) &&
     has_id threadsT (Thread._id thread) row
  then thread_with_title (projectNameOf (Thread.title thread)) row
  else row.

(** The messages the cleanup deletes: welcome messages of threads among
    [threads]. *)
Definition cleanedUp (threads : list Thread.t) (m : Message.t) : bool :=
  isWelcome m && in_threads threads m.

(** No ['!'] in a text. *)
Fixpoint plain (s : string) : bool :=
  match s with
  | EmptyString => true
  | String c s' => negb (Ascii.eqb c "!"%char) && plain s'
  end.

(** ** Closed forms for the files of conversations *)

(** The row [syncMessageFilesToProject] makes of a file message that
    carries a stored file and its name, type and size, under the id [i]. *)
Definition syncedRow (storage : Storage) (project_id : Id) (m : Message.t)
    (i : Id) : ProjectFile.t :=
  ProjectFile.mk i project_id None (default 0 (Message.file_id m))
    (Some (Message._id m)) (default "" (Message.file_name m))
    (default "" (Message.file_type m)) (default 0%Z (Message.file_size m))
    (url_or_undefined (storage (default 0 (Message.file_id m)))) []
    (Message.author m) (Message.created_at m) None.

(** The rows made of the messages [ms], in their order, from the id [i]
    on. *)
Fixpoint rowsFrom (storage : Storage) (project_id : Id) (i : Id)
    (ms : list Message.t) : list ProjectFile.t :=
  match ms with
  | [] => []
  | m :: ms' =>
      syncedRow storage project_id m i :: rowsFrom storage project_id (S i) ms'
  end.

(** The message has a stored file and no project file points at it. *)
Definition uncovered (db : DB) (m : Message.t) : bool :=
  match Message.file_id m with
  | Some _ =>
      is_none (find (file_of_message (Message._id m)) (project_files db))
  | None => false
  end.

(** The file messages [syncMessageFilesToProject] has to make a file of:
    those of the threads of the project, thread by thread. *)
Definition toSync (project_id : Id) (db : DB) : list Message.t :=
  flat_map
    (fun t =>
       filter (fun m => file_message_of (Thread._id t) m && uncovered db m)
         (messages db))
    (filter (thread_of_project project_id) (threads db)).

Module SampleFiles.

(** A file message of the sample thread. *)
Definition upload : Message.t :=
  sentFile (fun _ => None) "t0"
    (SendFileArgs.mk 2 client 50 "plano.pdf" "application/pdf" 10%Z None) 3.

(** The sample database with that message and no project file of it. *)
Definition db_upload : DB :=
  with_project_files [Sample.file6]
    (with_messages [upload] Sample.db_thread).

(** The sample database with the four default folders of project 1. *)
Definition db_folders : DB := ensureFolders "t0" 1 client Sample.db_thread.

End SampleFiles.

(** * Properties *)

(** ** File classification *)

Lemma autoFolderChoice_bucket (folderMap : FolderMap) (first : option Id)
    (fileType : string) :
  autoFolderChoice folderMap first fileType =
  bucketFolder folderMap (classifyFile fileType) <||> first.
Proof.
  unfold autoFolderChoice, classifyFile, isDocumentType.
  destruct (startsWith fileType "image/"); [reflexivity|].
  destruct (String.eqb fileType "application/pdf"); [reflexivity|].
  destruct (includes fileType "document" || includes fileType "text" ||
            includes fileType "word" || includes fileType "excel" ||
            includes fileType "powerpoint"); reflexivity.
Qed.

Lemma setupFolderChoice_bucket (folderMap : FolderMap) (fileType : string) :
  setupFolderChoice folderMap fileType =
  bucketFolder folderMap (classifyFile fileType).
Proof.
  unfold setupFolderChoice, classifyFile, isDocumentType.
  destruct (startsWith fileType "image/"); [reflexivity|].
  destruct (String.eqb fileType "application/pdf"); [reflexivity|].
  destruct (includes fileType "document" || includes fileType "text" ||
            includes fileType "word" || includes fileType "excel" ||
            includes fileType "powerpoint"); reflexivity.
Qed.

(** C4.  The classification that auto-organisation uses is a total and
    deterministic function of the MIME type: every string has exactly one
    bucket, the same at every application.  The bucket is Images when the
    type starts with [image/]; otherwise PDFs when it equals
    [application/pdf]; otherwise Documents when it contains one of
    [document], [text], [word], [excel], [powerpoint]; otherwise Other.  Both
    classifiers of the code, [getAutoFolderId] and the loop of
    [autoOrganizeProjectFiles], pick the folder of that bucket. *)
Theorem classifyFile_total_deterministic (fileType : string) :
  (exists! b : Bucket, classifyFile fileType = b) /\
  (forall again : string,
     again = fileType -> classifyFile again = classifyFile fileType) /\
  (classifyFile fileType = Images <-> startsWith fileType "image/" = true) /\
  (classifyFile fileType = PDFs <-> fileType = "application/pdf") /\
  (classifyFile fileType = Documents <->
     startsWith fileType "image/" = false /\
     fileType <> "application/pdf" /\
     isDocumentType fileType = true) /\
  (classifyFile fileType = Other <->
     startsWith fileType "image/" = false /\
     fileType <> "application/pdf" /\
     isDocumentType fileType = false) /\
  (forall folderMap first,
     autoFolderChoice folderMap first fileType =
     bucketFolder folderMap (classifyFile fileType) <||> first) /\
  (forall folderMap,
     setupFolderChoice folderMap fileType =
     bucketFolder folderMap (classifyFile fileType)).
Proof.
  split; [exists (classifyFile fileType); split; [reflexivity | auto]|].
  split; [intros again ->; reflexivity|].
  split; [|split; [|split; [|split; [|split]]]];
    try (intros; apply autoFolderChoice_bucket);
    try (intros; apply setupFolderChoice_bucket);
    unfold classifyFile;
    destruct (startsWith fileType "image/") eqn:Himg;
    destruct (isDocumentType fileType) eqn:Hdoc;
    destruct (String.eqb_spec fileType "application/pdf") as [Heq | Hne];
    try (rewrite Heq in Himg; discriminate Himg);
    intuition (try congruence; try discriminate).
Qed.

(** ** Tables *)

Lemma find_has_id_in {R} (T : Table R) (i : Id) (l : list R) :
  (exists r, In r l /\ id_of T r = i) ->
  exists x, find (has_id T i) l = Some x.
Proof.
  intros (r & Hin & Hid).
  destruct (find (has_id T i) l) eqn:E; [eauto|].
  exfalso. apply (find_none _ _ E) in Hin. unfold has_id in Hin.
  rewrite Hid, Nat.eqb_refl in Hin. discriminate.
Qed.

Lemma find_in_id {R} (T : Table R) (i : Id) (l : list R) (x : R) :
  find (has_id T i) l = Some x -> exists r, In r l /\ id_of T r = i.
Proof.
  intros H. apply find_some in H as (Hin & Hid). exists x.
  split; [assumption|].
  unfold has_id in Hid. apply Nat.eqb_eq in Hid. assumption.
Qed.

Lemma find_map_id {R} (T : Table R) (i : Id) (g : R -> R) (l : list R) :
  (forall r, id_of T (g r) = id_of T r) ->
  find (has_id T i) (map g l) = option_map g (find (has_id T i) l).
Proof.
  intros Hg. induction l as [|a l IH]; simpl; [reflexivity|].
  unfold has_id at 1. rewrite Hg. fold (has_id T i a).
  destruct (has_id T i a); [reflexivity | exact IH].
Qed.

Lemma patching_id {R} (T : Table R) (i : Id) (f : R -> R) :
  (forall r, id_of T (f r) = id_of T r) ->
  forall r, id_of T (patching T i f r) = id_of T r.
Proof.
  intros Hf r. unfold patching. destruct (has_id T i r); auto.
Qed.

Lemma find_patching {R} (T : Table R) (i : Id) (f : R -> R) (l : list R)
    (x : R) :
  (forall r, id_of T (f r) = id_of T r) ->
  find (has_id T i) l = Some x ->
  find (has_id T i) (map (patching T i f) l) = Some (f x).
Proof.
  intros Hf Hx.
  rewrite find_map_id by (apply patching_id; assumption).
  rewrite Hx. simpl. apply find_some in Hx as (_ & Hx).
  unfold patching. rewrite Hx. reflexivity.
Qed.

Lemma find_app_fresh {R} (T : Table R) (i : Id) (l : list R) (x : R) :
  (forall r, In r l -> id_of T r <> i) ->
  id_of T x = i ->
  find (has_id T i) (l ++ [x]) = Some x.
Proof.
  intros Hfresh Hx. induction l as [|a l IH]; simpl.
  - unfold has_id. rewrite Hx, Nat.eqb_refl. reflexivity.
  - assert (Ha : has_id T i a = false).
    { unfold has_id. apply Nat.eqb_neq. apply Hfresh. left. reflexivity. }
    rewrite Ha. apply IH. intros r Hr. apply Hfresh. right. assumption.
Qed.

Lemma db_patch_ok {R} (T : Table R) (i : Id) (f : R -> R) (db : DB) :
  (exists r, In r (rows T db) /\ id_of T r = i) ->
  db_patch T i f db = Ok tt (set_rows T (map (patching T i f) (rows T db)) db).
Proof.
  intros H. apply find_has_id_in in H as (x & Hx).
  unfold db_patch. rewrite Hx. reflexivity.
Qed.

(** ** Sending a message *)

(** The alert never throws and writes to the notifications only. *)
Lemma sendTelegramAlert_frame (env : Env) (now : string) (tid pid : Id)
    (msg : string) (author : Role) (db : DB) :
  exists r ns n,
    sendTelegramAlert env now tid pid msg author db =
    Ok r (with_next_id n (with_notifications ns db)).
Proof.
  unfold sendTelegramAlert.
  destruct (negb (Role_eqb author client)).
  { exists None, (notifications db), (next_id db). destruct db; reflexivity. }
  unfold bind, db_get, gets. cbn.
  destruct (find (has_id threadsT tid) (threads db)) as [th|].
  2:{ exists None, (notifications db), (next_id db).
      destruct db; reflexivity. }
  destruct (find (has_id projectsT pid) (projects db)) as [pr|].
  2:{ exists None, (notifications db), (next_id db).
      destruct db; reflexivity. }
  cbn. unfold try_catch.
  set (new := Notification.mk _ _ _ _ _ _ _ _ _).
  assert (Hin : forall d,
             rows notificationsT d = (notifications db ++ [new])%list ->
             exists r, In r (rows notificationsT d) /\
                       id_of notificationsT r = next_id db).
  { intros d ->. exists new.
    split; [apply in_or_app; right; left; reflexivity | reflexivity]. }
  destruct (telegram env); unfold throw;
    rewrite db_patch_ok by (apply Hin; destruct db; reflexivity);
    destruct db; cbn; do 3 eexists; reflexivity.
Qed.

(** On a thread whose project exists, [sendMessage] returns the id of the
    new message and leaves the database below: the message appended, the
    thread and its project patched. *)
Lemma sendMessage_run (env : Env) (now : string) (args : SendMessageArgs.t)
    (db : DB) (th : Thread.t) (pr : Project.t) :
  find (has_id threadsT (SendMessageArgs.thread_id args)) (threads db)
    = Some th ->
  find (has_id projectsT (Thread.project_id th)) (projects db) = Some pr ->
  exists ns n,
    sendMessage env now args db =
    Ok (next_id db)
      (with_next_id n (with_notifications ns
        (with_projects
           (map (patching projectsT (Thread.project_id th)
                   (Project.set_updated_at now)) (projects db))
        (with_threads
           (map (patching threadsT (SendMessageArgs.thread_id args)
                   (Thread.apply (sendMessage_patch now args th)))
              (threads db))
        (with_messages
           (messages db ++ [sentMessage now args (next_id db)]) db))))).
Proof.
  intros Hth Hpr.
  unfold sendMessage.
  unfold bind at 1. unfold db_insert at 1.
  unfold bind at 1. unfold db_get at 1, gets.
  replace (rows threadsT _) with (threads db) by (destruct db; reflexivity).
  rewrite Hth.
  unfold bind at 1. unfold bind at 1.
  rewrite db_patch_ok.
  2:{ replace (rows threadsT _) with (threads db)
        by (destruct db; reflexivity).
      apply (find_in_id threadsT _ _ _ Hth). }
  unfold bind at 1.
  rewrite db_patch_ok.
  2:{ replace (rows projectsT _) with (projects db)
        by (destruct db; reflexivity).
      apply (find_in_id projectsT _ _ _ Hpr). }
  match goal with |- context [set_rows projectsT ?l ?d] =>
    set (db3 := set_rows projectsT l d) end.
  assert (Hpr3 : find (has_id projectsT (Thread.project_id th))
                   (rows projectsT db3)
                 = Some (Project.set_updated_at now pr)).
  { subst db3. destruct db. cbn.
    apply (find_patching projectsT); [reflexivity | exact Hpr]. }
  destruct (Role_eqb (SendMessageArgs.author args) client &&
            negb (is_true_opt (SendMessageArgs.is_private args))).
  - unfold bind, db_get, gets, runMutation, ret. cbv beta.
    rewrite Hpr3.
    destruct (sendTelegramAlert_frame env now
                (SendMessageArgs.thread_id args)
                (Project._id (Project.set_updated_at now pr))
                (SendMessageArgs.content args)
                (SendMessageArgs.author args) db3)
      as (r & ns & n & ->).
    exists ns, n. subst db3. destruct db. reflexivity.
  - unfold ret. exists (notifications db), (S (next_id db)).
    subst db3. destruct db. reflexivity.
Qed.

(** The thread after [sendMessage], and the projects that stay. *)
Lemma sendMessage_thread_after (env : Env) (now : string)
    (args : SendMessageArgs.t) (db : DB) (th : Thread.t) (pr : Project.t) :
  find (has_id threadsT (SendMessageArgs.thread_id args)) (threads db)
    = Some th ->
  find (has_id projectsT (Thread.project_id th)) (projects db) = Some pr ->
  exists db',
    sendMessage env now args db = Ok (next_id db) db' /\
    find (has_id threadsT (SendMessageArgs.thread_id args)) (threads db')
      = Some (Thread.apply (sendMessage_patch now args th) th) /\
    (forall i p, find (has_id projectsT i) (projects db) = Some p ->
                 exists p', find (has_id projectsT i) (projects db') = Some p').
Proof.
  intros Hth Hpr.
  destruct (sendMessage_run env now args db th pr Hth Hpr) as (ns & n & ->).
  eexists. split; [reflexivity|]. destruct db; cbn in *. split.
  - apply (find_patching threadsT); [reflexivity | exact Hth].
  - intros i p Hi.
    rewrite (find_map_id projectsT)
      by (apply patching_id; reflexivity).
    rewrite Hi. simpl. eauto.
Qed.


(** The counters after a private message: the activity is stamped, and the
    counters follow the author as if the message were public, but for the
    client's counter under a note of the developer. *)
Lemma sendMessage_private (env : Env) (now : string)
    (args : SendMessageArgs.t) (db : DB) (th : Thread.t) (pr : Project.t) :
  find (has_id threadsT (SendMessageArgs.thread_id args)) (threads db)
    = Some th ->
  find (has_id projectsT (Thread.project_id th)) (projects db) = Some pr ->
  is_true_opt (SendMessageArgs.is_private args) = true ->
  exists db' th',
    sendMessage env now args db = Ok (next_id db) db' /\
    find (has_id threadsT (SendMessageArgs.thread_id args)) (threads db')
      = Some th' /\
    Thread.last_activity th' = now /\
    match SendMessageArgs.author args with
    | developer =>
        Thread.unread_count_client th' = Thread.unread_count_client th /\
        Thread.unread_count_developer th' = 0%Z
    | client =>
        Thread.unread_count_client th' = 0%Z /\
        Thread.unread_count_developer th' =
          (Thread.unread_count_developer th + 1)%Z
    end.
Proof.
  intros Hth Hpr Hpriv.
  destruct (sendMessage_thread_after env now args db th pr Hth Hpr)
    as (db' & Hrun & Hfind & _).
  exists db'. eexists. split; [exact Hrun|]. split; [exact Hfind|].
  unfold sendMessage_patch. rewrite Hpriv.
  destruct (SendMessageArgs.author args); cbn; auto.
Qed.


(** C1 (the code departs from it).  On a thread whose counters are 2 for the
    client and 3 for the developer, a private message sent by the developer
    through [sendMessage] resets the developer's counter to 0, and a private
    message sent by the client resets the client's counter and raises the
    developer's to 4, where the claim leaves both counters as they are;
    [addDeveloperNote], the other path for a private note, does leave
    them. *)
Theorem sendMessage_private_touches_counters :
  Sample.counters 2 (Ok 0 Sample.db_thread) = Some (2%Z, 3%Z) /\
  Sample.counters 2
    (sendMessage Sample.env "t1" (Sample.privateNote developer)
       Sample.db_thread) = Some (2%Z, 0%Z) /\
  Sample.counters 2
    (sendMessage Sample.env "t1" (Sample.privateNote client)
       Sample.db_thread) = Some (0%Z, 4%Z) /\
  Sample.counters 2
    (addDeveloperNote "t1" 2 "Solo para mí" Sample.db_thread)
    = Some (2%Z, 3%Z).
Proof. repeat split; vm_compute; reflexivity. Qed.

(** ** Creating a thread *)

(** X2.  On an existing project, the thread [createThread] makes has no
    [is_archived] field; its creator's counter is 0; the other counter
    counts one for a [created_by] that was given and one more for an initial
    message. *)
Lemma createThread_counters (env : Env) (now : string)
    (args : CreateThreadArgs.t) (db : DB) (pr : Project.t) :
  find (has_id projectsT (CreateThreadArgs.project_id args)) (projects db)
    = Some pr ->
  ids_below threadsT db ->
  let creator := default client (CreateThreadArgs.created_by args) in
  exists db' th,
    createThread env now args db = Ok (next_id db) db' /\
    find (has_id threadsT (next_id db)) (threads db') = Some th /\
    Thread.is_archived th = None /\
    unreadCount creator th = 0%Z /\
    unreadCount (opposite creator) th =
      ((if is_none (CreateThreadArgs.created_by args) then 0 else 1) +
       (if truthy_opt (CreateThreadArgs.initial_message args) then 1 else 0))%Z.
Proof.
  intros Hpr Hbelow creator.
  assert (Hfresh : find (has_id threadsT (next_id db))
            (threads db ++ [createdThread now args (next_id db)])
          = Some (createdThread now args (next_id db))).
  { apply (find_app_fresh threadsT); [|reflexivity].
    intros r Hr. apply Hbelow in Hr. lia. }
  unfold createThread.
  unfold bind at 1. unfold db_insert at 1.
  fold (createdThread now args (next_id db)).
  set (db1 := with_next_id _ _).
  assert (Hth1 : find (has_id threadsT (next_id db)) (threads db1)
                 = Some (createdThread now args (next_id db))).
  { subst db1. destruct db. exact Hfresh. }
  assert (Hpr1 : find (has_id projectsT (CreateThreadArgs.project_id args))
                   (projects db1) = Some pr).
  { subst db1. destruct db. exact Hpr. }
  destruct (truthy_opt (CreateThreadArgs.initial_message args)).
  - unfold bind at 1. unfold bind at 1. unfold runMutation.
    set (margs := SendMessageArgs.mk _ _ _ _ _ _ _ _ _ _).
    destruct (sendMessage_thread_after env now margs db1
                (createdThread now args (next_id db)) pr Hth1 Hpr1)
      as (db2 & -> & Hth2 & Hkeep).
    unfold ret at 1. unfold bind at 1.
    destruct (Hkeep _ _ Hpr1) as (p2 & Hp2).
    rewrite db_patch_ok by (apply (find_in_id projectsT _ _ _ Hp2)).
    unfold ret. eexists. eexists. split; [reflexivity|].
    split. { destruct db2; cbn in *. exact Hth2. }
    subst margs creator. unfold sendMessage_patch, createdThread. cbn.
    destruct (CreateThreadArgs.created_by args) as [[|]|]; cbn; auto.
  - unfold ret at 1. unfold bind at 1. unfold bind at 1.
    rewrite db_patch_ok by (apply (find_in_id projectsT _ _ _ Hpr1)).
    unfold ret. eexists. eexists. split; [reflexivity|].
    split. { destruct db1; cbn in *. exact Hth1. }
    subst creator. unfold createdThread. cbn.
    destruct (CreateThreadArgs.created_by args) as [[|]|]; cbn; auto.
Qed.

Lemma createThread_counters_witness :
  exists db' th,
    createThread Sample.env "t1"
      (Sample.newThread (Some developer) (Some "Hola")) Sample.db_project
      = Ok 2 db' /\
    find (has_id threadsT 2) (threads db') = Some th /\
    Thread.is_archived th = None /\
    Thread.unread_count_developer th = 0%Z /\
    Thread.unread_count_client th = 2%Z.
Proof.
  assert (Hbelow : ids_below threadsT Sample.db_project).
  { intros r Hr. destruct Hr. }
  destruct (createThread_counters Sample.env "t1"
              (Sample.newThread (Some developer) (Some "Hola"))
              Sample.db_project Sample.project1 eq_refl Hbelow)
    as (db' & th & Hrun & Hfind & Harch & Hown & Hother).
  exists db', th. repeat split; assumption.
Defined.

(** C3 (the code departs from it).  With [created_by] given, the thread is
    inserted with the other role's counter at 1 whether or not there is an
    initial message, and [sendMessage] then counts the initial message once
    more: the other counter ends at 2 with an initial message and at 1
    without, where the claim has 1 and 0.  The creator's counter is 0. *)
Theorem createThread_counts_initial_message_twice :
  Sample.counters 2
    (createThread Sample.env "t1"
       (Sample.newThread (Some client) (Some "Hola")) Sample.db_project)
    = Some (0%Z, 2%Z) /\
  Sample.counters 2
    (createThread Sample.env "t1"
       (Sample.newThread (Some developer) (Some "Hola")) Sample.db_project)
    = Some (2%Z, 0%Z) /\
  Sample.counters 2
    (createThread Sample.env "t1"
       (Sample.newThread (Some client) None) Sample.db_project)
    = Some (0%Z, 1%Z) /\
  Sample.counters 2
    (createThread Sample.env "t1"
       (Sample.newThread (Some developer) None) Sample.db_project)
    = Some (1%Z, 0%Z).
Proof. repeat split; vm_compute; reflexivity. Qed.

(** ** Marking a thread as read *)

(** X3.  [markThreadAsRead] zeroes the reader's counter of the thread,
    leaves the other counter, and a second call changes nothing. *)
Lemma markThreadAsRead_resets (thread_id : Id) (reader : Role) (db : DB)
    (th : Thread.t) :
  find (has_id threadsT thread_id) (threads db) = Some th ->
  exists db' th',
    markThreadAsRead thread_id reader db = Ok thread_id db' /\
    find (has_id threadsT thread_id) (threads db') = Some th' /\
    unreadCount reader th' = 0%Z /\
    unreadCount (opposite reader) th' = unreadCount (opposite reader) th /\
    markThreadAsRead thread_id reader db' = Ok thread_id db'.
Proof.
  intros Hth.
  assert (Hrun : forall d t,
            find (has_id threadsT thread_id) (threads d) = Some t ->
            markThreadAsRead thread_id reader d =
            Ok thread_id
              (with_threads
                 (map (patching threadsT thread_id
                         (Thread.apply (readPatch reader))) (threads d)) d)).
  { intros d t Ht. unfold markThreadAsRead, bind.
    rewrite db_patch_ok by (apply (find_in_id threadsT _ _ _ Ht)).
    reflexivity. }
  rewrite (Hrun db th Hth).
  set (db' := with_threads _ db).
  assert (Hth' : find (has_id threadsT thread_id) (threads db')
                 = Some (Thread.apply (readPatch reader) th)).
  { subst db'. destruct db. cbn.
    apply (find_patching threadsT); [reflexivity | exact Hth]. }
  exists db'. eexists. split; [reflexivity|]. split; [exact Hth'|].
  split; [destruct reader; reflexivity|].
  split; [destruct reader; reflexivity|].
  rewrite (Hrun db' _ Hth').
  assert (Hmap : forall l,
            map (patching threadsT thread_id
                   (Thread.apply (readPatch reader)))
              (map (patching threadsT thread_id
                      (Thread.apply (readPatch reader))) l) =
            map (patching threadsT thread_id
                   (Thread.apply (readPatch reader))) l).
  { intros l. rewrite map_map. apply map_ext. intros r. unfold patching.
    destruct (has_id threadsT thread_id r) eqn:E; [|rewrite E; reflexivity].
    replace (has_id threadsT thread_id (Thread.apply (readPatch reader) r))
      with true by (symmetry; exact E).
    destruct reader, r; reflexivity. }
  subst db'. destruct db. cbn. rewrite Hmap. reflexivity.
Qed.

Lemma markThreadAsRead_resets_witness :
  exists db' th',
    markThreadAsRead 2 developer Sample.db_thread = Ok 2 db' /\
    find (has_id threadsT 2) (threads db') = Some th' /\
    Thread.unread_count_developer th' = 0%Z /\
    Thread.unread_count_client th' = 2%Z.
Proof.
  destruct (markThreadAsRead_resets 2 developer Sample.db_thread
              Sample.thread2 eq_refl)
    as (db' & th' & Hrun & Hfind & Hown & Hother & _).
  exists db', th'. repeat split; assumption.
Defined.

(** ** The unread total *)

Lemma fold_left_unread (viewer : Role) (l : list Thread.t) (start : Z) :
  fold_left (fun total thread => (total + unreadCount viewer thread)%Z)
    l start = (start + sumUnread viewer l)%Z.
Proof.
  revert start. induction l as [|t l IH]; intros start; simpl.
  - lia.
  - rewrite IH. lia.
Qed.

(** The total is the sum over the threads whose [is_archived] is [false];
    a thread on which the field was never set is not among them. *)
Lemma getTotalUnreadCount_sum (viewer : Role) (db : DB) :
  getTotalUnreadCount viewer db =
  sumUnread viewer
    (filter (fun t => opt_bool_eq (Thread.is_archived t) false) (threads db)).
Proof.
  unfold getTotalUnreadCount. rewrite fold_left_unread. lia.
Qed.

Lemma getTotalUnreadCount_unset (viewer : Role) (db : DB)
    (before after : list Thread.t) (t : Thread.t) :
  Thread.is_archived t = None ->
  getTotalUnreadCount viewer (with_threads (before ++ t :: after) db) =
  getTotalUnreadCount viewer (with_threads (before ++ after) db).
Proof.
  intros Hunset. rewrite !getTotalUnreadCount_sum. destruct db; cbn.
  rewrite !filter_app. cbn. rewrite Hunset. reflexivity.
Qed.

(** C2 (the code departs from it).  A thread fresh from [createThread] has
    no [is_archived] field, and the filter [is_archived == false] of
    [getTotalUnreadCount] leaves it out: the developer has 2 unread in the
    only thread, which was never archived, and the total is 0; once the
    thread has been un-archived explicitly the total is 2. *)
Theorem getTotalUnreadCount_skips_fresh_thread :
  exists db' th,
    createThread Sample.env "t1"
      (Sample.newThread (Some client) (Some "Hola")) Sample.db_project
      = Ok 2 db' /\
    threads db' = [th] /\
    Thread.is_archived th = None /\
    unreadCount developer th = 2%Z /\
    getTotalUnreadCount developer db' = 0%Z /\
    exists db'',
      toggleThreadArchive "t2" 2 false db' = Ok false db'' /\
      getTotalUnreadCount developer db'' = 2%Z.
Proof.
  eexists. eexists. split; [vm_compute; reflexivity|].
  split; [reflexivity|].
  repeat split. eexists. split; vm_compute; reflexivity.
Qed.

(** ** Default folders *)

Lemma length_filter_pos {A} (p : A -> bool) (l : list A) :
  Nat.ltb 0 (length (filter p l)) = existsb p l.
Proof.
  induction l as [|a l IH]; simpl; [reflexivity|].
  destruct (p a); simpl; [reflexivity | exact IH].
Qed.

(** One call, in closed form. *)
Lemma setupDefaultFolders_run (now : string) (project_id : Id)
    (created_by : Role) (db : DB) :
  setupDefaultFolders now project_id created_by db =
  if existsb (folder_of_project project_id) (project_folders db)
  then Ok alreadySetup db
  else Ok (SetupResult.mk "Default folders created successfully" 4
             (Some (fourCreated (next_id db))))
          (ensureFolders now project_id created_by db).
Proof.
  unfold setupDefaultFolders, ensureFolders.
  unfold bind at 1. unfold collect, gets.
  change (rows project_foldersT db) with (project_folders db).
  rewrite length_filter_pos.
  destruct (existsb (folder_of_project project_id) (project_folders db)).
  - reflexivity.
  - destruct db. cbn. rewrite <- !app_assoc. reflexivity.
Qed.

Lemma ensureFolders_exists (now : string) (project_id : Id)
    (created_by : Role) (db : DB) :
  existsb (folder_of_project project_id)
    (project_folders (ensureFolders now project_id created_by db)) = true.
Proof.
  unfold ensureFolders.
  destruct (existsb (folder_of_project project_id) (project_folders db))
    eqn:E; [exact E|].
  destruct db. cbn. rewrite existsb_app. cbn.
  unfold folder_of_project. cbn. rewrite Nat.eqb_refl.
  apply orb_true_r.
Qed.

Lemma setupDefaultFolders_again (project_id : Id) (db : DB)
    (later : list (string * Role)) :
  existsb (folder_of_project project_id) (project_folders db) = true ->
  run_all
    (map (fun call => setupDefaultFolders (fst call) project_id (snd call))
       later) db =
  Ok (map (fun _ => alreadySetup) later) db.
Proof.
  intros Hex. induction later as [|call later IH]; simpl; [reflexivity|].
  unfold bind at 1. rewrite setupDefaultFolders_run, Hex.
  unfold bind at 1. rewrite IH. reflexivity.
Qed.

(** C5.  [setupDefaultFolders] is idempotent.  When the project has a folder
    the call inserts nothing, leaves the database as it is and reports zero
    folders created; otherwise it appends exactly four folders, named Images,
    Documents, PDFs and Other, and reports four.  Whatever the first call
    did, every call that follows it, with any clock and any role, reports zero
    and leaves the database as the first call left it. *)
Theorem setupDefaultFolders_idempotent (now : string) (project_id : Id)
    (created_by : Role) (db : DB) :
  setupDefaultFolders now project_id created_by db =
    (if existsb (folder_of_project project_id) (project_folders db)
     then Ok alreadySetup db
     else Ok (SetupResult.mk "Default folders created successfully" 4
                (Some (fourCreated (next_id db))))
             (with_next_id (4 + next_id db)
                (with_project_folders
                   (project_folders db ++
                      fourFolders now project_id created_by (next_id db))
                   db))) /\
  SetupResult.foldersCreated alreadySetup = 0 /\
  map Folder.name (fourFolders now project_id created_by (next_id db)) =
    ["Images"; "Documents"; "PDFs"; "Other"] /\
  forall later : list (string * Role),
    exists first db1,
      setupDefaultFolders now project_id created_by db = Ok first db1 /\
      run_all
        (setupDefaultFolders now project_id created_by ::
         map (fun call => setupDefaultFolders (fst call) project_id (snd call))
           later) db =
      Ok (first :: map (fun _ => alreadySetup) later) db1.
Proof.
  split.
  { rewrite setupDefaultFolders_run. unfold ensureFolders.
    destruct (existsb _ _); reflexivity. }
  split; [reflexivity|]. split; [reflexivity|].
  intros later.
  pose proof (ensureFolders_exists now project_id created_by db) as Hex.
  simpl. unfold bind at 1. rewrite setupDefaultFolders_run.
  unfold ensureFolders in *.
  destruct (existsb (folder_of_project project_id) (project_folders db)).
  - do 2 eexists. split; [reflexivity|].
    unfold bind. rewrite setupDefaultFolders_again by exact Hex. reflexivity.
  - do 2 eexists. split; [reflexivity|].
    unfold bind. rewrite setupDefaultFolders_again by exact Hex. reflexivity.
Qed.

(** ** Organising files *)

Lemma orElse_some {A} (a : option A) (x : A) : exists y, a <||> Some x = Some y.
Proof. destruct a; simpl; eauto. Qed.

Lemma targetFolder_some (folders : list Folder.t) (fileType : string) :
  folders <> [] -> exists i, targetFolder folders fileType = Some i.
Proof.
  intros Hne. destruct folders as [|f folders]; [congruence|].
  unfold targetFolder. rewrite autoFolderChoice_bucket. simpl.
  apply orElse_some.
Qed.

Lemma existsb_filter_nonempty {A} (p : A -> bool) (l : list A) :
  existsb p l = true -> filter p l <> [].
Proof.
  induction l as [|a l IH]; simpl; [discriminate|].
  destruct (p a); simpl; [discriminate | exact IH].
Qed.

Lemma ensureFolders_settled (now : string) (project_id : Id)
    (created_by : Role) (db : DB) :
  existsb (folder_of_project project_id) (project_folders db) = true ->
  ensureFolders now project_id created_by db = db.
Proof. intros H. unfold ensureFolders. rewrite H. reflexivity. Qed.

(** [getAutoFolderId] first makes sure of the folders, then picks among
    them. *)
Lemma getAutoFolderId_run (now : string) (projectId : Id)
    (fileType : string) (db : DB) :
  getAutoFolderId now projectId fileType db =
  Ok (targetFolder
        (foldersOf projectId (ensureFolders now projectId client db))
        fileType)
     (ensureFolders now projectId client db).
Proof.
  unfold getAutoFolderId.
  unfold bind at 1. unfold try_catch, runMutation. unfold bind at 1.
  rewrite setupDefaultFolders_run.
  unfold ensureFolders.
  destruct (existsb (folder_of_project projectId) (project_folders db));
    reflexivity.
Qed.

(** The loop of [autoOrganizeFiles] on a project that has folders. *)
Lemma organize_loop_settled (now : string) (project_id : Id)
    (l : list ProjectFile.t) :
  forall (count : nat) (db : DB),
    existsb (folder_of_project project_id) (project_folders db) = true ->
    (forall f, In f l ->
       exists r, In r (project_files db) /\
                 ProjectFile._id r = ProjectFile._id f) ->
    for_fold l count (autoOrganizeFiles_file now project_id) db =
    Ok (length l + count)
       (with_project_files
          (fold_left (organizeStep now (foldersOf project_id db)) l
             (project_files db))
          db).
Proof.
  induction l as [|f l IH]; intros count db Hex Hin.
  - destruct db; reflexivity.
  - cbn [for_fold]. unfold bind at 1. unfold autoOrganizeFiles_file at 1.
    unfold bind at 1.
    rewrite getAutoFolderId_run.
    rewrite (ensureFolders_settled _ _ _ _ Hex).
    destruct (targetFolder_some (foldersOf project_id db)
                (ProjectFile.file_type f)
                (existsb_filter_nonempty _ _ Hex)) as (t & Ht).
    rewrite Ht. unfold bind at 1.
    rewrite db_patch_ok by (apply Hin; left; reflexivity).
    unfold ret at 1.
    rewrite IH.
    + cbn [length fold_left].
      replace (length l + S count) with (S (length l) + count) by lia.
      f_equal.
      change (organizeStep now (foldersOf project_id db) (project_files db) f)
        with (map (patching project_filesT (ProjectFile._id f)
                     (ProjectFile.set_folder
                        (targetFolder (foldersOf project_id db)
                           (ProjectFile.file_type f)) now))
                (project_files db)).
      rewrite Ht. destruct db; reflexivity.
    + destruct db; exact Hex.
    + intros f' Hf'. destruct (Hin f' (or_intror Hf')) as (r & Hr & Hid).
      exists (patching project_filesT (ProjectFile._id f)
                (ProjectFile.set_folder (Some t) now) r).
      split.
      * destruct db; cbn in *. apply in_map. exact Hr.
      * rewrite <- Hid.
        apply (patching_id project_filesT). reflexivity.
Qed.

Lemma ensureFolders_files (now : string) (project_id : Id) (created_by : Role)
    (db : DB) :
  project_files (ensureFolders now project_id created_by db)
  = project_files db.
Proof.
  unfold ensureFolders. destruct (existsb _ _); [reflexivity|].
  destruct db; reflexivity.
Qed.

(** The loop from any database: its first turn creates the folders. *)
Lemma organize_loop (now : string) (project_id : Id)
    (l : list ProjectFile.t) (count : nat) (db : DB) :
  l <> [] ->
  (forall f, In f l ->
     exists r, In r (project_files db) /\
               ProjectFile._id r = ProjectFile._id f) ->
  for_fold l count (autoOrganizeFiles_file now project_id) db =
  Ok (length l + count)
     (with_project_files
        (fold_left
           (organizeStep now
              (foldersOf project_id (ensureFolders now project_id client db)))
           l (project_files db))
        (ensureFolders now project_id client db)).
Proof.
  intros Hne Hin.
  pose proof (ensureFolders_exists now project_id client db) as Hex.
  set (E := ensureFolders now project_id client db) in *.
  transitivity
    (for_fold l count (autoOrganizeFiles_file now project_id) E).
  - destruct l as [|f l]; [congruence|].
    cbn [for_fold]. unfold bind.
    replace (autoOrganizeFiles_file now project_id count f db)
      with (autoOrganizeFiles_file now project_id count f E);
      [reflexivity|].
    unfold autoOrganizeFiles_file, bind.
    rewrite !getAutoFolderId_run. fold E.
    rewrite (ensureFolders_settled _ _ _ _ Hex). reflexivity.
  - rewrite organize_loop_settled.
    + subst E. rewrite ensureFolders_files. reflexivity.
    + exact Hex.
    + intros f Hf. subst E. rewrite ensureFolders_files. apply Hin. exact Hf.
Qed.

Lemma unique_row {R} (T : Table R) (l : list R) (a b : R) :
  NoDup (map (id_of T) l) -> In a l -> In b l ->
  id_of T a = id_of T b -> a = b.
Proof.
  induction l as [|x l IH]; simpl; [tauto|].
  intros Hnd Ha Hb Hid. inversion Hnd as [|? ? Hx Hl]; subst.
  destruct Ha as [<- | Ha], Hb as [<- | Hb]; auto.
  - exfalso. apply Hx. rewrite Hid. apply in_map. exact Hb.
  - exfalso. apply Hx. rewrite <- Hid. apply in_map. exact Ha.
Qed.

(** Patching file after file is one pass over the table. *)
Lemma organizeSteps_map (now : string) (folders : list Folder.t)
    (l : list ProjectFile.t) :
  forall files : list ProjectFile.t,
    (forall f r, In f l -> In r files ->
       ProjectFile._id r = ProjectFile._id f ->
       ProjectFile.file_type r = ProjectFile.file_type f) ->
    fold_left (organizeStep now folders) l files =
    map (fun r =>
           if existsb (fun f => Nat.eqb (ProjectFile._id r) (ProjectFile._id f)) l
           then ProjectFile.set_folder
                  (targetFolder folders (ProjectFile.file_type r)) now r
           else r)
      files.
Proof.
  induction l as [|f l IH]; intros files Hty.
  - simpl. symmetry. apply map_id.
  - cbn [fold_left]. rewrite IH.
    + unfold organizeStep. rewrite map_map. apply map_ext_in.
      intros r Hr. unfold patching, has_id. cbn [id_of project_filesT existsb].
      destruct (Nat.eqb (ProjectFile._id r) (ProjectFile._id f)) eqn:E.
      * apply Nat.eqb_eq in E.
        rewrite <- (Hty f r (or_introl eq_refl) Hr E).
        cbn [orb]. destruct (existsb _ l); reflexivity.
      * cbn [orb]. reflexivity.
    + intros f' r' Hf' Hr' Hid.
      unfold organizeStep in Hr'. apply in_map_iff in Hr' as (r & <- & Hr).
      unfold patching in *. destruct (has_id project_filesT _ r);
        cbn in *; apply (Hty f' r (or_intror Hf') Hr Hid).
Qed.

Lemma existsb_same_id (project_id : Id) (files : list ProjectFile.t)
    (r : ProjectFile.t) :
  NoDup (map ProjectFile._id files) -> In r files ->
  existsb (fun f => Nat.eqb (ProjectFile._id r) (ProjectFile._id f))
    (filter (unorganized project_id) files)
  = unorganized project_id r.
Proof.
  intros Hnd Hr.
  destruct (unorganized project_id r) eqn:Hu.
  - apply existsb_exists. exists r. split.
    + apply filter_In. auto.
    + apply Nat.eqb_refl.
  - destruct (existsb _ _) eqn:E; [|reflexivity].
    apply existsb_exists in E as (f & Hf & Hid).
    apply filter_In in Hf as (Hf & Huf). apply Nat.eqb_eq in Hid.
    assert (r = f) by (apply (unique_row project_filesT files); auto).
    subst. congruence.
Qed.

Lemma filter_nil {A} (p : A -> bool) (l : list A) :
  (forall x, In x l -> p x = false) -> filter p l = [].
Proof.
  induction l as [|a l IH]; intros H; simpl; [reflexivity|].
  rewrite (H a (or_introl eq_refl)). apply IH.
  intros x Hx. apply H. right. exact Hx.
Qed.

Lemma filter_nil_inv {A} (p : A -> bool) (l : list A) (x : A) :
  filter p l = [] -> In x l -> p x = false.
Proof.
  intros Hnil Hx. destruct (p x) eqn:E; [|reflexivity].
  assert (Hin : In x (filter p l)) by (apply filter_In; auto).
  rewrite Hnil in Hin. destruct Hin.
Qed.

Lemma autoOrganizeFiles_none (now : string) (project_id : Id) (db : DB) :
  filter (unorganized project_id) (project_files db) = [] ->
  autoOrganizeFiles now project_id db =
  Ok (OrganizeResult.mk "Files organized successfully" 0) db.
Proof.
  intros Hnil. unfold autoOrganizeFiles, bind, collect, gets.
  change (rows project_filesT db) with (project_files db).
  rewrite Hnil. reflexivity.
Qed.

Lemma organize_organized (now : string) (project_id : Id)
    (folders : list Folder.t) (f : ProjectFile.t) :
  folders <> [] ->
  unorganized project_id (organize now project_id folders f) = false.
Proof.
  intros Hne. unfold organize.
  destruct (unorganized project_id f) eqn:E; [|exact E].
  destruct (targetFolder_some folders (ProjectFile.file_type f) Hne)
    as (t & ->).
  unfold unorganized. cbn. apply andb_false_r.
Qed.

(** C6.  [autoOrganizeFiles] is idempotent.  On a table of files with unique
    ids, a run returns the number of files of the project that had no folder;
    it gives each of those a folder and leaves every other row, the files
    that have a folder among them, as it was; after it no file of the project
    is without a folder, and a second run, at any later instant, reports zero
    files organized and changes nothing. *)
Theorem autoOrganizeFiles_idempotent (now now' : string) (project_id : Id)
    (db : DB) :
  unique_ids project_filesT db ->
  exists db1,
    autoOrganizeFiles now project_id db =
      Ok (OrganizeResult.mk "Files organized successfully"
            (length (filter (unorganized project_id) (project_files db))))
         db1 /\
    project_files db1 =
      map (organize now project_id (foldersOf project_id db1))
        (project_files db) /\
    (forall f, In f (project_files db) ->
       unorganized project_id f = false -> In f (project_files db1)) /\
    (forall f, In f (project_files db1) ->
       unorganized project_id f = false) /\
    autoOrganizeFiles now' project_id db1 =
      Ok (OrganizeResult.mk "Files organized successfully" 0) db1.
Proof.
  intros Hnd. unfold unique_ids in Hnd. cbn in Hnd.
  destruct (filter (unorganized project_id) (project_files db)) as [|f0 l0]
    eqn:Hl.
  - exists db.
    split; [apply autoOrganizeFiles_none; exact Hl|].
    assert (Hsame : map (organize now project_id (foldersOf project_id db))
                      (project_files db) = project_files db).
    { rewrite <- (map_id (project_files db)) at 2. apply map_ext_in.
      intros f Hf. unfold organize.
      rewrite (filter_nil_inv _ _ f Hl Hf). reflexivity. }
    split; [symmetry; exact Hsame|].
    split; [auto|].
    split; [intros f Hf; apply (filter_nil_inv _ _ f Hl Hf)|].
    apply autoOrganizeFiles_none; exact Hl.
  - set (E := ensureFolders now project_id client db).
    set (F := foldersOf project_id E).
    assert (HF : F <> []).
    { apply existsb_filter_nonempty. apply ensureFolders_exists. }
    exists (with_project_files
              (map (organize now project_id F) (project_files db)) E).
    assert (HF1 : foldersOf project_id
                    (with_project_files
                       (map (organize now project_id F) (project_files db)) E)
                  = F).
    { subst F. destruct E; reflexivity. }
    assert (Hfiles1 : project_files
                        (with_project_files
                           (map (organize now project_id F) (project_files db))
                           E)
                      = map (organize now project_id F) (project_files db)).
    { destruct E; reflexivity. }
    assert (Hdone : forall f,
               In f (map (organize now project_id F) (project_files db)) ->
               unorganized project_id f = false).
    { intros f Hf. apply in_map_iff in Hf as (r & <- & _).
      apply organize_organized. exact HF. }
    split.
    { unfold autoOrganizeFiles. unfold bind at 1. unfold collect, gets.
      change (rows project_filesT db) with (project_files db).
      rewrite Hl. unfold bind at 1.
      rewrite organize_loop.
      - unfold ret. rewrite Nat.add_0_r. fold E. fold F. f_equal.
        f_equal. rewrite <- Hl.
        rewrite organizeSteps_map.
        + apply map_ext_in. intros r Hr.
          rewrite (existsb_same_id project_id _ r Hnd Hr). reflexivity.
        + intros f r Hf Hr Hid. apply filter_In in Hf as (Hf & _).
          f_equal. apply (unique_row project_filesT (project_files db));
            auto.
      - discriminate.
      - intros f Hf. exists f. split; [|reflexivity].
        rewrite <- Hl in Hf. apply filter_In in Hf. tauto. }
    rewrite HF1, Hfiles1.
    split; [reflexivity|].
    split.
    { intros f Hf Hu. apply in_map_iff. exists f. split; [|exact Hf].
      unfold organize. rewrite Hu. reflexivity. }
    split; [exact Hdone|].
    apply autoOrganizeFiles_none. rewrite Hfiles1.
    apply filter_nil. exact Hdone.
Qed.

Lemma autoOrganizeFiles_idempotent_witness :
  unique_ids project_filesT Sample.db_thread /\
  exists db1,
    autoOrganizeFiles "t1" 1 Sample.db_thread =
      Ok (OrganizeResult.mk "Files organized successfully" 2) db1 /\
    autoOrganizeFiles "t2" 1 db1 =
      Ok (OrganizeResult.mk "Files organized successfully" 0) db1.
Proof.
  assert (Hu : unique_ids project_filesT Sample.db_thread).
  { unfold unique_ids. cbn. repeat constructor; simpl; intuition discriminate. }
  split; [exact Hu|].
  destruct (autoOrganizeFiles_idempotent "t1" "t2" 1 Sample.db_thread Hu)
    as (db1 & Hrun & _ & _ & _ & Hagain).
  exists db1. split; [exact Hrun | exact Hagain].
Defined.

(** ** Translation *)

Lemma cleanMessage_not_empty (text : string) :
  Translation.cleanMessage text <> "".
Proof. unfold Translation.cleanMessage. simpl. discriminate. Qed.

(** C7 (as stated, refuted).  With both remote attempts failing, the
    translation of [hello] from English to Spanish is the text in the
    placeholder of the last [catch] block, not the [hola] of the phrase
    table, and the translation of a text no phrase matches is that same
    placeholder, not the language-tagged note of
    [fallbackPhraseTranslate]. *)
Lemma translateText_skips_phrase_table :
  Translation.tryMyMemory Translation.http_throws "hello" es
    (Translation.source en) = None /\
  Translation.tryLibreTranslate Translation.http_throws "hello" es
    (Translation.source en) = None /\
  Translation.translatedText
    (Translation.fallbackPhraseTranslate "hello" es (Translation.source en))
    = "hola" /\
  Translation.translatedText
    (Translation.translateText Translation.http_throws
       Translation.http_throws "hello" es (Translation.source en))
    = "💬 " ++ dquote ++ "hello" ++ dquote /\
  Translation.translatedText
    (Translation.translateText Translation.http_throws
       Translation.http_throws "hello" es (Translation.source en))
    <> "hola" /\
  Translation.translatedText
    (Translation.fallbackPhraseTranslate "xyz" es (Translation.source en))
    = "[Mensaje en inglés: " ++ dquote ++ "xyz" ++ dquote ++ "]" /\
  Translation.translatedText
    (Translation.translateText Translation.http_throws
       Translation.http_throws "xyz" es (Translation.source en))
    = "💬 " ++ dquote ++ "xyz" ++ dquote.
Proof.
  repeat split; try (vm_compute; reflexivity).
  vm_compute. discriminate.
Qed.

(** C7 (amended).  When both remote attempts fail, [translateText] returns,
    without throwing, a result with [success = true] whose translation is
    the original text inside the placeholder of the last [catch] block, the
    same for both target languages and never empty; the phrase table is not
    consulted.  When the source language is the target language no attempt
    is made and the text comes back as it is. *)
Theorem translateText_both_attempts_fail
    (myMemory : Translation.Http Translation.MyMemoryData)
    (libre : Translation.Http Translation.LibreData)
    (text : string) (targetLang : Lang)
    (sourceLang : Translation.SourceLang) :
  Translation.tryMyMemory myMemory text targetLang sourceLang = None ->
  Translation.tryLibreTranslate libre text targetLang sourceLang = None ->
  Translation.translateText myMemory libre text targetLang sourceLang =
    Translation.mkResult text
      (if match sourceLang with
          | Translation.source l => Translation.Lang_eqb l targetLang
          | Translation.auto => false
          end
       then text
       else Translation.cleanMessage text)
      (Translation.sourceCode sourceLang) (Translation.code targetLang)
      true None /\
  (sourceLang <> Translation.source targetLang ->
   Translation.translatedText
     (Translation.translateText myMemory libre text targetLang sourceLang)
     = "💬 " ++ dquote ++ text ++ dquote /\
   Translation.translatedText
     (Translation.translateText myMemory libre text targetLang sourceLang)
     <> "").
Proof.
  intros Hmm Hlt.
  assert (Hreal : Translation.tryRealTranslation myMemory libre text
                    targetLang sourceLang =
                  Translation.mkResult text (Translation.cleanMessage text)
                    (Translation.sourceCode sourceLang)
                    (Translation.code targetLang) true None).
  { unfold Translation.tryRealTranslation. rewrite Hmm, Hlt. reflexivity. }
  unfold Translation.translateText. rewrite Hreal.
  destruct sourceLang as [l|].
  - destruct (Translation.Lang_eqb l targetLang) eqn:E.
    + split; [reflexivity|]. intros Hne. exfalso. apply Hne.
      destruct l, targetLang; try discriminate; reflexivity.
    + split; [reflexivity|]. intros _.
      split; [reflexivity | apply cleanMessage_not_empty].
  - split; [reflexivity|]. intros _.
    split; [reflexivity | apply cleanMessage_not_empty].
Qed.

Lemma translateText_both_attempts_fail_witness :
  Translation.translatedText
    (Translation.translateText Translation.http_throws
       Translation.http_throws "hello" es (Translation.source en))
  = "💬 " ++ dquote ++ "hello" ++ dquote.
Proof.
  apply (translateText_both_attempts_fail Translation.http_throws
           Translation.http_throws "hello" es (Translation.source en)
           eq_refl eq_refl).
  discriminate.
Defined.

(** ** Deleting a message *)

(** C10 (as stated, refuted).  A developer deletes the message of a client:
    besides the content and [is_edited], the row's [edited_at], which was
    unset, holds the instant of the deletion. *)
Lemma deleteMessage_stamps_edited_at :
  exists db' m m',
    find (has_id messagesT 3) (messages Sample.db_thread) = Some m /\
    deleteMessage "t9" 3 developer Sample.db_thread = Ok (Some 3) db' /\
    find (has_id messagesT 3) (messages db') = Some m' /\
    Message.edited_at m = None /\
    Message.edited_at m' = Some "t9" /\
    Message.edited_at m' <> Message.edited_at m.
Proof.
  do 3 eexists. split; [vm_compute; reflexivity|].
  split; [vm_compute; reflexivity|].
  split; [vm_compute; reflexivity|].
  split; [reflexivity|]. split; [reflexivity|]. discriminate.
Qed.

(** C10 (amended).  For a message [m] found under the id, [deleteMessage]
    throws exactly when the caller is neither the author of [m] nor the
    developer, and then with the validation message of the code; otherwise
    it returns the id, removes no row, and rewrites the row: its content is
    the marker, [is_edited] is set, [edited_at] is the instant of the call,
    and every other field is as before. *)
Theorem deleteMessage_authorization (now : string) (message_id : Id)
    (deleter : Role) (db : DB) (m : Message.t) :
  find (has_id messagesT message_id) (messages db) = Some m ->
  ((exists e, deleteMessage now message_id deleter db = Throw e) <->
   (Message.author m <> deleter /\ deleter <> developer)) /\
  (Message.author m <> deleter /\ deleter <> developer ->
   deleteMessage now message_id deleter db =
     Throw "No puedes eliminar mensajes de otros usuarios") /\
  (Message.author m = deleter \/ deleter = developer ->
   exists db',
     deleteMessage now message_id deleter db = Ok (Some message_id) db' /\
     db' = with_messages
             (map (patching messagesT message_id (deletedMessage now))
                (messages db)) db /\
     length (messages db') = length (messages db) /\
     find (has_id messagesT message_id) (messages db')
       = Some (deletedMessage now m) /\
     Message.content (deletedMessage now m) = "*Mensaje eliminado*" /\
     Message.is_edited (deletedMessage now m) = true /\
     Message.edited_at (deletedMessage now m) = Some now).
Proof.
  intros Hm.
  assert (Hrun : deleteMessage now message_id deleter db =
            if negb (Role_eqb (Message.author m) deleter) &&
               negb (Role_eqb deleter developer)
            then Throw "No puedes eliminar mensajes de otros usuarios"
            else Ok (Some message_id)
                   (with_messages
                      (map (patching messagesT message_id
                              (deletedMessage now)) (messages db)) db)).
  { unfold deleteMessage. unfold bind at 1. unfold db_get, gets.
    change (rows messagesT db) with (messages db). rewrite Hm.
    destruct (negb (Role_eqb (Message.author m) deleter) &&
              negb (Role_eqb deleter developer)); [reflexivity|].
    unfold bind.
    rewrite db_patch_ok by (apply (find_in_id messagesT _ _ _ Hm)).
    reflexivity. }
  rewrite Hrun.
  destruct (Message.author m) eqn:Ha, deleter; cbn;
    (split; [split; [intros (e & He); try discriminate; split; discriminate
                    | intros (H1 & H2); try congruence; eauto] |]);
    (split; [intros (H1 & H2); try congruence; reflexivity |]);
    intros Hor;
    try (destruct Hor; discriminate);
    eexists; (split; [reflexivity|]); (split; [reflexivity|]);
    destruct db; cbn in *;
    (split; [apply length_map|]);
    (split; [apply (find_patching messagesT); [reflexivity | exact Hm]|]);
    repeat split.
Qed.

Lemma deleteMessage_authorization_witness :
  find (has_id messagesT 3) (messages Sample.db_thread)
    = Some Sample.message3 /\
  (exists db',
     deleteMessage "t9" 3 developer Sample.db_thread = Ok (Some 3) db') /\
  deleteMessage "t9" 3 client
    (with_messages [deletedMessage "t0" (Sample.noteOf developer)]
       Sample.db_thread)
  = Throw "No puedes eliminar mensajes de otros usuarios".
Proof.
  split; [reflexivity|]. split.
  - destruct (deleteMessage_authorization "t9" 3 developer Sample.db_thread
                Sample.message3 eq_refl) as (_ & _ & Hok).
    destruct (Hok (or_intror eq_refl)) as (db' & Hrun & _).
    exists db'. exact Hrun.
  - apply (deleteMessage_authorization "t9" 3 client
             (with_messages [deletedMessage "t0" (Sample.noteOf developer)]
                Sample.db_thread)
             (deletedMessage "t0" (Sample.noteOf developer)) eq_refl).
    split; discriminate.
Defined.

(** ** Deleting a project *)

Lemma lawful_threads : lawful threadsT.
Proof. repeat split; intros; destruct db; reflexivity. Qed.

Lemma lawful_messages : lawful messagesT.
Proof. repeat split; intros; destruct db; reflexivity. Qed.

Lemma lawful_notifications : lawful notificationsT.
Proof. repeat split; intros; destruct db; reflexivity. Qed.

Lemma filter_filter {A} (p q : A -> bool) (l : list A) :
  filter p (filter q l) = filter (fun x => q x && p x) l.
Proof.
  induction l as [|a l IH]; simpl; [reflexivity|].
  destruct (q a); simpl; [destruct (p a)|]; rewrite IH; reflexivity.
Qed.

Lemma filter_all {A} (l : list A) : filter (fun _ => true) l = l.
Proof. induction l; simpl; congruence. Qed.

(** The rows a query selects from a table of unique ids have unique ids. *)
Lemma selection_unique {Row Key : Type} (key : Row -> Key)
    (keep : Row -> bool) (table : list Row)
    (Huniq : NoDup (map key table)) :
  NoDup (map key (filter keep table)).
Proof.
  induction table as [|row table IH]; simpl in *; [exact Huniq|].
  apply NoDup_cons_iff in Huniq as (Hfresh & Hrest).
  destruct (keep row); simpl; [|exact (IH Hrest)].
  apply NoDup_cons; [|exact (IH Hrest)].
  intros Hin. apply Hfresh.
  apply in_map_iff in Hin as (other & Hkey & Hother).
  apply in_map_iff. exists other. split; [exact Hkey|].
  apply filter_In in Hother. tauto.
Qed.

(** Deleting the rows of a selection one after the other removes exactly the
    rows that carry one of its ids, when the selection names each id once
    and every id is in the table. *)
Lemma for_each_delete {R} (T : Table R) (sel : list R) :
  lawful T ->
  forall db,
    NoDup (map (id_of T) sel) ->
    (forall x, In x sel -> exists r, In r (rows T db) /\ id_of T r = id_of T x) ->
    for_each sel (fun x => db_delete T (id_of T x)) db =
    Ok tt (set_rows T
             (filter (fun r => negb (existsb (fun x => has_id T (id_of T x) r) sel))
                (rows T db)) db).
Proof.
  intros (Hrs & Hss & Hsame).
  induction sel as [|x sel IH]; intros db Hnd Hin.
  - simpl. unfold ret. rewrite filter_all, Hsame. reflexivity.
  - cbn [for_each]. unfold bind.
    destruct (find_has_id_in T (id_of T x) (rows T db)
                (Hin x (or_introl eq_refl))) as (y & Hy).
    unfold db_delete at 1. rewrite Hy.
    inversion Hnd as [|? ? Hx Hnd']; subst.
    rewrite IH.
    + rewrite Hrs, Hss, filter_filter. f_equal. f_equal.
      apply filter_ext. intros r. cbn [existsb].
      rewrite negb_orb. reflexivity.
    + exact Hnd'.
    + intros x' Hx'. destruct (Hin x' (or_intror Hx')) as (r & Hr & Hid).
      exists r. split; [|exact Hid].
      rewrite Hrs. apply filter_In. split; [exact Hr|].
      unfold has_id. rewrite Hid. apply negb_true_iff. apply Nat.eqb_neq.
      intros Heq. apply Hx. rewrite <- Heq. apply in_map. exact Hx'.
Qed.

Lemma selected_same_id {R} (T : Table R) (q : R -> bool) (l : list R)
    (r : R) :
  NoDup (map (id_of T) l) -> In r l ->
  existsb (fun x => has_id T (id_of T x) r) (filter q l) = q r.
Proof.
  intros Hnd Hr. destruct (q r) eqn:Hq.
  - apply existsb_exists. exists r. split.
    + apply filter_In. auto.
    + unfold has_id. apply Nat.eqb_refl.
  - destruct (existsb _ _) eqn:E; [|reflexivity].
    apply existsb_exists in E as (x & Hx & Hid).
    apply filter_In in Hx as (Hx & Hqx).
    unfold has_id in Hid. apply Nat.eqb_eq in Hid.
    assert (r = x) by (apply (unique_row T l); auto).
    subst. congruence.
Qed.

(** Deleting the rows a query selected removes them and no other row, on a
    table of unique ids. *)
Lemma delete_where {R} (T : Table R) (q : R -> bool) (db : DB) :
  lawful T -> NoDup (map (id_of T) (rows T db)) ->
  for_each (filter q (rows T db)) (fun x => db_delete T (id_of T x)) db =
  Ok tt (set_rows T (filter (fun r => negb (q r)) (rows T db)) db).
Proof.
  intros Hlaw Hnd. rewrite for_each_delete.
  - f_equal. f_equal. apply filter_ext_in. intros r Hr. f_equal.
    apply selected_same_id; assumption.
  - exact Hlaw.
  - apply selection_unique. exact Hnd.
  - intros x Hx. exists x. apply filter_In in Hx. tauto.
Qed.

(** One turn of the loop of [deleteProject]: the messages and the
    notifications of the thread go, then the thread. *)
Lemma deleteProject_thread_run (thread : Thread.t) (db : DB) :
  unique_ids messagesT db -> unique_ids notificationsT db ->
  (exists r, In r (threads db) /\ Thread._id r = Thread._id thread) ->
  deleteProject_thread thread db =
  Ok tt
    (with_threads
       (filter (fun r => negb (has_id threadsT (Thread._id thread) r))
          (threads db))
       (with_notifications
          (filter (fun n => negb (notification_of_thread (Thread._id thread) n))
             (notifications db))
          (with_messages
             (filter (fun m => negb (message_of_thread (Thread._id thread) m))
                (messages db))
             db))).
Proof.
  intros Hm Hn Hin.
  unfold deleteProject_thread.
  unfold bind at 1. unfold collect at 1, gets.
  unfold bind at 1.
  rewrite (delete_where messagesT _ db lawful_messages Hm).
  unfold bind at 1. unfold collect at 1, gets.
  unfold bind at 1.
  set (db1 := set_rows messagesT _ db).
  assert (Hn1 : NoDup (map (id_of notificationsT) (rows notificationsT db1))).
  { subst db1. destruct db. exact Hn. }
  rewrite (delete_where notificationsT _ db1 lawful_notifications Hn1).
  destruct (find_has_id_in threadsT (Thread._id thread) (threads db) Hin)
    as (y & Hy).
  unfold db_delete.
  replace (rows threadsT _) with (threads db)
    by (subst db1; destruct db; reflexivity).
  rewrite Hy. subst db1. destruct db. reflexivity.
Qed.

(** The loop of [deleteProject] over the threads [ts]. *)
Lemma deleteProject_threads_run (ts : list Thread.t) :
  forall db,
    unique_ids messagesT db -> unique_ids notificationsT db ->
    NoDup (map Thread._id ts) ->
    (forall t, In t ts ->
       exists r, In r (threads db) /\ Thread._id r = Thread._id t) ->
    for_each ts deleteProject_thread db =
    Ok tt
      (with_threads
         (filter (fun r =>
                    negb (existsb (fun t => has_id threadsT (Thread._id t) r)
                            ts))
            (threads db))
         (with_notifications
            (filter (fun n => negb (notification_in ts n)) (notifications db))
            (with_messages
               (filter (fun m => negb (message_in ts m)) (messages db))
               db))).
Proof.
  induction ts as [|t ts IH]; intros db Hm Hn Hnd Hin.
  - simpl. unfold ret. unfold message_in, notification_in. cbn [existsb negb].
    rewrite !filter_all. destruct db; reflexivity.
  - cbn [for_each]. unfold bind.
    rewrite deleteProject_thread_run;
      [|exact Hm | exact Hn | apply Hin; left; reflexivity].
    inversion Hnd as [|? ? Ht Hnd']; subst.
    rewrite IH.
    + destruct db. f_equal.
      unfold with_threads, with_notifications, with_messages. cbn.
      f_equal; rewrite filter_filter; apply filter_ext; intros x;
        unfold message_in, notification_in; cbn [existsb];
        rewrite negb_orb; reflexivity.
    + unfold unique_ids in *. destruct db; cbn in *.
      apply selection_unique. exact Hm.
    + unfold unique_ids in *. destruct db; cbn in *.
      apply selection_unique. exact Hn.
    + exact Hnd'.
    + intros t' Ht'. destruct (Hin t' (or_intror Ht')) as (r & Hr & Hid).
      exists r. split; [|exact Hid].
      destruct db; cbn in *. apply filter_In. split; [exact Hr|].
      unfold has_id. cbn. rewrite Hid. apply negb_true_iff.
      apply Nat.eqb_neq. intros Heq. apply Ht. rewrite <- Heq.
      apply in_map. exact Ht'.
Qed.

(** [deleteProject], in closed form. *)
Lemma deleteProject_run (project_id : Id) (db : DB) (pr : Project.t) :
  unique_ids threadsT db -> unique_ids messagesT db ->
  unique_ids notificationsT db ->
  find (has_id projectsT project_id) (projects db) = Some pr ->
  deleteProject project_id db =
  Ok (DeleteProjectResult.mk true (length (threadsOf project_id db)))
     (afterDeleteProject project_id db).
Proof.
  intros Ht Hm Hn Hpr.
  unfold deleteProject, try_catch.
  unfold bind at 1. unfold collect at 1, gets.
  change (rows threadsT db) with (threads db).
  fold (threadsOf project_id db).
  unfold bind at 1.
  rewrite deleteProject_threads_run;
    [ | exact Hm | exact Hn
      | apply (selection_unique Thread._id); exact Ht
      | intros t Hin; exists t; apply filter_In in Hin; tauto ].
  set (db2 := with_threads _ _).
  unfold bind at 1. unfold collect at 1, gets.
  unfold bind at 1.
  assert (Hn2 : NoDup (map (id_of notificationsT) (rows notificationsT db2))).
  { subst db2. destruct db. cbn. apply selection_unique. exact Hn. }
  rewrite (delete_where notificationsT _ db2 lawful_notifications Hn2).
  unfold bind at 1. unfold db_delete.
  replace (rows projectsT _) with (projects db)
    by (subst db2; destruct db; reflexivity).
  rewrite Hpr. unfold bind, ret. f_equal.
  assert (Hthreads :
            filter (fun r =>
                      negb (existsb
                              (fun t => has_id threadsT (Thread._id t) r)
                              (threadsOf project_id db)))
              (threads db) =
            filter (fun t => negb (thread_of_project project_id t))
              (threads db)).
  { apply filter_ext_in. intros r Hr. f_equal.
    apply (selected_same_id threadsT); assumption. }
  subst db2. rewrite Hthreads. unfold afterDeleteProject. destruct db.
  cbn. rewrite filter_filter. reflexivity.
Qed.

Lemma find_removed {A} (p : A -> bool) (l : list A) :
  find p (filter (fun r => negb (p r)) l) = None.
Proof.
  destruct (find p _) eqn:E; [|reflexivity].
  apply find_some in E as (Hin & Hp). apply filter_In in Hin as (_ & Hn).
  rewrite Hp in Hn. discriminate.
Qed.

Lemma existsb_false_in {A} (p : A -> bool) (l : list A) (x : A) :
  existsb p l = false -> In x l -> p x = false.
Proof.
  intros He Hx. destruct (p x) eqn:E; [|reflexivity].
  assert (existsb p l = true) by (apply existsb_exists; eauto). congruence.
Qed.

(** C8 (as stated, refuted).  Project 1 of the sample has two project
    files, one of them made of message 3, and the four default folders.
    After [deleteProject] the project and the message are gone, but the
    queries by the id of the project on the files and on the folders still
    return the two files and the four folders, and the query by the id of
    the deleted message still returns the file made of it. *)
Lemma deleteProject_leaves_files :
  exists r db',
    deleteProject 1 SampleFiles.db_folders = Ok r db' /\
    find (has_id projectsT 1) (projects db') = None /\
    find (has_id messagesT 3) (messages db') = None /\
    filter (file_of_project 1) (project_files db')
      = [Sample.file5; Sample.file6] /\
    map Folder.name (filter (folder_of_project 1) (project_folders db'))
      = ["Images"; "Documents"; "PDFs"; "Other"] /\
    find (file_of_message 3) (project_files db') = Some Sample.file5.
Proof.
  do 2 eexists. split; [vm_compute; reflexivity|].
  repeat split; vm_compute; reflexivity.
Qed.

(** C8 (amended).  On a database whose threads, messages and notifications
    have unique ids, [deleteProject] of a project that exists succeeds and
    removes the project, every thread of the project, every message of those
    threads and every notification that refers to the project or to one of
    those threads: afterwards the lookup of the project by id, the lookup of
    each of its threads by id, and the queries on threads, messages and
    notifications by the id of the project and by the id of each of its
    threads return nothing.  Every other row stays: the project files and
    the folders of the project among them, which are not removed. *)
Theorem deleteProject_cascade (project_id : Id) (db : DB) (pr : Project.t) :
  unique_ids threadsT db -> unique_ids messagesT db ->
  unique_ids notificationsT db ->
  find (has_id projectsT project_id) (projects db) = Some pr ->
  exists db',
    deleteProject project_id db =
      Ok (DeleteProjectResult.mk true (length (threadsOf project_id db)))
         db' /\
    find (has_id projectsT project_id) (projects db') = None /\
    filter (thread_of_project project_id) (threads db') = [] /\
    filter (notification_of_project project_id) (notifications db') = [] /\
    (forall t, In t (threads db) -> Thread.project_id t = project_id ->
       find (has_id threadsT (Thread._id t)) (threads db') = None /\
       filter (message_of_thread (Thread._id t)) (messages db') = [] /\
       filter (notification_of_thread (Thread._id t)) (notifications db')
         = []) /\
    db' = afterDeleteProject project_id db /\
    project_files db' = project_files db /\
    project_folders db' = project_folders db.
Proof.
  intros Ht Hm Hn Hpr.
  exists (afterDeleteProject project_id db).
  split; [apply (deleteProject_run project_id db pr); assumption|].
  assert (Hp' : projects (afterDeleteProject project_id db) =
                filter (fun r => negb (has_id projectsT project_id r))
                  (projects db)) by (destruct db; reflexivity).
  assert (Ht' : threads (afterDeleteProject project_id db) =
                filter (fun t => negb (thread_of_project project_id t))
                  (threads db)) by (destruct db; reflexivity).
  assert (Hm' : messages (afterDeleteProject project_id db) =
                filter (fun m => negb (message_in (threadsOf project_id db) m))
                  (messages db)) by (destruct db; reflexivity).
  assert (Hn' : notifications (afterDeleteProject project_id db) =
                filter (fun n =>
                          negb (notification_in (threadsOf project_id db) n)
                          && negb (notification_of_project project_id n))
                  (notifications db)) by (destruct db; reflexivity).
  rewrite Hp', Ht', Hm', Hn'.
  split; [apply find_removed|].
  split.
  { apply filter_nil. intros t Hin. apply filter_In in Hin as (_ & Hin).
    apply negb_true_iff. exact Hin. }
  split.
  { apply filter_nil. intros n Hin. apply filter_In in Hin as (_ & Hin).
    apply andb_true_iff in Hin as (_ & Hin).
    apply negb_true_iff. exact Hin. }
  split; [|split; [reflexivity | split; destruct db; reflexivity]].
  intros t Hin Hproj.
  assert (Hts : In t (threadsOf project_id db)).
  { apply filter_In. split; [exact Hin|].
    unfold thread_of_project. apply Nat.eqb_eq. exact Hproj. }
  split; [|split].
  - destruct (find (has_id threadsT (Thread._id t))
                (filter (fun t => negb (thread_of_project project_id t))
                   (threads db))) eqn:E; [|reflexivity].
    apply find_some in E as (Hr & Hid). apply filter_In in Hr as (Hr & Hnot).
    unfold has_id in Hid. apply Nat.eqb_eq in Hid.
    assert (t0 = t) by (apply (unique_row threadsT (threads db)); auto).
    subst t0. apply filter_In in Hts as (_ & Hts).
    rewrite Hts in Hnot. discriminate.
  - apply filter_nil. intros m Hmi. apply filter_In in Hmi as (_ & Hmi).
    apply negb_true_iff in Hmi.
    apply (existsb_false_in _ _ t Hmi Hts).
  - apply filter_nil. intros n Hni. apply filter_In in Hni as (_ & Hni).
    apply andb_true_iff in Hni as (Hni & _). apply negb_true_iff in Hni.
    apply (existsb_false_in _ _ t Hni Hts).
Qed.

Lemma deleteProject_cascade_witness :
  exists db',
    deleteProject 1 Sample.db_thread =
      Ok (DeleteProjectResult.mk true 1) db' /\
    find (has_id projectsT 1) (projects db') = None /\
    filter (thread_of_project 1) (threads db') = [].
Proof.
  assert (Hu : forall {R} (T : Table R) (i : Id), NoDup [i]).
  { intros. constructor; [simpl; tauto | constructor]. }
  destruct (deleteProject_cascade 1 Sample.db_thread Sample.project1
              (Hu _ threadsT 2) (Hu _ messagesT 3) (Hu _ notificationsT 4)
              eq_refl)
    as (db' & Hrun & Hp & Ht & _).
  exists db'. split; [exact Hrun|]. split; [exact Hp | exact Ht].
Defined.

(** ** Migration *)

(** The migration of one feedback row never throws. *)
Lemma migrateFeedback_item_run (now : string) (mainProjectId : Id)
    (count : nat) (f : Feedback.t) (db : DB) :
  exists db',
    migrateFeedback_item now mainProjectId count f db = Ok (S count) db' /\
    migrated [f] db db'.
Proof.
  destruct db.
  unfold migrateFeedback_item, bind, db_insert, first, gets, ret. cbn.
  destruct (truthy_opt (Feedback.developer_notes f)) eqn:Hnotes; cbn.
  - match goal with |- context [find ?p ?l] => destruct (find p l) eqn:E end.
    + unfold db_patch. cbn.
      destruct (find_has_id_in legacy_feedbackT (LegacyFeedback._id t) _
                  (ex_intro _ t (conj (proj1 (find_some _ _ E)) eq_refl)))
        as (y & ->).
      eexists. split; [reflexivity|].
      unfold migrated. cbn. unfold seedMessages. rewrite Hnotes.
      rewrite length_map, !length_app. cbn. repeat split; lia.
    + eexists. split; [reflexivity|].
      unfold migrated. cbn. unfold seedMessages. rewrite Hnotes.
      rewrite !length_app. cbn. repeat split; lia.
  - match goal with |- context [find ?p ?l] => destruct (find p l) eqn:E end.
    + unfold db_patch. cbn.
      destruct (find_has_id_in legacy_feedbackT (LegacyFeedback._id t) _
                  (ex_intro _ t (conj (proj1 (find_some _ _ E)) eq_refl)))
        as (y & ->).
      eexists. split; [reflexivity|].
      unfold migrated. cbn. unfold seedMessages. rewrite Hnotes.
      rewrite length_map, !length_app. cbn. repeat split; lia.
    + eexists. split; [reflexivity|].
      unfold migrated. cbn. unfold seedMessages. rewrite Hnotes.
      rewrite !length_app. cbn. repeat split; lia.
Qed.

Lemma migrated_step (f : Feedback.t) (fs : list Feedback.t) (db d1 d2 : DB) :
  migrated [f] db d1 -> migrated fs d1 d2 -> migrated (f :: fs) db d2.
Proof.
  unfold migrated, list_sum. cbn [map fold_right length].
  intros (Hc & Hp & Hf & Hl & Ht & Hm) (Hc' & Hp' & Hf' & Hl' & Ht' & Hm').
  repeat split; try congruence; lia.
Qed.

Lemma migrateFeedback_loop (now : string) (mainProjectId : Id)
    (fs : list Feedback.t) :
  forall (count : nat) (db : DB),
    exists db',
      for_fold fs count (migrateFeedback_item now mainProjectId) db =
        Ok (length fs + count) db' /\
      migrated fs db db'.
Proof.
  induction fs as [|f fs IH]; intros count db.
  - exists db. split; [reflexivity|]. unfold migrated. cbn.
    repeat split; lia.
  - destruct (migrateFeedback_item_run now mainProjectId count f db)
      as (d1 & Hrun & Hm1).
    destruct (IH (S count) d1) as (d2 & Hloop & Hm2).
    exists d2. split.
    + cbn [for_fold]. unfold bind. rewrite Hrun, Hloop. f_equal.
      cbn. lia.
    + apply (migrated_step f fs db d1 d2); assumption.
Qed.

(** C9.  [migrateFeedbackData] is guarded by an existence check.  When a
    client of the target name exists, the call writes nothing, leaves the
    database as it is and returns the id of that client, the first of that
    name.  Only when there is none does it write: it then succeeds, appends
    the client under the next id, three projects, one thread for each
    legacy feedback row, and the messages of those threads. *)
Theorem migrateFeedbackData_guarded (now : string)
    (client_name : option string) (db : DB) :
  (forall existing,
     find (client_named (targetClientName client_name)) (clients db)
       = Some existing ->
     migrateFeedbackData now client_name db =
       Ok (MigrationResult.mk false "Migration already completed"
             (Client._id existing) None None None None)
          db) /\
  (find (client_named (targetClientName client_name)) (clients db) = None ->
   exists res db',
     migrateFeedbackData now client_name db = Ok res db' /\
     MigrationResult.success res = true /\
     MigrationResult.client_id res = next_id db /\
     MigrationResult.migrated_feedback_count res
       = Some (length (feedback db)) /\
     clients db' =
       (clients db ++ [migratedClient now client_name (next_id db)])%list /\
     length (projects db') = length (projects db) + 3 /\
     length (threads db') = length (threads db) + length (feedback db) /\
     length (messages db') =
       length (messages db) + list_sum (map seedMessages (feedback db))).
Proof.
  split.
  - intros existing Hex. unfold migrateFeedbackData.
    unfold bind at 1. unfold first, gets.
    change (rows clientsT db) with (clients db). rewrite Hex. reflexivity.
  - intros Hnone. unfold migrateFeedbackData.
    unfold bind at 1. unfold first at 1, gets at 1.
    change (rows clientsT db) with (clients db). rewrite Hnone.
    unfold bind at 1. unfold db_insert at 1.
    unfold bind at 1. unfold db_insert at 1.
    unfold bind at 1. unfold gets at 1.
    set (db2 := with_next_id _ (set_rows projectsT _ _)).
    unfold bind at 1.
    destruct (migrateFeedback_loop now
                (next_id (with_next_id (S (next_id db))
                   (set_rows clientsT
                      (rows clientsT db ++
                         [migratedClient now client_name (next_id db)]) db)))
                (feedback db2) 0 db2)
      as (db3 & Hloop & Hc & Hp & Hf & Hl & Ht & Hm).
    unfold migratedClient in Hloop. rewrite Hloop.
    destruct db3. unfold bind, db_insert, ret. cbn in *.
    do 2 eexists. split; [reflexivity|]. cbn.
    subst db2. destruct db; cbn in *. subst.
    rewrite Nat.add_0_r.
    repeat split; try reflexivity.
    + rewrite !length_app in *. cbn in *. lia.
    + lia.
    + lia.
Qed.

Lemma migrateFeedbackData_guarded_witness :
  migrateFeedbackData "t1" None Sample.db_thread =
    Ok (MigrationResult.mk false "Migration already completed" 0 None None
          None None)
       Sample.db_thread /\
  exists res db',
    migrateFeedbackData "t1" None Sample.db_legacy = Ok res db' /\
    MigrationResult.success res = true /\
    length (threads db') = 1.
Proof.
  split.
  - apply (proj1 (migrateFeedbackData_guarded "t1" None Sample.db_thread)
             Sample.client0).
    reflexivity.
  - destruct (proj2 (migrateFeedbackData_guarded "t1" None Sample.db_legacy)
                eq_refl)
      as (res & db' & Hrun & Hsuccess & _ & _ & _ & _ & Hthreads & _).
    exists res, db'. split; [exact Hrun|]. split; [exact Hsuccess|].
    exact Hthreads.
Defined.

(** ** More on tables *)

Lemma find_has_id_none {R} (T : Table R) (i : Id) (l : list R) :
  find (has_id T i) l = None ->
  forall r, In r l -> id_of T r <> i.
Proof.
  intros Hnone r Hr Hid. apply (find_none _ _ Hnone) in Hr.
  unfold has_id in Hr. rewrite Hid, Nat.eqb_refl in Hr. discriminate.
Qed.

Lemma db_patch_missing {R} (T : Table R) (i : Id) (f : R -> R) (db : DB) :
  find (has_id T i) (rows T db) = None ->
  db_patch T i f db = Throw "Update on nonexistent document".
Proof. intros H. unfold db_patch. rewrite H. reflexivity. Qed.

Lemma db_delete_missing {R} (T : Table R) (i : Id) (db : DB) :
  find (has_id T i) (rows T db) = None ->
  db_delete T i db = Throw "Delete on nonexistent document".
Proof. intros H. unfold db_delete. rewrite H. reflexivity. Qed.

Lemma db_delete_ok {R} (T : Table R) (i : Id) (db : DB) (x : R) :
  find (has_id T i) (rows T db) = Some x ->
  db_delete T i db =
  Ok tt (set_rows T (filter (fun r => negb (has_id T i r)) (rows T db)) db).
Proof. intros H. unfold db_delete. rewrite H. reflexivity. Qed.

(** ** Deleting a thread *)

(** [deleteThread], in closed form. *)
Lemma deleteThread_run (thread_id : Id) (db : DB) :
  unique_ids messagesT db ->
  deleteThread thread_id db =
  match find (has_id threadsT thread_id) (threads db) with
  | Some _ =>
      Ok true
        (with_threads
           (filter (fun t => negb (has_id threadsT thread_id t)) (threads db))
           (with_messages
              (filter (fun m => negb (message_of_thread thread_id m))
                 (messages db)) db))
  | None => Throw "Delete on nonexistent document"
  end.
Proof.
  intros Hm. unfold deleteThread.
  unfold bind at 1. unfold collect, gets. unfold bind at 1.
  rewrite (delete_where messagesT _ db lawful_messages Hm).
  unfold bind at 1.
  destruct (find (has_id threadsT thread_id) (threads db)) as [th|] eqn:E.
  - erewrite db_delete_ok by (destruct db; exact E).
    destruct db; reflexivity.
  - rewrite db_delete_missing by (destruct db; exact E). reflexivity.
Qed.

(** X4.  On a table of messages with unique ids, [deleteThread] of a thread
    that exists removes the thread and every message of it and keeps every
    other thread and message; of a thread that does not exist it throws, so
    that the transaction deletes nothing. *)
Theorem deleteThread_cascade (thread_id : Id) (db : DB) :
  unique_ids messagesT db ->
  (forall th,
     find (has_id threadsT thread_id) (threads db) = Some th ->
     exists db',
       deleteThread thread_id db = Ok true db' /\
       find (has_id threadsT thread_id) (threads db') = None /\
       filter (message_of_thread thread_id) (messages db') = [] /\
       (forall m, In m (messages db) -> Message.thread_id m <> thread_id ->
                  In m (messages db')) /\
       (forall t, In t (threads db) -> Thread._id t <> thread_id ->
                  In t (threads db'))) /\
  (find (has_id threadsT thread_id) (threads db) = None ->
   deleteThread thread_id db = Throw "Delete on nonexistent document").
Proof.
  intros Hm. rewrite (deleteThread_run thread_id db Hm). split.
  - intros th Hth. rewrite Hth. eexists. split; [reflexivity|].
    destruct db; cbn in *.
    split; [apply find_removed|].
    split.
    { apply filter_nil. intros m Hin. apply filter_In in Hin as (_ & Hin).
      apply negb_true_iff. exact Hin. }
    split.
    + intros m Hin Hne. apply filter_In. split; [exact Hin|].
      apply negb_true_iff. unfold message_of_thread. apply Nat.eqb_neq.
      exact Hne.
    + intros t Hin Hne. apply filter_In. split; [exact Hin|].
      apply negb_true_iff. unfold has_id. apply Nat.eqb_neq. exact Hne.
  - intros Hnone. rewrite Hnone. reflexivity.
Qed.

Lemma deleteThread_cascade_witness :
  (exists db',
     deleteThread 2 Sample.db_thread = Ok true db' /\
     find (has_id threadsT 2) (threads db') = None /\
     filter (message_of_thread 2) (messages db') = []) /\
  deleteThread 9 Sample.db_thread = Throw "Delete on nonexistent document".
Proof.
  assert (Hu : unique_ids messagesT Sample.db_thread).
  { unfold unique_ids. cbn. constructor; [simpl; tauto | constructor]. }
  destruct (deleteThread_cascade 2 Sample.db_thread Hu) as (Hok & _).
  destruct (deleteThread_cascade 9 Sample.db_thread Hu) as (_ & Hmiss).
  split.
  - destruct (Hok Sample.thread2 eq_refl) as (db' & Hrun & Hgone & Hmsgs & _).
    exists db'. repeat split; assumption.
  - apply Hmiss. reflexivity.
Defined.

(** ** Editing a message *)

(** X5.  [editMessage] returns null for an id without a message.  For a
    message that exists it throws when the editor is not the author, the
    developer included; otherwise it rewrites the content, sets [is_edited]
    and [edited_at], stamps the activity of the thread and leaves the
    counters of the thread as they are.  When the thread of the message is
    gone it throws after the checks, so that nothing is written. *)
Theorem editMessage_own_only (now : string) (message_id : Id)
    (new_content : string) (editor : Role) (db : DB) :
  (find (has_id messagesT message_id) (messages db) = None ->
   editMessage now message_id new_content editor db = Ok None db) /\
  (forall m,
     find (has_id messagesT message_id) (messages db) = Some m ->
     (Message.author m <> editor ->
      editMessage now message_id new_content editor db =
        Throw "No puedes editar mensajes de otros usuarios") /\
     (Message.author m = editor ->
      find (has_id threadsT (Message.thread_id m)) (threads db) = None ->
      editMessage now message_id new_content editor db =
        Throw "Update on nonexistent document") /\
     (forall th,
        Message.author m = editor ->
        find (has_id threadsT (Message.thread_id m)) (threads db) = Some th ->
        exists db' m' th',
          editMessage now message_id new_content editor db
            = Ok (Some message_id) db' /\
          find (has_id messagesT message_id) (messages db') = Some m' /\
          Message.content m' = new_content /\
          Message.is_edited m' = true /\
          Message.edited_at m' = Some now /\
          Message.author m' = Message.author m /\
          Message.created_at m' = Message.created_at m /\
          find (has_id threadsT (Message.thread_id m)) (threads db')
            = Some th' /\
          Thread.last_activity th' = now /\
          Thread.unread_count_client th' = Thread.unread_count_client th /\
          Thread.unread_count_developer th'
            = Thread.unread_count_developer th)).
Proof.
  split.
  - intros Hnone. unfold editMessage, bind, db_get, gets.
    change (rows messagesT db) with (messages db). rewrite Hnone. reflexivity.
  - intros m Hm.
    assert (Hstart : editMessage now message_id new_content editor db =
              if negb (Role_eqb (Message.author m) editor)
              then Throw "No puedes editar mensajes de otros usuarios"
              else
                (db_patch threadsT (Message.thread_id m)
                   (Thread.apply (Thread.mkPatch (Some now) None None None))
                 ;;; ret (Some message_id))
                  (with_messages
                     (map (patching messagesT message_id
                             (Message.set_edit new_content true now))
                        (messages db)) db)).
    { unfold editMessage. unfold bind at 1. unfold db_get, gets.
      change (rows messagesT db) with (messages db). rewrite Hm.
      destruct (negb (Role_eqb (Message.author m) editor)); [reflexivity|].
      unfold bind at 1.
      rewrite db_patch_ok by (apply (find_in_id messagesT _ _ _ Hm)).
      reflexivity. }
    rewrite Hstart. split; [|split].
    + intros Hne. destruct (Message.author m), editor; try congruence;
        reflexivity.
    + intros Heq Hnone. rewrite Heq.
      replace (negb (Role_eqb editor editor)) with false
        by (destruct editor; reflexivity).
      unfold bind. rewrite db_patch_missing; [reflexivity|].
      destruct db; exact Hnone.
    + intros th Heq Hth.
      replace (negb (Role_eqb (Message.author m) editor)) with false
        by (rewrite Heq; destruct editor; reflexivity).
      unfold bind.
      rewrite db_patch_ok
        by (destruct db; apply (find_in_id threadsT _ _ _ Hth)).
      unfold ret. do 3 eexists. split; [reflexivity|].
      destruct db; cbn in *.
      split; [apply (find_patching messagesT); [reflexivity | exact Hm]|].
      do 5 (split; [reflexivity|]).
      split; [apply (find_patching threadsT); [reflexivity | exact Hth]|].
      repeat split.
Qed.

Lemma editMessage_own_only_witness :
  editMessage "t9" 3 "Hola de nuevo" developer Sample.db_thread =
    Throw "No puedes editar mensajes de otros usuarios" /\
  exists db' m',
    editMessage "t9" 3 "Hola de nuevo" client Sample.db_thread
      = Ok (Some 3) db' /\
    find (has_id messagesT 3) (messages db') = Some m' /\
    Message.content m' = "Hola de nuevo".
Proof.
  destruct (editMessage_own_only "t9" 3 "Hola de nuevo" developer
              Sample.db_thread) as (_ & Hdev).
  destruct (editMessage_own_only "t9" 3 "Hola de nuevo" client
              Sample.db_thread) as (_ & Hcli).
  split.
  - apply (Hdev Sample.message3 eq_refl). discriminate.
  - destruct (Hcli Sample.message3 eq_refl) as (_ & _ & Hok).
    destruct (Hok Sample.thread2 eq_refl eq_refl)
      as (db' & m' & th' & Hrun & Hfind & Hcontent & _).
    exists db', m'. repeat split; assumption.
Defined.

(** ** Changing the status of a thread *)

(** X6.  On a thread that exists, [updateThreadStatus] sets the status,
    stamps the activity, appends one public [status_update] message written
    by [updated_by], and moves the counters as a public message of that role
    does: the counter of the other role goes up by one and the role's own
    counter is reset.  On a thread that does not exist it throws. *)
Theorem updateThreadStatus_counts_as_message (now : string) (thread_id : Id)
    (status : ThreadStatus.t) (updated_by : Role) (note : option string)
    (db : DB) :
  (forall th,
     find (has_id threadsT thread_id) (threads db) = Some th ->
     exists db' th',
       updateThreadStatus now thread_id status updated_by note db
         = Ok thread_id db' /\
       find (has_id threadsT thread_id) (threads db') = Some th' /\
       Thread.status th' = status /\
       Thread.last_activity th' = now /\
       unreadCount (opposite updated_by) th'
         = (unreadCount (opposite updated_by) th + 1)%Z /\
       unreadCount updated_by th' = 0%Z /\
       Thread.is_archived th' = Thread.is_archived th /\
       messages db' =
         (messages db ++
          [Message.mk (next_id db) thread_id updated_by
             (statusSystemMessage status note) MessageType.status_update
             false false now None None None None None None None None None
             None None])%list) /\
  (find (has_id threadsT thread_id) (threads db) = None ->
   updateThreadStatus now thread_id status updated_by note db
     = Throw "Update on nonexistent document").
Proof.
  split.
  - intros th Hth. unfold updateThreadStatus.
    unfold bind at 1.
    rewrite db_patch_ok by (apply (find_in_id threadsT _ _ _ Hth)).
    unfold bind at 1. unfold db_insert at 1.
    unfold bind at 1. unfold db_get, gets.
    set (db2 := with_next_id _ _).
    assert (Hth2 : find (has_id threadsT thread_id) (rows threadsT db2)
                   = Some (thread_with_status status now th)).
    { subst db2. destruct db. cbn.
      apply (find_patching threadsT); [reflexivity | exact Hth]. }
    rewrite Hth2. unfold bind at 1.
    rewrite db_patch_ok by (apply (find_in_id threadsT _ _ _ Hth2)).
    unfold bind, ret. do 2 eexists. split; [reflexivity|].
    subst db2. destruct db. cbn in *.
    split.
    { apply (find_patching threadsT); [reflexivity|].
      apply (find_patching threadsT); [reflexivity | exact Hth]. }
    destruct updated_by; cbn; repeat split.
  - intros Hnone. unfold updateThreadStatus, bind.
    rewrite db_patch_missing by exact Hnone. reflexivity.
Qed.

Lemma updateThreadStatus_counts_as_message_witness :
  exists db' th',
    updateThreadStatus "t1" 2 ThreadStatus.resolved developer None
      Sample.db_thread = Ok 2 db' /\
    find (has_id threadsT 2) (threads db') = Some th' /\
    Thread.status th' = ThreadStatus.resolved /\
    Thread.unread_count_client th' = 3%Z /\
    Thread.unread_count_developer th' = 0%Z.
Proof.
  destruct (proj1 (updateThreadStatus_counts_as_message "t1" 2
                     ThreadStatus.resolved developer None Sample.db_thread)
              Sample.thread2 eq_refl)
    as (db' & th' & Hrun & Hfind & Hstatus & _ & Hother & Hown & _).
  exists db', th'. repeat split; assumption.
Defined.

(** ** Private notes and messages to no thread *)

(** X7.  [addDeveloperNote] on a thread that exists appends a private
    message of the developer, stamps the activity of the thread and leaves
    both counters as they are; on a thread that does not exist it throws,
    and the note is not kept. *)
Theorem addDeveloperNote_keeps_counters (now : string) (thread_id : Id)
    (note : string) (db : DB) :
  (forall th,
     find (has_id threadsT thread_id) (threads db) = Some th ->
     exists db' th' m,
       addDeveloperNote now thread_id note db = Ok (next_id db) db' /\
       messages db' = (messages db ++ [m])%list /\
       Message.is_private m = true /\
       Message.author m = developer /\
       Message.thread_id m = thread_id /\
       find (has_id threadsT thread_id) (threads db') = Some th' /\
       Thread.last_activity th' = now /\
       Thread.unread_count_client th' = Thread.unread_count_client th /\
       Thread.unread_count_developer th'
         = Thread.unread_count_developer th) /\
  (find (has_id threadsT thread_id) (threads db) = None ->
   addDeveloperNote now thread_id note db
     = Throw "Update on nonexistent document").
Proof.
  split.
  - intros th Hth. unfold addDeveloperNote.
    unfold bind at 1. unfold db_insert at 1. unfold bind at 1.
    rewrite db_patch_ok
      by (destruct db; apply (find_in_id threadsT _ _ _ Hth)).
    unfold ret. destruct db; cbn in *.
    do 3 eexists. split; [reflexivity|].
    split; [reflexivity|]. do 3 (split; [reflexivity|]).
    split; [apply (find_patching threadsT); [reflexivity | exact Hth]|].
    repeat split.
  - intros Hnone. unfold addDeveloperNote.
    unfold bind at 1. unfold db_insert at 1. unfold bind at 1.
    rewrite db_patch_missing by (destruct db; exact Hnone). reflexivity.
Qed.

Lemma addDeveloperNote_keeps_counters_witness :
  (exists db' th',
     addDeveloperNote "t1" 2 "Revisar" Sample.db_thread = Ok 7 db' /\
     find (has_id threadsT 2) (threads db') = Some th' /\
     Thread.unread_count_client th' = 2%Z /\
     Thread.unread_count_developer th' = 3%Z) /\
  addDeveloperNote "t1" 9 "Revisar" Sample.db_thread
    = Throw "Update on nonexistent document".
Proof.
  split.
  - destruct (proj1 (addDeveloperNote_keeps_counters "t1" 2 "Revisar"
                       Sample.db_thread) Sample.thread2 eq_refl)
      as (db' & th' & m & Hrun & _ & _ & _ & _ & Hfind & _ & Hc & Hd).
    exists db', th'. repeat split; assumption.
  - apply (proj2 (addDeveloperNote_keeps_counters "t1" 9 "Revisar"
                    Sample.db_thread)).
    reflexivity.
Defined.

(** X8.  [sendMessage] to a thread id without a thread still inserts the
    message and returns its id, and writes nothing else; to a thread whose
    project is gone it throws after the insert, so that nothing is kept. *)
Theorem sendMessage_without_thread (env : Env) (now : string)
    (args : SendMessageArgs.t) (db : DB) :
  (find (has_id threadsT (SendMessageArgs.thread_id args)) (threads db)
     = None ->
   sendMessage env now args db =
     Ok (next_id db)
        (with_next_id (S (next_id db))
           (with_messages
              (messages db ++ [sentMessage now args (next_id db)]) db))) /\
  (forall th,
     find (has_id threadsT (SendMessageArgs.thread_id args)) (threads db)
       = Some th ->
     find (has_id projectsT (Thread.project_id th)) (projects db) = None ->
     sendMessage env now args db = Throw "Update on nonexistent document").
Proof.
  split.
  - intros Hnone. unfold sendMessage.
    unfold bind at 1. unfold db_insert at 1.
    unfold bind at 1. unfold db_get at 1, gets.
    replace (rows threadsT _) with (threads db) by (destruct db; reflexivity).
    rewrite Hnone. unfold bind, ret. destruct db; reflexivity.
  - intros th Hth Hnone. unfold sendMessage.
    unfold bind at 1. unfold db_insert at 1.
    unfold bind at 1. unfold db_get at 1, gets.
    replace (rows threadsT _) with (threads db) by (destruct db; reflexivity).
    rewrite Hth. unfold bind at 1. unfold bind at 1.
    rewrite db_patch_ok
      by (destruct db; apply (find_in_id threadsT _ _ _ Hth)).
    unfold bind at 1.
    rewrite db_patch_missing by (destruct db; exact Hnone). reflexivity.
Qed.

Lemma sendMessage_without_thread_witness :
  exists db',
    sendMessage Sample.env "t1"
      (SendMessageArgs.mk 9 "Hola" client None None None None None None None)
      Sample.db_thread = Ok 7 db' /\
    length (messages db') = 2 /\
    threads db' = threads Sample.db_thread.
Proof.
  rewrite (proj1 (sendMessage_without_thread Sample.env "t1"
                    (SendMessageArgs.mk 9 "Hola" client None None None None
                       None None None) Sample.db_thread) eq_refl).
  eexists. split; [reflexivity|]. split; reflexivity.
Defined.

(** ** The total of unread messages after a change to one thread *)

Lemma sumUnread_counted (viewer : Role) (l : list Thread.t) :
  sumUnread viewer
    (filter (fun t => opt_bool_eq (Thread.is_archived t) false) l)
  = fold_right (fun t total => (counted viewer t + total)%Z) 0%Z l.
Proof.
  unfold sumUnread. induction l as [|t l IH]; [reflexivity|].
  cbn [filter fold_right]. unfold counted at 1.
  destruct (opt_bool_eq (Thread.is_archived t) false);
    cbn [fold_right]; rewrite IH; lia.
Qed.

Lemma counted_patched (viewer : Role) (i : Id) (f : Thread.t -> Thread.t)
    (l : list Thread.t) (th : Thread.t) :
  NoDup (map Thread._id l) ->
  find (has_id threadsT i) l = Some th ->
  fold_right (fun t total => (counted viewer t + total)%Z) 0%Z
    (map (patching threadsT i f) l)
  = (fold_right (fun t total => (counted viewer t + total)%Z) 0%Z l
     - counted viewer th + counted viewer (f th))%Z.
Proof.
  induction l as [|t l IH]; [discriminate|].
  intros Hnd Hfind. inversion Hnd as [|? ? Hnotin Hnd']; subst.
  cbn [map fold_right find] in *.
  unfold patching at 1. unfold has_id in Hfind at 1. unfold has_id at 1.
  cbn [id_of threadsT] in *.
  destruct (Nat.eqb (Thread._id t) i) eqn:E.
  - injection Hfind as ->. apply Nat.eqb_eq in E.
    assert (Hsame : map (patching threadsT i f) l = l).
    { clear IH Hnd Hnd'. induction l as [|a l IHl]; [reflexivity|].
      cbn [map]. rewrite IHl by (intro H; apply Hnotin; right; exact H).
      unfold patching, has_id. cbn [id_of threadsT].
      destruct (Nat.eqb (Thread._id a) i) eqn:Ea; [|reflexivity].
      apply Nat.eqb_eq in Ea. exfalso. apply Hnotin. left. congruence. }
    rewrite Hsame. lia.
  - rewrite (IH Hnd' Hfind). lia.
Qed.

Lemma total_patched (viewer : Role) (i : Id) (f : Thread.t -> Thread.t)
    (db : DB) (th : Thread.t) :
  unique_ids threadsT db ->
  find (has_id threadsT i) (threads db) = Some th ->
  getTotalUnreadCount viewer
    (set_rows threadsT (map (patching threadsT i f) (threads db)) db)
  = (getTotalUnreadCount viewer db - counted viewer th
     + counted viewer (f th))%Z.
Proof.
  intros Huniq Hfind. rewrite !getTotalUnreadCount_sum, !sumUnread_counted.
  replace (threads (set_rows threadsT _ db))
    with (map (patching threadsT i f) (threads db))
    by (destruct db; reflexivity).
  apply counted_patched; [exact Huniq | exact Hfind].
Qed.

(** X9.  On a database whose thread ids are unique, archiving a thread
    takes what the thread counted for out of the total of
    [getTotalUnreadCount], for both viewers, and taking it out of the
    archive puts its counter in; the other threads count as before.  A
    thread that does not exist makes [toggleThreadArchive] throw. *)
Theorem toggleThreadArchive_total (now : string) (thread_id : Id)
    (archived : bool) (db : DB)
    (Huniq : unique_ids threadsT db) :
  (forall th,
     find (has_id threadsT thread_id) (threads db) = Some th ->
     exists db',
       toggleThreadArchive now thread_id archived db = Ok archived db' /\
       forall viewer,
         getTotalUnreadCount viewer db' =
         (getTotalUnreadCount viewer db - counted viewer th
          + (if archived then 0 else unreadCount viewer th))%Z) /\
  (find (has_id threadsT thread_id) (threads db) = None ->
   toggleThreadArchive now thread_id archived db
     = Throw "Update on nonexistent document").
Proof.
  split.
  - intros th Hth. unfold toggleThreadArchive, bind.
    rewrite db_patch_ok by (apply (find_in_id threadsT _ _ _ Hth)).
    unfold ret. eexists. split; [reflexivity|].
    intro viewer.
    rewrite (total_patched viewer thread_id _ db th Huniq Hth).
    f_equal. unfold counted. cbn. destruct archived; reflexivity.
  - intro Hnone. unfold toggleThreadArchive, bind.
    rewrite db_patch_missing by exact Hnone. reflexivity.
Qed.

Lemma toggleThreadArchive_total_witness :
  exists db',
    toggleThreadArchive "t1" 2 true Sample.db_thread = Ok true db' /\
    getTotalUnreadCount developer Sample.db_thread = 3%Z /\
    getTotalUnreadCount developer db' = 0%Z.
Proof.
  assert (Huniq : unique_ids threadsT Sample.db_thread).
  { repeat constructor; cbn; intuition discriminate. }
  destruct (proj1 (toggleThreadArchive_total "t1" 2 true Sample.db_thread
                     Huniq) Sample.thread2 eq_refl) as (db' & Hrun & Htotal).
  exists db'. split; [exact Hrun|]. split; [reflexivity|].
  rewrite (Htotal developer). reflexivity.
Defined.

(** X10.  On a database whose thread ids are unique, [markThreadAsRead]
    takes what the thread counted for the reader out of the reader's total,
    and leaves the total of the other role as it was. *)
Theorem markThreadAsRead_total (thread_id : Id) (reader : Role) (db : DB)
    (th : Thread.t)
    (Huniq : unique_ids threadsT db)
    (Hth : find (has_id threadsT thread_id) (threads db) = Some th) :
  exists db',
    markThreadAsRead thread_id reader db = Ok thread_id db' /\
    getTotalUnreadCount reader db' =
      (getTotalUnreadCount reader db - counted reader th)%Z /\
    getTotalUnreadCount (opposite reader) db' =
      getTotalUnreadCount (opposite reader) db.
Proof.
  unfold markThreadAsRead, bind.
  rewrite db_patch_ok by (apply (find_in_id threadsT _ _ _ Hth)).
  unfold ret. eexists. split; [reflexivity|].
  rewrite !(total_patched _ thread_id _ db th Huniq Hth).
  unfold counted, unreadCount.
  destruct reader; cbn; destruct (opt_bool_eq (Thread.is_archived th) false);
    split; lia.
Qed.

Lemma markThreadAsRead_total_witness :
  exists db',
    markThreadAsRead 2 developer Sample.db_thread = Ok 2 db' /\
    getTotalUnreadCount client db'
      = getTotalUnreadCount client Sample.db_thread.
Proof.
  assert (Huniq : unique_ids threadsT Sample.db_thread).
  { repeat constructor; cbn; intuition discriminate. }
  destruct (markThreadAsRead_total 2 developer Sample.db_thread
              Sample.thread2 Huniq eq_refl) as (db' & Hrun & _ & Hother).
  exists db'. split; [exact Hrun | exact Hother].
Defined.

(** ** Reading the messages of a thread *)

Lemma rev_firstn_rev {A} (n : nat) (l : list A) :
  rev (firstn n (rev l)) = lastn n l.
Proof.
  unfold lastn. rewrite firstn_rev, rev_involutive. reflexivity.
Qed.

Lemma rev_filter_rev {A} (keep : A -> bool) (l : list A) :
  rev (filter keep (rev l)) = filter keep l.
Proof.
  induction l as [|a l IH]; [reflexivity|].
  cbn [rev]. rewrite filter_app, rev_app_distr, IH. cbn.
  destruct (keep a); reflexivity.
Qed.

Lemma filter_lastn_length {A} (keep : A -> bool) (n : nat) (l : list A) :
  length (filter keep (lastn n l)) <= n.
Proof.
  unfold lastn.
  assert (H := filter_length_le keep (skipn (length l - n) l)).
  rewrite length_skipn in H. lia.
Qed.

(** X11.  [getThreadMessages] returns messages of the thread only, oldest
    first.  Without a limit, or with the limit 0, these are all the
    messages of the thread the reader may see: all of them with
    [include_private], the ones that are not private otherwise.  With a
    limit [n > 0] the newest [n] messages of the thread are taken first and
    the private ones are dropped from those, so that at most [n] messages
    are returned, and fewer when a private message is among the newest
    [n]. *)
Theorem getThreadMessages_view (thread_id : Id)
    (include_private : option bool) (limit : option nat) (db : DB) :
  let all := filter (message_of_thread thread_id) (messages db) in
  (limit = None \/ limit = Some 0 ->
   getThreadMessages thread_id include_private limit db
     = filter (visible include_private) all) /\
  (forall n, limit = Some (S n) ->
     getThreadMessages thread_id include_private limit db
       = filter (visible include_private) (lastn (S n) all) /\
     length (getThreadMessages thread_id include_private limit db) <= S n) /\
  (forall m,
     In m (getThreadMessages thread_id include_private limit db) ->
     In m (messages db) /\ Message.thread_id m = thread_id /\
     (Message.is_private m = true -> include_private = Some true)).
Proof.
  intro all.
  assert (Hvis : forall l : list Message.t,
            rev (if is_true_opt include_private then l
                 else filter (fun msg => negb (Message.is_private msg)) l)
            = filter (visible include_private) (rev l)).
  { intro l. unfold visible.
    destruct (is_true_opt include_private); cbn.
    - rewrite filter_all. reflexivity.
    - rewrite <- (rev_filter_rev _ (rev l)), rev_involutive. reflexivity. }
  assert (Hnone : getThreadMessages thread_id include_private None db
                  = filter (visible include_private) all).
  { unfold getThreadMessages. rewrite Hvis, rev_involutive. reflexivity. }
  assert (Hzero : getThreadMessages thread_id include_private (Some 0) db
                  = filter (visible include_private) all).
  { unfold getThreadMessages. rewrite Hvis, rev_involutive. reflexivity. }
  assert (Hsome : forall n,
            getThreadMessages thread_id include_private (Some (S n)) db
            = filter (visible include_private) (lastn (S n) all)).
  { intro n. unfold getThreadMessages. rewrite Hvis, rev_firstn_rev.
    reflexivity. }
  split; [intros [-> | ->]; assumption|].
  split.
  - intros n ->. split; [apply Hsome|].
    rewrite Hsome. apply filter_lastn_length.
  - intros m Hin.
    assert (Hin' : In m (filter (visible include_private) all)).
    { destruct limit as [[|n]|].
      - rewrite Hzero in Hin. exact Hin.
      - rewrite Hsome in Hin. apply filter_In in Hin. destruct Hin as [Hl Hv].
        apply filter_In. split; [|exact Hv].
        unfold lastn in Hl.
        rewrite <- (firstn_skipn (length all - S n) all).
        apply in_or_app. right. exact Hl.
      - rewrite Hnone in Hin. exact Hin. }
    apply filter_In in Hin'. destruct Hin' as [Hall Hv].
    apply filter_In in Hall. destruct Hall as [Hdb Hthread].
    split; [exact Hdb|]. split.
    + unfold message_of_thread in Hthread. apply Nat.eqb_eq in Hthread.
      exact Hthread.
    + intro Hpriv. unfold visible in Hv. rewrite Hpriv in Hv.
      rewrite orb_false_r in Hv. unfold is_true_opt in Hv.
      destruct include_private as [[|]|]; try discriminate. reflexivity.
Qed.

(** ** The folder of a new file *)

Lemma folderMap_add_recorded (folders : list Folder.t) (fm : FolderMap)
    (folder : Folder.t) :
  recorded_in folders fm -> In folder folders ->
  recorded_in folders (folderMap_add fm folder).
Proof.
  intros Hfm Hin i. unfold folderMap_add.
  repeat match goal with
         | |- context [String.eqb ?a ?b] => destruct (String.eqb a b)
         end; cbn; intros [H | [H | [H | H]]];
    try (injection H as <-; exists folder; split; [exact Hin | reflexivity]);
    apply Hfm; auto.
Qed.

Lemma buildFolderMap_recorded (folders : list Folder.t) :
  recorded_in folders (buildFolderMap folders).
Proof.
  unfold buildFolderMap.
  assert (Hgen : forall (l : list Folder.t) (fm : FolderMap),
            (forall f, In f l -> In f folders) ->
            recorded_in folders fm ->
            recorded_in folders (fold_left folderMap_add l fm)).
  { induction l as [|a l IH]; intros fm Hsub Hfm; [exact Hfm|].
    cbn [fold_left]. apply IH.
    - intros f Hf. apply Hsub. right. exact Hf.
    - apply folderMap_add_recorded; [exact Hfm|]. apply Hsub. left.
      reflexivity. }
  apply Hgen; [auto|].
  intros i [H | [H | [H | H]]]; discriminate.
Qed.

Lemma targetFolder_in (folders : list Folder.t) (fileType : string) (i : Id) :
  targetFolder folders fileType = Some i ->
  exists f, In f folders /\ Folder._id f = i.
Proof.
  unfold targetFolder. rewrite autoFolderChoice_bucket.
  assert (Hrec := buildFolderMap_recorded folders).
  set (fm := buildFolderMap folders) in *.
  assert (Hfirst : option_map Folder._id (hd_error folders) = Some i ->
                   exists f, In f folders /\ Folder._id f = i).
  { destruct folders as [|a l]; [discriminate|]. cbn. intro H.
    injection H as <-. exists a. split; [left|]; reflexivity. }
  unfold bucketFolder, orElse.
  destruct (fm_images fm) eqn:Himages, (fm_documents fm) eqn:Hdocuments,
    (fm_pdfs fm) eqn:Hpdfs, (fm_other fm) eqn:Hother,
    (classifyFile fileType);
    intro H; try (apply Hfirst; exact H);
    injection H as <-; apply Hrec; auto.
Qed.

Lemma targetFolder_fresh (now : string) (project_id : Id) (created_by : Role)
    (i : Id) (fileType : string) :
  targetFolder (fourFolders now project_id created_by i) fileType
  = Some (bucketIndex (classifyFile fileType) + i).
Proof.
  unfold targetFolder. rewrite autoFolderChoice_bucket.
  destruct (classifyFile fileType); reflexivity.
Qed.

Lemma foldersOf_fresh (now : string) (project_id : Id) (created_by : Role)
    (db : DB) :
  existsb (folder_of_project project_id) (project_folders db) = false ->
  foldersOf project_id (ensureFolders now project_id created_by db)
  = fourFolders now project_id created_by (next_id db).
Proof.
  intro Hnone. unfold foldersOf, ensureFolders. rewrite Hnone.
  replace (project_folders (with_next_id _ _))
    with (project_folders db
          ++ fourFolders now project_id created_by (next_id db))%list
    by (destruct db; reflexivity).
  rewrite filter_app.
  rewrite (filter_nil (folder_of_project project_id) (project_folders db)).
  - cbn. unfold folder_of_project. cbn. rewrite Nat.eqb_refl. reflexivity.
  - intros x Hx. destruct (folder_of_project project_id x) eqn:E;
      [|reflexivity].
    rewrite <- Hnone. symmetry. apply existsb_exists. exists x. auto.
Qed.

Lemma withFile_files (file : ProjectFile.t) (db : DB) :
  project_files (withFile file db) = (project_files db ++ [file])%list.
Proof. destruct db; reflexivity. Qed.

Lemma addFileToProject_run (storage : Storage) (now : string)
    (args : AddFileArgs.t) (db : DB) :
  addFileToProject storage now args db =
  match AddFileArgs.folder_id args with
  | Some folder =>
      Ok (next_id db)
         (withFile (addedFile storage now args (next_id db) (Some folder)) db)
  | None =>
      let db1 := ensureFolders now (AddFileArgs.project_id args) client db in
      Ok (next_id db1)
         (withFile
            (addedFile storage now args (next_id db1)
               (targetFolder (foldersOf (AddFileArgs.project_id args) db1)
                  (AddFileArgs.file_type args)))
            db1)
  end.
Proof.
  unfold addFileToProject.
  destruct (AddFileArgs.folder_id args) as [folder|].
  - unfold bind, ret, db_insert. destruct db; reflexivity.
  - unfold bind at 1. rewrite getAutoFolderId_run. cbv zeta.
    unfold db_insert.
    destruct (ensureFolders now (AddFileArgs.project_id args) client db);
      reflexivity.
Qed.

(** X12.  [getAutoFolderId] never throws and never answers [undefined]: it
    gives the id of a folder of the project.  In a project without folders
    it first creates the four default folders, as the client, and gives the
    folder of the bucket of the file type; in a project that has folders it
    creates none. *)
Theorem getAutoFolderId_in_project (now : string) (projectId : Id)
    (fileType : string) (db : DB) :
  exists folder f db',
    getAutoFolderId now projectId fileType db = Ok (Some folder) db' /\
    In f (project_folders db') /\
    Folder._id f = folder /\
    Folder.project_id f = projectId /\
    (existsb (folder_of_project projectId) (project_folders db) = true ->
     db' = db) /\
    (existsb (folder_of_project projectId) (project_folders db) = false ->
     folder = bucketIndex (classifyFile fileType) + next_id db /\
     project_folders db' =
       (project_folders db
        ++ fourFolders now projectId client (next_id db))%list).
Proof.
  rewrite getAutoFolderId_run.
  set (db1 := ensureFolders now projectId client db).
  assert (Hne : foldersOf projectId db1 <> []).
  { apply existsb_filter_nonempty. apply ensureFolders_exists. }
  destruct (targetFolder_some _ fileType Hne) as (folder & Htarget).
  destruct (targetFolder_in _ _ _ Htarget) as (f & Hf & Hid).
  apply filter_In in Hf. destruct Hf as [Hin Hproj].
  exists folder, f, db1. rewrite Htarget.
  split; [reflexivity|]. split; [exact Hin|]. split; [exact Hid|].
  split; [apply Nat.eqb_eq; exact Hproj|].
  split.
  - intro Hsome. apply ensureFolders_settled. exact Hsome.
  - intro Hnone. split.
    + subst db1. rewrite (foldersOf_fresh _ _ _ _ Hnone) in Htarget.
      rewrite targetFolder_fresh in Htarget. congruence.
    + subst db1. unfold ensureFolders. rewrite Hnone.
      destruct db; reflexivity.
Qed.

(** X13.  [addFileToProject] keeps the folder the caller names, and creates
    no folder then.  Without one, in a project that has no folder, it creates
    the four default folders and puts the file in the folder of the bucket of
    its type; the file never lands at the root of the project.  The new row
    has no tags when none are given. *)
Theorem addFileToProject_folder (storage : Storage) (now : string)
    (args : AddFileArgs.t) (db : DB) :
  (forall folder,
     AddFileArgs.folder_id args = Some folder ->
     addFileToProject storage now args db =
       Ok (next_id db)
          (withFile
             (addedFile storage now args (next_id db) (Some folder)) db)) /\
  (AddFileArgs.folder_id args = None ->
   existsb (folder_of_project (AddFileArgs.project_id args))
     (project_folders db) = false ->
   addFileToProject storage now args db =
     Ok (4 + next_id db)
        (withFile
           (addedFile storage now args (4 + next_id db)
              (Some (bucketIndex (classifyFile (AddFileArgs.file_type args))
                     + next_id db)))
           (ensureFolders now (AddFileArgs.project_id args) client db))) /\
  (exists i file db',
     addFileToProject storage now args db = Ok i db' /\
     (project_files db' = project_files db ++ [file])%list /\
     ProjectFile._id file = i /\
     ProjectFile.folder_id file <> None /\
     (AddFileArgs.tags args = None -> ProjectFile.tags file = [])).
Proof.
  rewrite addFileToProject_run.
  split; [intros folder ->; reflexivity|].
  split.
  - intros -> Hnone. cbv zeta.
    rewrite (foldersOf_fresh _ _ _ _ Hnone), targetFolder_fresh.
    unfold ensureFolders at 1 2. rewrite Hnone.
    replace (next_id (with_next_id _ _)) with (4 + next_id db)
      by (destruct db; reflexivity).
    reflexivity.
  - destruct (AddFileArgs.folder_id args) as [folder|].
    + do 3 eexists. split; [reflexivity|].
      split; [apply withFile_files|].
      split; [reflexivity|]. split; [discriminate|].
      intros Htags. cbn. rewrite Htags. reflexivity.
    + cbv zeta.
      set (db1 := ensureFolders now (AddFileArgs.project_id args) client db).
      assert (Hne : foldersOf (AddFileArgs.project_id args) db1 <> []).
      { apply existsb_filter_nonempty. apply ensureFolders_exists. }
      destruct (targetFolder_some _ (AddFileArgs.file_type args) Hne)
        as (folder & ->).
      do 3 eexists. split; [reflexivity|].
      split.
      { rewrite withFile_files. subst db1.
        rewrite ensureFolders_files. reflexivity. }
      split; [reflexivity|]. split; [discriminate|].
      intros Htags. cbn. rewrite Htags. reflexivity.
Qed.

Lemma addFileToProject_folder_witness :
  addFileToProject (fun _ => None) "t1"
    (AddFileArgs.mk 1 None 50 None "plano.pdf" "application/pdf" 10%Z None
       client)
    Sample.db_project
  = Ok (4 + next_id Sample.db_project)
      (withFile
         (addedFile (fun _ => None) "t1"
            (AddFileArgs.mk 1 None 50 None "plano.pdf" "application/pdf" 10%Z
               None client)
            (4 + next_id Sample.db_project)
            (Some (2 + next_id Sample.db_project)))
         (ensureFolders "t1" 1 client Sample.db_project)).
Proof.
  apply (proj1 (proj2 (addFileToProject_folder (fun _ => None) "t1"
                         (AddFileArgs.mk 1 None 50 None "plano.pdf"
                            "application/pdf" 10%Z None client)
                         Sample.db_project)));
    reflexivity.
Defined.

(** ** Sending a file *)

Lemma find_set_rows_other_threads (i : Id) (l : list Message.t) (db : DB) :
  find (has_id threadsT i)
    (rows threadsT (with_next_id (S (next_id db))
                      (set_rows messagesT l db)))
  = find (has_id threadsT i) (threads db).
Proof. destruct db; reflexivity. Qed.

(** X14.  [sendFileMessage] on a thread whose project exists inserts a
    public message of type [file], moves the counters of the thread as a
    public message does, and adds one project file that points back at the
    message, belongs to the project of the thread and sits in a folder.  On
    a thread id without a thread the message is inserted alone: no project
    file is made for it. *)
Theorem sendFileMessage_links_file (storage : Storage) (now : string)
    (args : SendFileArgs.t) (db : DB) :
  (forall th p,
     find (has_id threadsT (SendFileArgs.thread_id args)) (threads db)
       = Some th ->
     find (has_id projectsT (Thread.project_id th)) (projects db) = Some p ->
     exists db' m th' file,
       sendFileMessage storage now args db = Ok (next_id db) db' /\
       (messages db' = messages db ++ [m])%list /\
       Message._id m = next_id db /\
       Message.message_type m = MessageType.file /\
       Message.is_private m = false /\
       Message.file_id m = Some (SendFileArgs.file_id args) /\
       find (has_id threadsT (SendFileArgs.thread_id args)) (threads db')
         = Some th' /\
       unreadCount (opposite (SendFileArgs.author args)) th'
         = (unreadCount (opposite (SendFileArgs.author args)) th + 1)%Z /\
       unreadCount (SendFileArgs.author args) th' = 0%Z /\
       (project_files db' = project_files db ++ [file])%list /\
       ProjectFile.message_id file = Some (next_id db) /\
       ProjectFile.project_id file = Thread.project_id th /\
       ProjectFile.file_id file = SendFileArgs.file_id args /\
       ProjectFile.folder_id file <> None) /\
  (find (has_id threadsT (SendFileArgs.thread_id args)) (threads db) = None ->
   exists db' m,
     sendFileMessage storage now args db = Ok (next_id db) db' /\
     (messages db' = messages db ++ [m])%list /\
     Message.file_id m = Some (SendFileArgs.file_id args) /\
     project_files db' = project_files db /\
     threads db' = threads db).
Proof.
  split.
  - intros th p Hth Hp. unfold sendFileMessage. cbv zeta.
    unfold bind at 1. unfold db_insert at 1.
    unfold bind at 1. unfold db_get at 1, gets.
    rewrite find_set_rows_other_threads, Hth.
    set (db1 := with_next_id _ _).
    assert (Hth1 : find (has_id threadsT (SendFileArgs.thread_id args))
                     (rows threadsT db1) = Some th).
    { subst db1. rewrite find_set_rows_other_threads. exact Hth. }
    unfold bind at 1. unfold bind at 1.
    rewrite db_patch_ok by (apply (find_in_id threadsT _ _ _ Hth1)).
    set (db2 := set_rows threadsT _ db1).
    assert (Hp2 : find (has_id projectsT (Thread.project_id th))
                    (rows projectsT db2) = Some p).
    { subst db2 db1. destruct db. exact Hp. }
    unfold bind at 1.
    rewrite db_patch_ok by (apply (find_in_id projectsT _ _ _ Hp2)).
    set (db3 := set_rows projectsT _ db2).
    unfold try_catch, runMutation, bind at 1.
    rewrite addFileToProject_run. cbn [AddFileArgs.folder_id]. cbv zeta.
    cbn [AddFileArgs.project_id AddFileArgs.file_type].
    set (db4 := ensureFolders now (Thread.project_id th) client db3).
    assert (Hne : foldersOf (Thread.project_id th) db4 <> []).
    { apply existsb_filter_nonempty. apply ensureFolders_exists. }
    destruct (targetFolder_some _ (SendFileArgs.file_type args) Hne)
      as (folder & ->).
    unfold ret.
    set (file := addedFile storage now
                   (fileOfMessage args (Thread.project_id th) (next_id db))
                   (next_id db4) (Some folder)).
    change (AddFileArgs.mk (Thread.project_id th) None
              (SendFileArgs.file_id args) (Some (next_id db))
              (SendFileArgs.file_name args) (SendFileArgs.file_type args)
              (SendFileArgs.file_size args) None (SendFileArgs.author args))
      with (fileOfMessage args (Thread.project_id th) (next_id db)).
    fold file.
    assert (Hm : (messages (withFile file db4)
                  = messages db ++ [sentFile storage now args (next_id db)])
                 %list).
    { subst db4. unfold ensureFolders.
      destruct (existsb _ _); subst db3 db2 db1; destruct db; reflexivity. }
    assert (Hthreads : threads (withFile file db4) = rows threadsT db2).
    { subst db4. unfold ensureFolders.
      destruct (existsb _ _); subst db3; destruct db2; reflexivity. }
    exists (withFile file db4), (sentFile storage now args (next_id db)).
    do 2 eexists.
    split; [reflexivity|]. split; [exact Hm|].
    do 4 (split; [reflexivity|]).
    split.
    { rewrite Hthreads. subst db2.
      replace (rows threadsT (set_rows threadsT _ db1))
        with (map (patching threadsT (SendFileArgs.thread_id args)
                     (Thread.apply
                        (Thread.mkPatch (Some now)
                           (Some (if Role_eqb (SendFileArgs.author args)
                                       developer
                                  then (Thread.unread_count_client th + 1)%Z
                                  else 0%Z))
                           (Some (if Role_eqb (SendFileArgs.author args)
                                       client
                                  then (Thread.unread_count_developer th + 1)%Z
                                  else 0%Z))
                           None)))
                (rows threadsT db1))
        by (destruct db1; reflexivity).
      apply (find_patching threadsT); [reflexivity | exact Hth1]. }
    split; [destruct (SendFileArgs.author args); reflexivity|].
    split; [destruct (SendFileArgs.author args); reflexivity|].
    split.
    { rewrite withFile_files. subst db4. rewrite ensureFolders_files.
      subst db3 db2 db1. destruct db; reflexivity. }
    repeat split. discriminate.
  - intro Hnone. unfold sendFileMessage. cbv zeta.
    unfold bind at 1. unfold db_insert at 1.
    unfold bind at 1. unfold db_get at 1, gets.
    rewrite find_set_rows_other_threads, Hnone.
    unfold bind, ret.
    exists (with_next_id (S (next_id db))
              (set_rows messagesT
                 (rows messagesT db
                  ++ [sentFile storage now args (next_id db)]) db)),
      (sentFile storage now args (next_id db)).
    split; [reflexivity|].
    split; [destruct db; reflexivity|].
    split; [reflexivity|].
    split; destruct db; reflexivity.
Qed.

Lemma sendFileMessage_links_file_witness :
  exists db' file,
    sendFileMessage (fun _ => None) "t1"
      (SendFileArgs.mk 2 client 50 "plano.pdf" "application/pdf" 10%Z None)
      Sample.db_thread = Ok (next_id Sample.db_thread) db' /\
    (project_files db' = project_files Sample.db_thread ++ [file])%list /\
    ProjectFile.message_id file = Some (next_id Sample.db_thread) /\
    ProjectFile.folder_id file <> None.
Proof.
  destruct (proj1 (sendFileMessage_links_file (fun _ => None) "t1"
                     (SendFileArgs.mk 2 client 50 "plano.pdf"
                        "application/pdf" 10%Z None)
                     Sample.db_thread)
              Sample.thread2 Sample.project1 eq_refl eq_refl)
    as (db' & m & th' & file & Hrun & _ & _ & _ & _ & _ & _ & _ & _ & Hfiles
        & Hmsg & _ & _ & Hfolder).
  exists db', file. repeat split; assumption.
Defined.

(** ** Auto-organisation at project setup *)

Lemma patch_loop (now : string) (choice : string -> option Id)
    (l : list ProjectFile.t) :
  forall (count : nat) (db : DB),
    (forall f, In f l ->
       exists r, In r (project_files db) /\
                 ProjectFile._id r = ProjectFile._id f) ->
    for_fold l count
      (fun organizedCount file =>
         db_patch project_filesT (ProjectFile._id file)
           (ProjectFile.set_folder (choice (ProjectFile.file_type file)) now)
         ;;; ret (S organizedCount)) db =
    Ok (length l + count)
       (with_project_files
          (fold_left
             (fun files file =>
                map (patching project_filesT (ProjectFile._id file)
                       (ProjectFile.set_folder
                          (choice (ProjectFile.file_type file)) now))
                  files)
             l (project_files db))
          db).
Proof.
  induction l as [|f l IH]; intros count db Hrows.
  - cbn. unfold ret. destruct db; reflexivity.
  - cbn [for_fold fold_left length]. unfold bind at 1. unfold bind at 1.
    rewrite db_patch_ok by (apply Hrows; left; reflexivity).
    unfold ret at 1. rewrite IH.
    + replace (length l + S count) with (S (length l) + count) by lia.
      destruct db; reflexivity.
    + intros f' Hf'. destruct (Hrows f' (or_intror Hf')) as (r & Hr & Hid).
      exists (patching project_filesT (ProjectFile._id f)
                (ProjectFile.set_folder (choice (ProjectFile.file_type f))
                   now) r).
      split.
      * replace (project_files (set_rows project_filesT _ db))
          with (map (patching project_filesT (ProjectFile._id f)
                       (ProjectFile.set_folder
                          (choice (ProjectFile.file_type f)) now))
                  (project_files db))
          by (destruct db; reflexivity).
        apply in_map. exact Hr.
      * rewrite <- Hid. unfold patching.
        destruct (has_id project_filesT _ r); reflexivity.
Qed.

Lemma patch_steps_map (now : string) (choice : string -> option Id)
    (l : list ProjectFile.t) :
  forall files : list ProjectFile.t,
    (forall f r, In f l -> In r files ->
       ProjectFile._id r = ProjectFile._id f ->
       ProjectFile.file_type r = ProjectFile.file_type f) ->
    fold_left
      (fun files file =>
         map (patching project_filesT (ProjectFile._id file)
                (ProjectFile.set_folder
                   (choice (ProjectFile.file_type file)) now))
           files)
      l files =
    map (fun r =>
           if existsb
                (fun f => Nat.eqb (ProjectFile._id r) (ProjectFile._id f)) l
           then ProjectFile.set_folder (choice (ProjectFile.file_type r))
                  now r
           else r)
      files.
Proof.
  induction l as [|f l IH]; intros files Hty.
  - cbn. symmetry. apply map_id.
  - cbn [fold_left]. rewrite IH.
    + rewrite map_map. apply map_ext_in.
      intros r Hr. unfold patching, has_id.
      cbn [id_of project_filesT existsb].
      destruct (Nat.eqb (ProjectFile._id r) (ProjectFile._id f)) eqn:E.
      * apply Nat.eqb_eq in E.
        rewrite <- (Hty f r (or_introl eq_refl) Hr E).
        cbn [orb]. destruct (existsb _ l); reflexivity.
      * cbn [orb]. reflexivity.
    + intros f' r' Hf' Hr' Hid.
      apply in_map_iff in Hr' as (r & <- & Hr).
      unfold patching in *. destruct (has_id project_filesT _ r);
        cbn in *; apply (Hty f' r (or_intror Hf') Hr Hid).
Qed.

Lemma buildFolderMap_nil_bucket (b : Bucket) :
  bucketFolder (buildFolderMap []) b = None.
Proof. destruct b; reflexivity. Qed.

Lemma autoOrganizeProjectFiles_run (project_id : Id) (at_ : string)
    (d : DB) :
  unique_ids project_filesT d ->
  autoOrganizeProjectFiles at_ project_id d =
  Ok (OrganizeResult.mk "Files organized successfully"
        (length (filter (unorganized project_id) (project_files d))))
     (with_project_files
        (map (organizeSetup at_ project_id (foldersOf project_id d))
           (project_files d)) d).
Proof.
  intros Hd. unfold unique_ids in Hd. cbn in Hd.
  unfold autoOrganizeProjectFiles.
  unfold bind at 1. unfold collect at 1, gets.
  unfold bind at 1. unfold collect at 1, gets.
  unfold bind at 1. unfold autoOrganizeProjectFiles_file.
  change (rows project_foldersT d) with (project_folders d).
  change (rows project_filesT d) with (project_files d).
  rewrite (patch_loop at_
             (setupFolderChoice
                (buildFolderMap
                   (filter (folder_of_project project_id)
                      (project_folders d))))).
  - unfold ret. rewrite Nat.add_0_r. f_equal. f_equal.
    rewrite patch_steps_map.
    + apply map_ext_in. intros r Hr.
      rewrite (existsb_same_id project_id _ r Hd Hr).
      unfold organizeSetup, foldersOf.
      rewrite setupFolderChoice_bucket. reflexivity.
    + intros f r Hf Hr Hid. apply filter_In in Hf as (Hf & _).
      f_equal. apply (unique_row project_filesT (project_files d)); auto.
  - intros f Hf. exists f. split; [|reflexivity].
    apply filter_In in Hf. tauto.
Qed.

(** X15.  [autoOrganizeProjectFiles], on a table of files with unique ids,
    creates no folder; it gives each file of the project that has none the
    folder of its bucket among the folders the project has, and reports the
    number of those files whether or not a folder was found for them.  In a
    project without folders the files stay without a folder, so that a
    second run reports the same number again. *)
Theorem autoOrganizeProjectFiles_counts_all (now now' : string)
    (project_id : Id) (db : DB)
    (Huniq : unique_ids project_filesT db) :
  let db1 :=
    with_project_files
      (map (organizeSetup now project_id (foldersOf project_id db))
         (project_files db)) db in
  autoOrganizeProjectFiles now project_id db =
    Ok (OrganizeResult.mk "Files organized successfully"
          (length (filter (unorganized project_id) (project_files db))))
       db1 /\
  project_folders db1 = project_folders db /\
  (foldersOf project_id db = [] ->
   autoOrganizeProjectFiles now' project_id db1 =
     Ok (OrganizeResult.mk "Files organized successfully"
           (length (filter (unorganized project_id) (project_files db))))
        (with_project_files
           (map (organizeSetup now' project_id []) (project_files db1))
           db1)).
Proof.
  assert (Hrun := autoOrganizeProjectFiles_run project_id).
  intro db1.
  split; [apply Hrun; exact Huniq|].
  split; [subst db1; destruct db; reflexivity|].
  intro Hnone.
  assert (Hfolders1 : foldersOf project_id db1 = []).
  { subst db1. unfold foldersOf in *. destruct db; exact Hnone. }
  assert (Hfiles1 : project_files db1 =
                    map (organizeSetup now project_id []) (project_files db)).
  { subst db1. rewrite Hnone. destruct db; reflexivity. }
  rewrite Hrun.
  - rewrite Hfolders1, Hfiles1 at 1.
    assert (Hlen : forall l : list ProjectFile.t,
              length (filter (unorganized project_id)
                        (map (organizeSetup now project_id []) l))
              = length (filter (unorganized project_id) l)).
    { induction l as [|f l IH]; [reflexivity|].
      cbn [map filter]. unfold organizeSetup at 1.
      destruct (unorganized project_id f) eqn:E.
      - rewrite buildFolderMap_nil_bucket.
        assert (Hu : unorganized project_id
                       (ProjectFile.set_folder None now f) = true).
        { unfold unorganized in *. cbn.
          apply andb_true_iff in E. destruct E as [-> _]. reflexivity. }
        match goal with
        | |- context [unorganized project_id ?x] =>
            change (unorganized project_id x)
              with (unorganized project_id
                      (ProjectFile.set_folder None now f))
        end.
        rewrite Hu. cbn [length]. rewrite IH. reflexivity.
      - rewrite E. exact IH. }
    rewrite Hlen. reflexivity.
  - unfold unique_ids in *.
    cbn [rows project_filesT id_of] in *. rewrite Hfiles1, map_map.
    erewrite map_ext; [exact Huniq|].
    intro f. unfold organizeSetup.
    destruct (unorganized project_id f); reflexivity.
Qed.

Lemma autoOrganizeProjectFiles_counts_all_witness :
  autoOrganizeProjectFiles "t1" 1 Sample.db_thread =
    Ok (OrganizeResult.mk "Files organized successfully" 2)
       (with_project_files
          (map (organizeSetup "t1" 1 (foldersOf 1 Sample.db_thread))
             (project_files Sample.db_thread)) Sample.db_thread).
Proof.
  assert (Huniq : unique_ids project_filesT Sample.db_thread).
  { repeat constructor; cbn; intuition discriminate. }
  apply (proj1 (autoOrganizeProjectFiles_counts_all "t1" "t2" 1
                  Sample.db_thread Huniq)).
Defined.

(** ** Resetting the platform *)

Lemma lawful_projects : lawful projectsT.
Proof. repeat split; intros; destruct db; reflexivity. Qed.

Lemma lawful_clients : lawful clientsT.
Proof. repeat split; intros; destruct db; reflexivity. Qed.

Lemma lawful_legacy_feedback : lawful legacy_feedbackT.
Proof. repeat split; intros; destruct db; reflexivity. Qed.

Lemma deleteCounting_each {R} (T : Table R) (items : list R) :
  forall (deletedCount : nat) (db : DB),
    deleteCounting T items deletedCount db =
    match for_each items (fun x => db_delete T (id_of T x)) db with
    | Ok _ db' => Ok (length items + deletedCount) db'
    | Throw e => Throw e
    end.
Proof.
  unfold deleteCounting.
  induction items as [|x items IH]; intros deletedCount db;
    [reflexivity|].
  cbn [for_fold for_each length]. unfold bind.
  destruct (db_delete T (id_of T x) db) as [[] db'|e]; [|reflexivity].
  unfold ret. rewrite IH.
  destruct (for_each items _ db') as [[] db''|e]; [|reflexivity].
  f_equal. lia.
Qed.

Lemma deleteCounting_table {R} (T : Table R) (deletedCount : nat) (db : DB) :
  lawful T -> unique_ids T db ->
  deleteCounting T (rows T db) deletedCount db =
  Ok (length (rows T db) + deletedCount) (set_rows T [] db).
Proof.
  intros Hlaw Huniq. rewrite deleteCounting_each.
  rewrite <- (filter_all (rows T db)) at 1.
  rewrite (delete_where T (fun _ => true) db Hlaw Huniq).
  cbn [negb]. rewrite (filter_nil (fun _ => false)); [reflexivity|].
  reflexivity.
Qed.

(** X16.  [resetAllData] throws on every confirmation text other than
    [RESET_ALL_DATA], and writes nothing then.  With it, on tables with
    unique ids, it empties the clients, projects, threads, messages, legacy
    feedback and notifications, reports the number of rows that were in
    them, and leaves the feedback, the project folders and the project files
    as they were. *)
Theorem resetAllData_empties (confirm : string) (db : DB) :
  (confirm <> "RESET_ALL_DATA" ->
   resetAllData confirm db = Throw "Invalid confirmation") /\
  (confirm = "RESET_ALL_DATA" ->
   unique_ids messagesT db -> unique_ids threadsT db ->
   unique_ids projectsT db -> unique_ids clientsT db ->
   unique_ids legacy_feedbackT db -> unique_ids notificationsT db ->
   resetAllData confirm db =
     Ok (ResetResult.mk true (platformRecords db)
           "All platform data reset successfully")
        (emptied db)).
Proof.
  split.
  - intro Hne. unfold resetAllData.
    apply String.eqb_neq in Hne. rewrite Hne. reflexivity.
  - intros -> Hm Ht Hp Hc Hl Hn. unfold resetAllData.
    cbn [String.eqb Ascii.eqb Bool.eqb negb]. 
    unfold bind at 1. unfold gets at 1.
    unfold bind at 1. unfold gets at 1.
    unfold bind at 1. unfold gets at 1.
    unfold bind at 1. unfold gets at 1.
    unfold bind at 1. unfold gets at 1.
    unfold bind at 1. unfold gets at 1.
    unfold bind at 1.
    change (messages db) with (rows messagesT db).
    rewrite (deleteCounting_table messagesT 0 db lawful_messages Hm).
    set (db1 := set_rows messagesT [] db).
    unfold bind at 1.
    replace (threads db) with (rows threadsT db1)
      by (destruct db; reflexivity).
    rewrite (deleteCounting_table threadsT _ db1 lawful_threads)
      by (destruct db; exact Ht).
    set (db2 := set_rows threadsT [] db1).
    unfold bind at 1.
    replace (projects db) with (rows projectsT db2)
      by (destruct db; reflexivity).
    rewrite (deleteCounting_table projectsT _ db2 lawful_projects)
      by (destruct db; exact Hp).
    set (db3 := set_rows projectsT [] db2).
    unfold bind at 1.
    replace (clients db) with (rows clientsT db3)
      by (destruct db; reflexivity).
    rewrite (deleteCounting_table clientsT _ db3 lawful_clients)
      by (destruct db; exact Hc).
    set (db4 := set_rows clientsT [] db3).
    unfold bind at 1.
    replace (legacy_feedback db) with (rows legacy_feedbackT db4)
      by (destruct db; reflexivity).
    rewrite (deleteCounting_table legacy_feedbackT _ db4
               lawful_legacy_feedback)
      by (destruct db; exact Hl).
    set (db5 := set_rows legacy_feedbackT [] db4).
    unfold bind at 1.
    replace (notifications db) with (rows notificationsT db5)
      by (destruct db; reflexivity).
    rewrite (deleteCounting_table notificationsT _ db5 lawful_notifications)
      by (destruct db; exact Hn).
    unfold ret. subst db5 db4 db3 db2 db1.
    unfold platformRecords, emptied. destruct db; cbn.
    f_equal. f_equal. lia.
Qed.

Lemma resetAllData_empties_witness :
  resetAllData "RESET_ALL_DATA" Sample.db_thread =
    Ok (ResetResult.mk true 5 "All platform data reset successfully")
       (emptied Sample.db_thread) /\
  resetAllData "reset" Sample.db_thread = Throw "Invalid confirmation".
Proof.
  split.
  - apply (proj2 (resetAllData_empties "RESET_ALL_DATA" Sample.db_thread));
      try reflexivity;
      repeat constructor; cbn; intuition discriminate.
  - apply (proj1 (resetAllData_empties "reset" Sample.db_thread)).
    discriminate.
Defined.

(** ** Is the project set up? *)



(** ** The status of a project *)

Lemma map_patching_fresh {R} (T : Table R) (i : Id) (f : R -> R)
    (l : list R) :
  (forall r, In r l -> id_of T r <> i) -> map (patching T i f) l = l.
Proof.
  intro Hfresh. induction l as [|a l IH]; [reflexivity|].
  cbn [map]. rewrite IH by (intros r Hr; apply Hfresh; right; exact Hr).
  unfold patching, has_id.
  destruct (Nat.eqb (id_of T a) i) eqn:E; [|reflexivity].
  apply Nat.eqb_eq in E. exfalso.
  apply (Hfresh a (or_introl eq_refl) E).
Qed.

Lemma find_last_unique {R} (T : Table R) (keep : R -> bool) (l : list R)
    (earlier : list R) (latest : R) :
  NoDup (map (id_of T) l) ->
  filter keep l = (earlier ++ [latest])%list ->
  find (has_id T (id_of T latest)) l = Some latest.
Proof.
  intros Hnd Hsel.
  assert (Hin : In latest l).
  { assert (H : In latest (filter keep l)).
    { rewrite Hsel. apply in_or_app. right. left. reflexivity. }
    apply filter_In in H. tauto. }
  destruct (find_has_id_in T (id_of T latest) l) as (x & Hx).
  { exists latest. split; [exact Hin | reflexivity]. }
  rewrite Hx. f_equal.
  assert (Hxin := find_some _ _ Hx). destruct Hxin as [Hxl Hxid].
  apply (unique_row T l x latest Hnd Hxl Hin).
  unfold has_id in Hxid. apply Nat.eqb_eq in Hxid. exact Hxid.
Qed.

(** X18.  [updateProjectStatus] throws on a project that does not exist.
    Without a note, or with an empty one, it patches the project and touches
    no thread and no message.  With a note, in a project without threads, it
    opens the thread of status updates, whose counter for the client ends
    at 2 for the one message in it; in a project with threads it appends the
    message to the thread created last, adds one to that thread's counter
    for the client and leaves its counter for the developer as it was. *)
Theorem updateProjectStatus_note (now : string) (project_id : Id)
    (status : ProjectStatus.t) (developer_note : option string) (db : DB) :
  (find (has_id projectsT project_id) (projects db) = None ->
   updateProjectStatus now project_id status developer_note db
     = Throw "Update on nonexistent document") /\
  (forall p,
     find (has_id projectsT project_id) (projects db) = Some p ->
     truthy_opt developer_note = false ->
     updateProjectStatus now project_id status developer_note db
       = Ok project_id
           (set_rows projectsT
              (map (patching projectsT project_id
                      (project_with_status status now)) (projects db))
              db)) /\
  (forall p,
     find (has_id projectsT project_id) (projects db) = Some p ->
     truthy_opt developer_note = true ->
     threadsOf project_id db = [] ->
     ids_below threadsT db ->
     exists db',
       updateProjectStatus now project_id status developer_note db
         = Ok project_id db' /\
       (threads db' =
          threads db
          ++ [thread_notified now 2%Z
                (statusThread now project_id (next_id db))])%list /\
       (messages db' =
          messages db
          ++ [statusNote now status developer_note (next_id db)
                (S (next_id db))])%list) /\
  (forall p earlier latest,
     find (has_id projectsT project_id) (projects db) = Some p ->
     truthy_opt developer_note = true ->
     threadsOf project_id db = (earlier ++ [latest])%list ->
     unique_ids threadsT db ->
     exists db',
       updateProjectStatus now project_id status developer_note db
         = Ok project_id db' /\
       find (has_id threadsT (Thread._id latest)) (threads db')
         = Some (thread_notified now (Thread.unread_count_client latest + 1)%Z
                   latest) /\
       (messages db' =
          messages db
          ++ [statusNote now status developer_note (Thread._id latest)
                (next_id db)])%list).
Proof.
  split; [|split; [|split]].
  - intro Hnone. unfold updateProjectStatus. unfold bind at 1.
    rewrite db_patch_missing by exact Hnone. reflexivity.
  - intros p Hp Hnote. unfold updateProjectStatus. unfold bind at 1.
    rewrite db_patch_ok by (apply (find_in_id projectsT _ _ _ Hp)).
    rewrite Hnote. reflexivity.
  - intros p Hp Hnote Hnone Hbelow. unfold updateProjectStatus.
    unfold bind at 1.
    rewrite db_patch_ok by (apply (find_in_id projectsT _ _ _ Hp)).
    rewrite Hnote. set (db1 := set_rows projectsT _ db).
    assert (Hthreads1 : threads db1 = threads db)
      by (subst db1; destruct db; reflexivity).
    assert (Hnext1 : next_id db1 = next_id db)
      by (subst db1; destruct db; reflexivity).
    assert (Hmessages1 : messages db1 = messages db)
      by (subst db1; destruct db; reflexivity).
    unfold bind at 1. unfold bind at 1. unfold collect at 1, gets.
    change (rows threadsT db1) with (threads db1). rewrite Hthreads1.
    unfold threadsOf in Hnone. rewrite Hnone. cbn [rev].
    unfold bind at 1. unfold db_insert at 1.
    fold (statusThread now project_id (next_id db1)).
    unfold bind at 1. unfold db_insert at 1.
    unfold bind at 1. unfold db_get at 1, gets.
    set (db3 := with_next_id (S (next_id (with_next_id _ _))) _).
    assert (Hthreads3 : rows threadsT db3 =
                        (threads db
                         ++ [statusThread now project_id (next_id db)])%list).
    { subst db3. rewrite <- Hthreads1, <- Hnext1.
      destruct db1; reflexivity. }
    assert (Hfresh : forall r, In r (threads db) ->
                       id_of threadsT r <> next_id db).
    { intros r Hr. apply Hbelow in Hr. lia. }
    rewrite Hnext1, Hthreads3.
    rewrite (find_app_fresh threadsT (next_id db) (threads db)
               (statusThread now project_id (next_id db)) Hfresh eq_refl).
    rewrite db_patch_ok.
    2:{ rewrite Hthreads3.
        exists (statusThread now project_id (next_id db)).
        split; [apply in_or_app; right; left|]; reflexivity. }
    unfold bind, ret. eexists. split; [reflexivity|].
    split.
    + replace (threads (set_rows threadsT _ db3))
        with (map (patching threadsT (next_id db)
                     (thread_notified now
                        (Thread.unread_count_client
                           (statusThread now project_id (next_id db)) + 1)%Z))
                (rows threadsT db3))
        by (destruct db3; reflexivity).
      rewrite Hthreads3, map_app.
      rewrite (map_patching_fresh threadsT _ _ _ Hfresh).
      cbn [map]. unfold patching, has_id. cbn [id_of threadsT].
      cbn [statusThread Thread._id]. rewrite Nat.eqb_refl. reflexivity.
    + replace (messages (set_rows threadsT _ db3)) with (messages db3)
        by (destruct db3; reflexivity).
      subst db3. rewrite <- Hmessages1, <- Hnext1.
      destruct db1; reflexivity.
  - intros p earlier latest Hp Hnote Hsel Huniq.
    unfold updateProjectStatus. unfold bind at 1.
    rewrite db_patch_ok by (apply (find_in_id projectsT _ _ _ Hp)).
    rewrite Hnote. set (db1 := set_rows projectsT _ db).
    assert (Hthreads1 : threads db1 = threads db)
      by (subst db1; destruct db; reflexivity).
    assert (Hnext1 : next_id db1 = next_id db)
      by (subst db1; destruct db; reflexivity).
    assert (Hmessages1 : messages db1 = messages db)
      by (subst db1; destruct db; reflexivity).
    unfold bind at 1. unfold bind at 1. unfold collect at 1, gets.
    change (rows threadsT db1) with (threads db1). rewrite Hthreads1.
    unfold threadsOf in Hsel. rewrite Hsel, rev_app_distr. cbn [rev app].
    unfold ret at 1.
    unfold bind at 1. unfold bind at 1. unfold db_insert at 1.
    unfold bind at 1. unfold db_get at 1, gets.
    set (db2 := with_next_id _ _).
    assert (Hthreads2 : rows threadsT db2 = threads db).
    { subst db2. rewrite <- Hthreads1. destruct db1; reflexivity. }
    assert (Hlatest : find (has_id threadsT (Thread._id latest)) (threads db)
                      = Some latest).
    { apply (find_last_unique threadsT (thread_of_project project_id)
               (threads db) earlier latest Huniq Hsel). }
    rewrite Hthreads2, Hlatest.
    rewrite db_patch_ok
      by (rewrite Hthreads2; apply (find_in_id threadsT _ _ _ Hlatest)).
    unfold bind, ret. eexists. split; [reflexivity|].
    split.
    + replace (threads (set_rows threadsT _ db2))
        with (map (patching threadsT (Thread._id latest)
                     (thread_notified now
                        (Thread.unread_count_client latest + 1)%Z))
                (rows threadsT db2))
        by (destruct db2; reflexivity).
      rewrite Hthreads2.
      apply (find_patching threadsT); [reflexivity | exact Hlatest].
    + replace (messages (set_rows threadsT _ db2)) with (messages db2)
        by (destruct db2; reflexivity).
      subst db2. rewrite <- Hmessages1, <- Hnext1.
      destruct db1; reflexivity.
Qed.

Lemma updateProjectStatus_note_witness :
  exists db',
    updateProjectStatus "t1" 1 ProjectStatus.review (Some "Listo")
      Sample.db_project = Ok 1 db' /\
    map Thread.unread_count_client (threads db') = [2%Z] /\
    length (messages db') = 1.
Proof.
  destruct (proj1 (proj2 (proj2 (updateProjectStatus_note "t1" 1
                                   ProjectStatus.review (Some "Listo")
                                   Sample.db_project)))
              Sample.project1 eq_refl eq_refl eq_refl)
    as (db' & Hrun & Hthreads & Hmessages).
  { intros r []. }
  exists db'. split; [exact Hrun|].
  rewrite Hthreads, Hmessages. split; reflexivity.
Defined.

(** ** What a translation reports *)

(** X19.  Whatever the two translation services do, [translateText] reports
    success: the result has [success = true], no error, the text it was
    given as [originalText] and the code of the target as
    [targetLanguage].  A usable answer of MyMemory is returned whatever
    LibreTranslate would have answered; LibreTranslate is read only after
    MyMemory has failed, and an answer of it without a translated text gives
    back the text itself.  For a source that is the target no service is
    read. *)
Theorem translateText_reports_success
    (myMemory : Translation.Http Translation.MyMemoryData)
    (libre : Translation.Http Translation.LibreData)
    (text : string) (targetLang : Lang)
    (sourceLang : Translation.SourceLang) :
  let result :=
    Translation.translateText myMemory libre text targetLang sourceLang in
  Translation.success result = true /\
  Translation.error result = None /\
  Translation.originalText result = text /\
  Translation.targetLanguage result = Translation.code targetLang /\
  (sourceLang = Translation.source targetLang ->
   Translation.translatedText result = text) /\
  (sourceLang <> Translation.source targetLang ->
   forall translated,
     myMemory = Translation.http_response true
                  (Some (Translation.mkMyMemory 200 (Some translated))) ->
     Translation.translatedText result = translated) /\
  (sourceLang <> Translation.source targetLang ->
   Translation.tryMyMemory myMemory text targetLang sourceLang = None ->
   forall detected,
     libre = Translation.http_response true
               (Some (Translation.mkLibre None detected)) ->
     Translation.translatedText result = text).
Proof.
  assert (Hsame : forall l, Translation.Lang_eqb l targetLang = true ->
                            l = targetLang).
  { intros l. destruct l, targetLang; cbn; congruence. }
  assert (Hreal : sourceLang <> Translation.source targetLang ->
            Translation.translateText myMemory libre text targetLang
              sourceLang
            = Translation.tryRealTranslation myMemory libre text targetLang
                sourceLang).
  { intro Hne. unfold Translation.translateText.
    destruct sourceLang as [l|]; [|reflexivity].
    destruct (Translation.Lang_eqb l targetLang) eqn:E; [|reflexivity].
    exfalso. apply Hne. f_equal. apply Hsame. exact E. }
  cbv zeta. repeat split.
  1-4: unfold Translation.translateText, Translation.tryRealTranslation,
         Translation.tryMyMemory, Translation.tryLibreTranslate;
       destruct sourceLang as [l|];
       try destruct (Translation.Lang_eqb l targetLang);
       try reflexivity;
       destruct myMemory as [|[|] [[status [translated|]]|]]; cbn;
       try destruct (Z.eqb status 200); try reflexivity;
       destruct libre as [|[|] [data|]]; reflexivity.
  - intros ->. unfold Translation.translateText.
    replace (Translation.Lang_eqb targetLang targetLang) with true
      by (destruct targetLang; reflexivity).
    reflexivity.
  - intros Hne translated ->. rewrite (Hreal Hne). reflexivity.
  - intros Hne Hmm detected ->. rewrite (Hreal Hne).
    unfold Translation.tryRealTranslation. rewrite Hmm. reflexivity.
Qed.

(** ** What a Telegram alert leaves behind *)

(** X20.  [sendTelegramAlert] never throws.  For a message of the developer,
    or when the thread or the project does not exist, it writes nothing and
    returns null.  For a message of the client it adds exactly one
    notification, which is never left pending: it is [sent] when Telegram
    answers ok, and [failed], with the error appended to its text, when
    Telegram answers otherwise or cannot be reached. *)
Theorem sendTelegramAlert_settles (env : Env) (now : string)
    (thread_id project_id : Id) (message : string) (author : Role)
    (db : DB)
    (Hbelow : ids_below notificationsT db) :
  (author = developer ->
   sendTelegramAlert env now thread_id project_id message author db
     = Ok None db) /\
  (find (has_id threadsT thread_id) (threads db) = None \/
   find (has_id projectsT project_id) (projects db) = None ->
   sendTelegramAlert env now thread_id project_id message author db
     = Ok None db) /\
  (forall th p,
     author = client ->
     find (has_id threadsT thread_id) (threads db) = Some th ->
     find (has_id projectsT project_id) (projects db) = Some p ->
     let text :=
       alertText env
         (find (has_id clientsT (Project.client_id p)) (clients db)) p th
         message in
     let n :=
       settledAlert env now
         (pendingAlert env now thread_id project_id text (next_id db)) in
     sendTelegramAlert env now thread_id project_id message author db
       = Ok (Some (next_id db))
            (with_next_id (S (next_id db))
               (with_notifications (notifications db ++ [n]) db)) /\
     Notification.status n <> NotificationStatus.pending /\
     (Notification.status n = NotificationStatus.sent
      <-> telegram env = fetch_ok)).
Proof.
  split; [|split].
  - intros ->. reflexivity.
  - intros Hmissing. unfold sendTelegramAlert.
    destruct (negb (Role_eqb author client)); [reflexivity|].
    unfold bind, db_get, gets. cbv beta.
    change (rows threadsT db) with (threads db).
    change (rows projectsT db) with (projects db).
    destruct Hmissing as [-> | ->]; [reflexivity|].
    destruct (find (has_id threadsT thread_id) (threads db)); reflexivity.
  - intros th p -> Hth Hp text n. split.
    + unfold sendTelegramAlert. cbn [Role_eqb negb].
      unfold bind at 1. unfold db_get at 1, gets.
      change (rows threadsT db) with (threads db). rewrite Hth.
      unfold bind at 1. unfold db_get at 1, gets.
      change (rows projectsT db) with (projects db). rewrite Hp.
      unfold bind at 1. unfold db_get at 1, gets.
      change (rows clientsT db) with (clients db). fold text.
      unfold bind at 1. unfold db_insert at 1.
      fold (pendingAlert env now thread_id project_id text (next_id db)).
      set (new := pendingAlert env now thread_id project_id text (next_id db)).
      set (db1 := with_next_id _ _).
      assert (Hrows1 : rows notificationsT db1
                       = (notifications db ++ [new])%list).
      { subst db1. destruct db; reflexivity. }
      assert (Hin : exists r, In r (rows notificationsT db1) /\
                              id_of notificationsT r = next_id db).
      { rewrite Hrows1. exists new.
        split; [apply in_or_app; right; left|]; reflexivity. }
      assert (Hfresh : forall r, In r (notifications db) ->
                         id_of notificationsT r <> next_id db).
      { intros r Hr. apply Hbelow in Hr. lia. }
      assert (Hpatched : forall f,
                set_rows notificationsT
                  (map (patching notificationsT (next_id db) f)
                     (rows notificationsT db1)) db1
                = with_next_id (S (next_id db))
                    (with_notifications (notifications db ++ [f new]) db)).
      { intro f. rewrite Hrows1, map_app.
        rewrite (map_patching_fresh notificationsT _ _ _ Hfresh).
        cbn [map]. unfold patching, has_id. cbn [id_of notificationsT].
        subst new. cbn [pendingAlert Notification._id].
        rewrite Nat.eqb_refl. subst db1. destruct db; reflexivity. }
      unfold bind, try_catch, ret, throw. subst n. unfold settledAlert.
      fold new.
      destruct (telegram env);
        rewrite db_patch_ok by exact Hin; rewrite Hpatched; reflexivity.
    + subst n. unfold settledAlert.
      destruct (telegram env); cbn; repeat split;
        try discriminate; try reflexivity; intros; discriminate.
Qed.

Lemma sendTelegramAlert_settles_witness :
  exists n,
    sendTelegramAlert Sample.env "t1" 2 1 "Hola" client Sample.db_thread
      = Ok (Some 7)
           (with_next_id 8
              (with_notifications
                 (notifications Sample.db_thread ++ [n]) Sample.db_thread)) /\
    Notification.status n = NotificationStatus.failed.
Proof.
  assert (Hbelow : ids_below notificationsT Sample.db_thread).
  { intros r Hr. cbn in Hr. destruct Hr as [<- | []]. cbn. lia. }
  destruct (proj2 (proj2 (sendTelegramAlert_settles Sample.env "t1" 2 1
                            "Hola" client Sample.db_thread Hbelow))
              Sample.thread2 Sample.project1 eq_refl eq_refl eq_refl)
    as (Hrun & _ & _).
  eexists. split; [exact Hrun | reflexivity].
Defined.

(** ** Files of conversations *)

Lemma withFiles_nil (db : DB) : withFiles [] db = db.
Proof.
  unfold withFiles. destruct db; cbn.
  rewrite Nat.add_0_r, app_nil_r. reflexivity.
Qed.

Lemma withFiles_more (a b : list ProjectFile.t) (db : DB) :
  withFiles b (withFiles a db) = withFiles (a ++ b) db.
Proof.
  unfold withFiles. destruct db; cbn.
  rewrite length_app, Nat.add_assoc, app_assoc. reflexivity.
Qed.

Lemma withFiles_one (file : Id -> ProjectFile.t) (db : DB) :
  db_insert project_filesT file db
  = Ok (next_id db) (withFiles [file (next_id db)] db).
Proof.
  unfold db_insert, withFiles. destruct db; cbn.
  rewrite Nat.add_1_r. reflexivity.
Qed.

Lemma withFiles_rows (extra : list ProjectFile.t) (db : DB) :
  messages (withFiles extra db) = messages db /\
  threads (withFiles extra db) = threads db /\
  project_files (withFiles extra db) = (project_files db ++ extra)%list.
Proof. destruct db; repeat split. Qed.

Lemma withFiles_next (extra : list ProjectFile.t) (db : DB) :
  next_id (withFiles extra db) = next_id db + length extra.
Proof. destruct db; reflexivity. Qed.

Lemma find_more {A} (keep : A -> bool) (l extra : list A) :
  find keep l <> None -> find keep (l ++ extra) <> None.
Proof.
  induction l as [|a l IH]; cbn; [congruence|].
  destruct (keep a); [discriminate | exact IH].
Qed.

Lemma covered_more (m : Message.t) (extra : list ProjectFile.t) (db : DB) :
  covered m db -> covered m (withFiles extra db).
Proof.
  intros [Hnone | Hfile]; [left; exact Hnone|]. right.
  destruct (withFiles_rows extra db) as (_ & _ & ->).
  apply find_more. exact Hfile.
Qed.

Lemma syncMessageFile_covered (storage : Storage) (project_id : Id)
    (syncedCount : nat) (m : Message.t) (db : DB) :
  covered m db ->
  syncMessageFile storage project_id syncedCount m db = Ok syncedCount db.
Proof.
  intros Hcov. unfold covered in Hcov. unfold syncMessageFile.
  destruct (Message.file_id m) as [file_id|]; [|reflexivity].
  destruct Hcov as [Hnone | Hfile]; [discriminate|].
  unfold bind, first, gets.
  change (rows project_filesT db) with (project_files db).
  destruct (find (file_of_message (Message._id m)) (project_files db));
    [reflexivity | congruence].
Qed.

Lemma syncMessageFile_step (storage : Storage) (project_id : Id)
    (syncedCount : nat) (m : Message.t) (db : DB) :
  describesFile m ->
  exists extra,
    syncMessageFile storage project_id syncedCount m db
      = Ok (length extra + syncedCount) (withFiles extra db) /\
    Forall (syncedFile project_id) extra /\
    map ProjectFile._id extra = seq (next_id db) (length extra) /\
    covered m (withFiles extra db).
Proof.
  intro Hwf.
  destruct (Message.file_id m) as [file_id|] eqn:Hfid.
  2:{ exists []. rewrite withFiles_nil.
      split; [|split; [constructor | split; [reflexivity | left; exact Hfid]]].
      apply syncMessageFile_covered. left. exact Hfid. }
  destruct (find (file_of_message (Message._id m)) (project_files db))
    as [existing|] eqn:Hfind.
  { exists []. rewrite withFiles_nil.
    assert (Hcov : covered m db) by (right; congruence).
    split; [|split; [constructor | split; [reflexivity | exact Hcov]]].
    apply syncMessageFile_covered. exact Hcov. }
  destruct Hwf as (Hname & Htype & Hsize); [rewrite Hfid; discriminate|].
  unfold syncMessageFile. rewrite Hfid.
  unfold bind at 1. unfold first, gets.
  change (rows project_filesT db) with (project_files db). rewrite Hfind.
  destruct (Message.file_name m) as [file_name|]; [|congruence].
  destruct (Message.file_type m) as [file_type|]; [|congruence].
  destruct (Message.file_size m) as [file_size|]; [|congruence].
  unfold bind. rewrite withFiles_one. unfold ret.
  exists [ProjectFile.mk (next_id db) project_id None file_id
            (Some (Message._id m)) file_name file_type file_size
            (url_or_undefined (storage file_id)) []
            (Message.author m) (Message.created_at m) None].
  split; [reflexivity|].
  split; [repeat constructor; discriminate|].
  split; [reflexivity|].
  right. destruct (withFiles_rows
                     [ProjectFile.mk (next_id db) project_id None file_id
                        (Some (Message._id m)) file_name file_type file_size
                        (url_or_undefined (storage file_id)) []
                        (Message.author m) (Message.created_at m) None] db)
    as (_ & _ & ->).
  clear Hfind.
  induction (project_files db) as [|a l IH]; cbn.
  - unfold file_of_message, opt_id_eqb. cbn. rewrite Nat.eqb_refl.
    discriminate.
  - destruct (file_of_message (Message._id m) a); [discriminate | exact IH].
Qed.

Lemma syncMessageFile_loop (storage : Storage) (project_id : Id)
    (ms : list Message.t) :
  forall (syncedCount : nat) (db : DB),
    (forall m, In m ms -> describesFile m) ->
    exists extra,
      for_fold ms syncedCount (syncMessageFile storage project_id) db
        = Ok (length extra + syncedCount) (withFiles extra db) /\
      Forall (syncedFile project_id) extra /\
      map ProjectFile._id extra = seq (next_id db) (length extra) /\
      forall m, In m ms -> covered m (withFiles extra db).
Proof.
  induction ms as [|m ms IH]; intros syncedCount db Hwf.
  - exists []. rewrite withFiles_nil.
    split; [reflexivity|]. split; [constructor|].
    split; [reflexivity|]. intros m [].
  - destruct (syncMessageFile_step storage project_id syncedCount m db
                (Hwf m (or_introl eq_refl)))
      as (e1 & Hrun1 & Hsynced1 & Hids1 & Hcov1).
    destruct (IH (length e1 + syncedCount) (withFiles e1 db)
                (fun x Hx => Hwf x (or_intror Hx)))
      as (e2 & Hrun2 & Hsynced2 & Hids2 & Hcov2).
    exists (e1 ++ e2)%list.
    cbn [for_fold]. unfold bind. rewrite Hrun1, Hrun2.
    rewrite withFiles_next in Hids2.
    rewrite withFiles_more in *.
    split; [f_equal; rewrite length_app; lia|].
    split; [apply Forall_app; split; assumption|].
    split; [rewrite map_app, length_app, seq_app, Hids1, Hids2; reflexivity|].
    intros x [<- | Hx]; [|apply Hcov2; exact Hx].
    rewrite <- withFiles_more. apply covered_more. exact Hcov1.
Qed.

Lemma syncThreadFiles_loop (storage : Storage) (project_id : Id)
    (ts : list Thread.t) :
  forall (syncedCount : nat) (db : DB),
    (forall m, In m (messages db) -> describesFile m) ->
    exists extra,
      for_fold ts syncedCount (syncThreadFiles storage project_id) db
        = Ok (length extra + syncedCount) (withFiles extra db) /\
      Forall (syncedFile project_id) extra /\
      map ProjectFile._id extra = seq (next_id db) (length extra) /\
      forall t m,
        In t ts ->
        In m (filter (file_message_of (Thread._id t)) (messages db)) ->
        covered m (withFiles extra db).
Proof.
  induction ts as [|t ts IH]; intros syncedCount db Hwf.
  - exists []. rewrite withFiles_nil.
    split; [reflexivity|]. split; [constructor|].
    split; [reflexivity|]. intros t m [].
  - destruct (syncMessageFile_loop storage project_id
                (filter (file_message_of (Thread._id t)) (messages db))
                syncedCount db)
      as (e1 & Hrun1 & Hsynced1 & Hids1 & Hcov1).
    { intros m Hm. apply filter_In in Hm. apply Hwf. tauto. }
    destruct (withFiles_rows e1 db) as (Hmessages1 & _ & _).
    destruct (IH (length e1 + syncedCount) (withFiles e1 db))
      as (e2 & Hrun2 & Hsynced2 & Hids2 & Hcov2).
    { rewrite Hmessages1. exact Hwf. }
    exists (e1 ++ e2)%list.
    cbn [for_fold]. unfold bind at 1. unfold syncThreadFiles at 1.
    unfold bind at 1. unfold collect, gets.
    change (rows messagesT db) with (messages db).
    rewrite Hrun1, Hrun2. rewrite withFiles_next in Hids2.
    rewrite withFiles_more in *.
    split; [f_equal; rewrite length_app; lia|].
    split; [apply Forall_app; split; assumption|].
    split; [rewrite map_app, length_app, seq_app, Hids1, Hids2; reflexivity|].
    intros t' m [<- | Ht'] Hm.
    + rewrite <- withFiles_more. apply covered_more. apply Hcov1. exact Hm.
    + apply (Hcov2 t' m Ht'). rewrite Hmessages1. exact Hm.
Qed.

Lemma for_fold_unchanged {A S} (xs : list A) (acc : S)
    (body : S -> A -> M S) (db : DB) :
  (forall x, In x xs -> body acc x db = Ok acc db) ->
  for_fold xs acc body db = Ok acc db.
Proof.
  induction xs as [|x xs IH]; intro Hbody; [reflexivity|].
  cbn [for_fold]. unfold bind. rewrite (Hbody x (or_introl eq_refl)).
  apply IH. intros y Hy. apply Hbody. right. exact Hy.
Qed.

Lemma syncMessageFilesToProject_run (storage : Storage) (project_id : Id)
    (db : DB) :
  (forall m, In m (messages db) -> describesFile m) ->
  exists synced,
    syncMessageFilesToProject storage project_id db
      = Ok (length synced) (withFiles synced db) /\
    Forall (syncedFile project_id) synced /\
    map ProjectFile._id synced = seq (next_id db) (length synced) /\
    forall t m,
      In t (filter (thread_of_project project_id) (threads db)) ->
      In m (filter (file_message_of (Thread._id t)) (messages db)) ->
      covered m (withFiles synced db).
Proof.
  intro Hwf.
  destruct (syncThreadFiles_loop storage project_id
              (filter (thread_of_project project_id) (threads db)) 0 db Hwf)
    as (synced & Hrun & Hrest).
  exists synced. rewrite Nat.add_0_r in Hrun.
  split; [exact Hrun | exact Hrest].
Qed.

Lemma uncovered_covered (m : Message.t) (db : DB) :
  uncovered db m = false -> covered m db.
Proof.
  unfold uncovered, covered. destruct (Message.file_id m); [|left; reflexivity].
  destruct (find _ _); [right; discriminate | discriminate].
Qed.

Lemma syncMessageFile_exact (storage : Storage) (project_id : Id)
    (syncedCount : nat) (m : Message.t) (db : DB) :
  describesFile m ->
  syncMessageFile storage project_id syncedCount m db =
  if uncovered db m
  then Ok (S syncedCount)
          (withFiles [syncedRow storage project_id m (next_id db)] db)
  else Ok syncedCount db.
Proof.
  intro Hwf. destruct (uncovered db m) eqn:Hun.
  - unfold uncovered in Hun. unfold syncMessageFile, syncedRow.
    destruct (Message.file_id m) as [file_id|] eqn:Hfid; [|discriminate].
    destruct Hwf as (Hname & Htype & Hsize); [rewrite Hfid; discriminate|].
    unfold bind at 1. unfold first, gets.
    change (rows project_filesT db) with (project_files db).
    destruct (find (file_of_message (Message._id m)) (project_files db));
      [discriminate|].
    destruct (Message.file_name m) as [file_name|]; [|congruence].
    destruct (Message.file_type m) as [file_type|]; [|congruence].
    destruct (Message.file_size m) as [file_size|]; [|congruence].
    unfold bind. rewrite withFiles_one. reflexivity.
  - apply syncMessageFile_covered. apply uncovered_covered. exact Hun.
Qed.

Lemma rowsFrom_message (storage : Storage) (project_id : Id)
    (ms : list Message.t) :
  forall (i : Id) (f : ProjectFile.t),
    In f (rowsFrom storage project_id i ms) ->
    exists m, In m ms /\ ProjectFile.message_id f = Some (Message._id m).
Proof.
  induction ms as [|m ms IH]; intros i f Hf; [destruct Hf|].
  cbn [rowsFrom] in Hf. destruct Hf as [<- | Hf].
  - exists m. split; [left|]; reflexivity.
  - destruct (IH _ _ Hf) as (x & Hx & Hid). exists x.
    split; [right; exact Hx | exact Hid].
Qed.

Lemma rowsFrom_more (storage : Storage) (project_id : Id)
    (a b : list Message.t) :
  forall i : Id,
    rowsFrom storage project_id i (a ++ b) =
    (rowsFrom storage project_id i a
     ++ rowsFrom storage project_id (i + length a) b)%list.
Proof.
  induction a as [|m a IH]; intro i; cbn [app rowsFrom length].
  - rewrite Nat.add_0_r. reflexivity.
  - rewrite IH. replace (S i + length a) with (i + S (length a)) by lia.
    reflexivity.
Qed.

Lemma rowsFrom_length (storage : Storage) (project_id : Id)
    (ms : list Message.t) :
  forall i : Id, length (rowsFrom storage project_id i ms) = length ms.
Proof.
  induction ms as [|m ms IH]; intro i; [reflexivity|].
  cbn [rowsFrom length]. rewrite IH. reflexivity.
Qed.

Lemma find_past {A} (keep : A -> bool) (l extra : list A) :
  (forall x, In x extra -> keep x = false) ->
  find keep (l ++ extra) = find keep l.
Proof.
  intro Hnone. induction l as [|a l IH]; cbn [app find].
  - destruct (find keep extra) eqn:E; [|reflexivity].
    apply find_some in E. destruct E as [Hin Hkeep].
    rewrite (Hnone _ Hin) in Hkeep. discriminate.
  - destruct (keep a); [reflexivity | exact IH].
Qed.

Lemma uncovered_after (storage : Storage) (project_id : Id) (i : Id)
    (todo : list Message.t) (db : DB) (m : Message.t) :
  (forall x, In x todo -> Message._id x <> Message._id m) ->
  uncovered (withFiles (rowsFrom storage project_id i todo) db) m
  = uncovered db m.
Proof.
  intro Hother. unfold uncovered.
  destruct (Message.file_id m); [|reflexivity].
  destruct (withFiles_rows (rowsFrom storage project_id i todo) db)
    as (_ & _ & ->).
  rewrite find_past; [reflexivity|].
  intros f Hf. destruct (rowsFrom_message _ _ _ _ _ Hf) as (x & Hx & Hid).
  unfold file_of_message, opt_id_eqb. rewrite Hid.
  apply Nat.eqb_neq. apply Hother. exact Hx.
Qed.

Lemma syncMessageFile_loop_exact (storage : Storage) (project_id : Id)
    (ms : list Message.t) :
  forall (syncedCount : nat) (db : DB),
    NoDup (map Message._id ms) ->
    (forall m, In m ms -> describesFile m) ->
    for_fold ms syncedCount (syncMessageFile storage project_id) db =
    Ok (length (filter (uncovered db) ms) + syncedCount)
       (withFiles
          (rowsFrom storage project_id (next_id db)
             (filter (uncovered db) ms)) db).
Proof.
  induction ms as [|m ms IH]; intros syncedCount db Hnd Hwf.
  - cbn. unfold ret. rewrite withFiles_nil. reflexivity.
  - inversion Hnd as [|? ? Hm Hnd']; subst.
    cbn [for_fold filter]. unfold bind.
    rewrite (syncMessageFile_exact storage project_id syncedCount m db
               (Hwf m (or_introl eq_refl))).
    destruct (uncovered db m).
    + rewrite IH;
        [|exact Hnd' | intros x Hx; apply Hwf; right; exact Hx].
      assert (Hsame : filter (uncovered
                                (withFiles
                                   [syncedRow storage project_id m
                                      (next_id db)] db)) ms
                      = filter (uncovered db) ms).
      { apply filter_ext_in. intros x Hx.
        apply (uncovered_after storage project_id (next_id db) [m] db x).
        intros y [<- | []] Heq. apply Hm. rewrite Heq.
        apply in_map. exact Hx. }
      rewrite Hsame, withFiles_more, withFiles_next.
      cbn [length rowsFrom app]. rewrite Nat.add_1_r.
      replace (length (filter (uncovered db) ms) + S syncedCount)
        with (S (length (filter (uncovered db) ms) + syncedCount)) by lia.
      reflexivity.
    + apply IH; [exact Hnd'|]. intros x Hx. apply Hwf. right. exact Hx.
Qed.

Lemma flat_map_same {A B} (f g : A -> list B) (l : list A) :
  (forall a, In a l -> f a = g a) -> flat_map f l = flat_map g l.
Proof.
  intro Hsame. induction l as [|a l IH]; [reflexivity|].
  cbn [flat_map]. rewrite (Hsame a (or_introl eq_refl)), IH; [reflexivity|].
  intros x Hx. apply Hsame. right. exact Hx.
Qed.

Lemma syncThreadFiles_loop_exact (storage : Storage) (project_id : Id)
    (ts : list Thread.t) :
  forall (syncedCount : nat) (db : DB),
    NoDup (map Thread._id ts) ->
    NoDup (map Message._id (messages db)) ->
    (forall m, In m (messages db) -> describesFile m) ->
    for_fold ts syncedCount (syncThreadFiles storage project_id) db =
    Ok (length
          (flat_map
             (fun t =>
                filter (fun m => file_message_of (Thread._id t) m &&
                                 uncovered db m) (messages db)) ts)
        + syncedCount)
       (withFiles
          (rowsFrom storage project_id (next_id db)
             (flat_map
                (fun t =>
                   filter (fun m => file_message_of (Thread._id t) m &&
                                    uncovered db m) (messages db)) ts))
          db).
Proof.
  induction ts as [|t ts IH]; intros syncedCount db Hts Hms Hwf.
  - cbn. unfold ret. rewrite withFiles_nil. reflexivity.
  - inversion Hts as [|? ? Ht Hts']; subst.
    cbn [for_fold flat_map]. unfold bind at 1. unfold syncThreadFiles at 1.
    unfold bind at 1. unfold collect, gets.
    change (rows messagesT db) with (messages db).
    rewrite syncMessageFile_loop_exact;
      [|apply selection_unique; exact Hms
       |intros m Hm; apply filter_In in Hm; apply Hwf; tauto].
    rewrite filter_filter.
    set (todo := filter (fun m => file_message_of (Thread._id t) m &&
                                  uncovered db m) (messages db)).
    set (db1 := withFiles (rowsFrom storage project_id (next_id db) todo) db).
    destruct (withFiles_rows (rowsFrom storage project_id (next_id db) todo)
                db) as (Hmessages1 & _ & _).
    fold db1 in Hmessages1.
    rewrite IH; [|exact Hts' | rewrite Hmessages1; exact Hms
                 |rewrite Hmessages1; exact Hwf].
    rewrite Hmessages1.
    assert (Hsame :
              flat_map
                (fun t' =>
                   filter (fun m => file_message_of (Thread._id t') m &&
                                    uncovered db1 m) (messages db)) ts
              = flat_map
                  (fun t' =>
                     filter (fun m => file_message_of (Thread._id t') m &&
                                      uncovered db m) (messages db)) ts).
    { apply flat_map_same. intros t' Ht'. apply filter_ext_in.
      intros m Hm.
      destruct (file_message_of (Thread._id t') m) eqn:Hof;
        [|reflexivity].
      cbn [andb]. subst db1. apply uncovered_after.
      intros x Hx Heq. subst todo. apply filter_In in Hx.
      destruct Hx as [Hx Hxof]. apply andb_true_iff in Hxof.
      destruct Hxof as [Hxof _].
      assert (x = m)
        by (apply (unique_row messagesT (messages db) x m Hms Hx Hm Heq)).
      subst x. unfold file_message_of, message_of_thread in *.
      apply andb_true_iff in Hof, Hxof.
      destruct Hof as [Hof _], Hxof as [Hxof _].
      apply Nat.eqb_eq in Hof, Hxof. apply Ht.
      rewrite <- Hxof, Hof. apply in_map. exact Ht'. }
    rewrite Hsame. subst db1.
    rewrite withFiles_more, withFiles_next, rowsFrom_length.
    rewrite <- rowsFrom_more, length_app.
    replace (length (flat_map _ ts) + (length todo + syncedCount))
      with (length todo + length (flat_map
              (fun t' =>
                 filter (fun m => file_message_of (Thread._id t') m &&
                                  uncovered db m) (messages db)) ts)
            + syncedCount) by lia.
    reflexivity.
Qed.

Lemma syncMessageFilesToProject_exact (storage : Storage) (project_id : Id)
    (db : DB) :
  unique_ids threadsT db -> unique_ids messagesT db ->
  (forall m, In m (messages db) -> describesFile m) ->
  syncMessageFilesToProject storage project_id db =
  Ok (length (toSync project_id db))
     (withFiles
        (rowsFrom storage project_id (next_id db) (toSync project_id db))
        db).
Proof.
  intros Hts Hms Hwf. unfold syncMessageFilesToProject.
  unfold bind, collect, gets.
  rewrite syncThreadFiles_loop_exact;
    [|apply selection_unique; exact Hts | exact Hms | exact Hwf].
  rewrite Nat.add_0_r. reflexivity.
Qed.

Lemma Ok_state {A} (a b : A) (d d' : DB) : Ok a d = Ok b d' -> d = d'.
Proof. intro H. injection H as _ H. exact H. Qed.

Lemma withFiles_same (a b : list ProjectFile.t) (db : DB) :
  withFiles a db = withFiles b db -> a = b.
Proof.
  intro Heq. apply (f_equal project_files) in Heq.
  destruct (withFiles_rows a db) as (_ & _ & Ha).
  destruct (withFiles_rows b db) as (_ & _ & Hb).
  rewrite Ha, Hb in Heq. apply app_inv_head in Heq. exact Heq.
Qed.

Lemma rowsFrom_covers (storage : Storage) (project_id : Id)
    (ms : list Message.t) (m : Message.t) :
  In m ms ->
  forall i : Id,
    exists j, In (syncedRow storage project_id m j)
                (rowsFrom storage project_id i ms).
Proof.
  induction ms as [|x ms IH]; intros Hin i; [destruct Hin|].
  destruct Hin as [-> | Hin].
  - exists i. left. reflexivity.
  - destruct (IH Hin (S i)) as (j & Hj). exists j. right. exact Hj.
Qed.

Lemma toSync_same (project_id : Id) (d d' : DB) :
  threads d = threads d' -> messages d = messages d' ->
  project_files d = project_files d' ->
  toSync project_id d = toSync project_id d'.
Proof.
  intros Ht Hm Hf. unfold toSync. rewrite Ht, Hm.
  apply flat_map_same. intros t _. apply filter_ext. intro m.
  unfold uncovered. rewrite Hf. reflexivity.
Qed.

Lemma toSync_stored (project_id : Id) (db : DB) (m : Message.t) :
  In m (toSync project_id db) ->
  Message.file_id m = Some (default 0 (Message.file_id m)).
Proof.
  intro Hin. unfold toSync in Hin. apply in_flat_map in Hin.
  destruct Hin as (t & _ & Hin). apply filter_In in Hin.
  destruct Hin as [_ Hin]. apply andb_true_iff in Hin.
  destruct Hin as [_ Hun]. unfold uncovered in Hun.
  destruct (Message.file_id m); [reflexivity | discriminate].
Qed.

(** X21.  On threads and messages with unique ids, when every file
    message carries the name, type and size of its file,
    [syncMessageFilesToProject] does not throw.  It makes one project file
    of every file message of the threads of the project that has a stored
    file and no project file yet, and of no other message, thread by
    thread; each new row is at the root of the project, points at its
    message, holds the stored file of it and takes the next id; the number
    of those messages is what is reported.  Afterwards every file message
    of those threads has a project file, or no stored file, and a second
    run, whatever the storage answers then, reports zero files and changes
    nothing. *)
Theorem syncMessageFilesToProject_idempotent (storage storage' : Storage)
    (project_id : Id) (db : DB)
    (Hthreads : unique_ids threadsT db)
    (Hmessages : unique_ids messagesT db)
    (Hwf : forall m, In m (messages db) -> describesFile m) :
  let synced :=
    rowsFrom storage project_id (next_id db) (toSync project_id db) in
  syncMessageFilesToProject storage project_id db
    = Ok (length (toSync project_id db)) (withFiles synced db) /\
  Forall (syncedFile project_id) synced /\
  map ProjectFile._id synced = seq (next_id db) (length synced) /\
  (forall m,
     In m (toSync project_id db) ->
     exists f,
       In f synced /\
       ProjectFile.message_id f = Some (Message._id m) /\
       Message.file_id m = Some (ProjectFile.file_id f)) /\
  (forall t m,
     In t (filter (thread_of_project project_id) (threads db)) ->
     In m (filter (file_message_of (Thread._id t)) (messages db)) ->
     covered m (withFiles synced db)) /\
  syncMessageFilesToProject storage' project_id (withFiles synced db)
    = Ok 0 (withFiles synced db).
Proof.
  intro synced.
  assert (Hexact := syncMessageFilesToProject_exact storage project_id db
                      Hthreads Hmessages Hwf).
  fold synced in Hexact.
  destruct (syncMessageFilesToProject_run storage project_id db Hwf)
    as (found & Hrun & Hsynced & Hids & Hcov).
  assert (Hsame : found = synced).
  { rewrite Hexact in Hrun. apply Ok_state in Hrun.
    symmetry. apply (withFiles_same _ _ db Hrun). }
  subst found.
  split; [exact Hexact|]. split; [exact Hsynced|]. split; [exact Hids|].
  split.
  { intros m Hm.
    destruct (rowsFrom_covers storage project_id _ m Hm (next_id db))
      as (j & Hj).
    exists (syncedRow storage project_id m j).
    split; [exact Hj|]. split; [reflexivity|].
    apply (toSync_stored project_id db m Hm). }
  split; [exact Hcov|].
  destruct (withFiles_rows synced db) as (Hmessages1 & Hthreads1 & _).
  unfold syncMessageFilesToProject, bind, collect, gets.
  change (rows threadsT (withFiles synced db))
    with (threads (withFiles synced db)).
  rewrite Hthreads1.
  apply for_fold_unchanged. intros t Ht.
  unfold syncThreadFiles, bind, collect, gets.
  change (rows messagesT (withFiles synced db))
    with (messages (withFiles synced db)).
  rewrite Hmessages1.
  apply for_fold_unchanged. intros m Hm.
  apply syncMessageFile_covered. apply (Hcov t m Ht Hm).
Qed.

Lemma syncMessageFilesToProject_idempotent_witness :
  syncMessageFilesToProject (fun _ => None) 1 SampleFiles.db_upload
  = Ok 1
      (withFiles [syncedRow (fun _ => None) 1 SampleFiles.upload 7]
         SampleFiles.db_upload).
Proof.
  assert (Hthreads : unique_ids threadsT SampleFiles.db_upload).
  { repeat constructor; cbn; intuition discriminate. }
  assert (Hmessages : unique_ids messagesT SampleFiles.db_upload).
  { repeat constructor; cbn; intuition discriminate. }
  assert (Hwf : forall m, In m (messages SampleFiles.db_upload) ->
                          describesFile m).
  { intros m [<- | []] _. cbn. repeat split; discriminate. }
  apply (proj1 (syncMessageFilesToProject_idempotent (fun _ => None)
                  (fun _ => None) 1 SampleFiles.db_upload Hthreads Hmessages
                  Hwf)).
Defined.

(** ** Setting up the file system of a project *)

Lemma bucketFolder_fresh (now : string) (project_id : Id) (created_by : Role)
    (i : Id) (b : Bucket) :
  bucketFolder (buildFolderMap (fourFolders now project_id created_by i)) b
  = Some (bucketIndex b + i).
Proof. destruct b; reflexivity. Qed.

Lemma unique_with_fresh (ids : list Id) (start count : nat) :
  NoDup ids -> (forall i, In i ids -> i < start) ->
  NoDup (ids ++ seq start count).
Proof.
  intros Hnd Hbelow. induction ids as [|a ids IH]; [apply seq_NoDup|].
  inversion Hnd as [|? ? Hnotin Hnd']; subst. cbn. constructor.
  - intro Hin. apply in_app_or in Hin. destruct Hin as [Hin | Hin].
    + apply Hnotin. exact Hin.
    + apply in_seq in Hin.
      assert (a < start) by (apply Hbelow; left; reflexivity). lia.
  - apply IH; [exact Hnd'|]. intros i Hi. apply Hbelow. right. exact Hi.
Qed.

Lemma filter_synced (project_id : Id) (synced : list ProjectFile.t) :
  Forall (syncedFile project_id) synced ->
  filter (unorganized project_id) synced = synced.
Proof.
  induction 1 as [|f l (Hp & Hf & _) _ IH]; [reflexivity|].
  cbn [filter]. unfold unorganized at 1. rewrite Hp, Hf, Nat.eqb_refl.
  cbn. rewrite IH. reflexivity.
Qed.

(** X22.  On a project without folders, with threads and messages of
    unique ids, file messages that describe their files and project files
    whose ids are unique and already handed out, [setupProjectFileSystem]
    succeeds: it creates the four default folders, makes a project file of
    every file message of the threads of the project that has a stored file
    and no project file yet, and then finds a folder for every file of the
    project that had none, the new ones among them.  It reports 4 folders,
    the number of those messages as the files synced, and that number and
    the files that had no folder as the files organized; afterwards each of
    those messages has its file in a folder, and no file of the project is
    without a folder. *)
Theorem setupProjectFileSystem_fresh (storage : Storage) (now : string)
    (project_id : Id) (created_by : Role) (db : DB)
    (Hnone : existsb (folder_of_project project_id) (project_folders db)
             = false)
    (Hwf : forall m, In m (messages db) -> describesFile m)
    (Hthreads : unique_ids threadsT db)
    (Hmessages : unique_ids messagesT db)
    (Huniq : unique_ids project_filesT db)
    (Hbelow : ids_below project_filesT db) :
  exists r db',
    setupProjectFileSystem storage now project_id created_by db = Ok r db' /\
    FileSystemResult.success r = true /\
    FileSystemResult.foldersCreated r = 4 /\
    FileSystemResult.filesSynced r = length (toSync project_id db) /\
    FileSystemResult.filesOrganized r =
      length (filter (unorganized project_id) (project_files db))
      + length (toSync project_id db) /\
    (project_folders db' =
       project_folders db
       ++ fourFolders now project_id created_by (next_id db))%list /\
    length (project_files db')
      = length (project_files db) + length (toSync project_id db) /\
    (forall m,
       In m (toSync project_id db) ->
       exists f,
         In f (project_files db') /\
         ProjectFile.message_id f = Some (Message._id m) /\
         ProjectFile.folder_id f <> None) /\
    forall f, In f (project_files db') -> unorganized project_id f = false.
Proof.
  set (db1 := ensureFolders now project_id created_by db).
  assert (Hdb1 : db1 = with_next_id (4 + next_id db)
                         (with_project_folders
                            (project_folders db
                             ++ fourFolders now project_id created_by
                                  (next_id db)) db)).
  { subst db1. unfold ensureFolders. rewrite Hnone. reflexivity. }
  assert (Hmessages1 : messages db1 = messages db)
    by (rewrite Hdb1; destruct db; reflexivity).
  assert (Hthreads1 : threads db1 = threads db)
    by (rewrite Hdb1; destruct db; reflexivity).
  assert (Hfiles1 : project_files db1 = project_files db)
    by (rewrite Hdb1; destruct db; reflexivity).
  assert (Hnext1 : next_id db1 = 4 + next_id db)
    by (rewrite Hdb1; destruct db; reflexivity).
  assert (Hfolders1 : project_folders db1 =
                      (project_folders db
                       ++ fourFolders now project_id created_by
                            (next_id db))%list)
    by (rewrite Hdb1; destruct db; reflexivity).
  assert (Htodo1 : toSync project_id db1 = toSync project_id db)
    by (apply toSync_same; assumption).
  assert (Hwf1 : forall m, In m (messages db1) -> describesFile m)
    by (rewrite Hmessages1; exact Hwf).
  destruct (syncMessageFilesToProject_run storage project_id db1 Hwf1)
    as (synced & Hsync & Hsynced & Hids & _).
  assert (Hsame : rowsFrom storage project_id (next_id db1)
                    (toSync project_id db) = synced).
  { assert (Hexact := syncMessageFilesToProject_exact storage project_id
                        db1).
    rewrite Htodo1 in Hexact. rewrite Hexact in Hsync.
    - apply Ok_state in Hsync. apply (withFiles_same _ _ db1 Hsync).
    - unfold unique_ids in *. cbn [rows threadsT id_of] in *.
      rewrite Hthreads1. exact Hthreads.
    - unfold unique_ids in *. cbn [rows messagesT id_of] in *.
      rewrite Hmessages1. exact Hmessages.
    - exact Hwf1. }
  assert (Hlen : length synced = length (toSync project_id db))
    by (rewrite <- Hsame; apply rowsFrom_length).
  set (db2 := withFiles synced db1) in *.
  assert (Hfiles2 : project_files db2 = (project_files db ++ synced)%list).
  { subst db2. destruct (withFiles_rows synced db1) as (_ & _ & ->).
    rewrite Hfiles1. reflexivity. }
  assert (Hfolders2 : foldersOf project_id db2
                      = fourFolders now project_id created_by (next_id db)).
  { replace (foldersOf project_id db2) with (foldersOf project_id db1)
      by (subst db2; destruct db1; reflexivity).
    apply foldersOf_fresh. exact Hnone. }
  assert (Huniq2 : unique_ids project_filesT db2).
  { unfold unique_ids in *. cbn [rows project_filesT id_of] in *.
    rewrite Hfiles2, map_app, Hids.
    apply unique_with_fresh; [exact Huniq|].
    intros i Hi. apply in_map_iff in Hi. destruct Hi as (f & <- & Hf).
    apply Hbelow in Hf. cbn [id_of project_filesT] in Hf. lia. }
  unfold setupProjectFileSystem, runMutation.
  unfold bind at 1. rewrite setupDefaultFolders_run, Hnone. fold db1.
  unfold bind at 1. rewrite Hsync.
  unfold bind at 1.
  rewrite (autoOrganizeProjectFiles_run project_id now db2 Huniq2).
  unfold ret. do 2 eexists.
  split; [reflexivity|].
  cbn [FileSystemResult.success FileSystemResult.foldersCreated
       FileSystemResult.filesSynced FileSystemResult.filesOrganized
       SetupResult.foldersCreated OrganizeResult.filesOrganized].
  split; [reflexivity|]. split; [reflexivity|]. split; [exact Hlen|].
  split.
  { rewrite Hfiles2, filter_app, length_app.
    rewrite (filter_synced project_id synced Hsynced), Hlen. reflexivity. }
  split.
  { replace (project_folders (with_project_files _ db2))
      with (project_folders db1)
      by (subst db2; destruct db1; reflexivity).
    exact Hfolders1. }
  replace (project_files (with_project_files
             (map (organizeSetup now project_id (foldersOf project_id db2))
                (project_files db2)) db2))
    with (map (organizeSetup now project_id (foldersOf project_id db2))
            (project_files db2))
    by (destruct db2; reflexivity).
  assert (Hdone : forall r,
            unorganized project_id
              (organizeSetup now project_id (foldersOf project_id db2) r)
            = false).
  { intro r. rewrite Hfolders2. unfold organizeSetup.
    destruct (unorganized project_id r) eqn:E; [|exact E].
    rewrite bucketFolder_fresh. unfold unorganized. cbn.
    apply andb_false_r. }
  split.
  { rewrite length_map, Hfiles2, length_app, Hlen. reflexivity. }
  split.
  { intros m Hm.
    destruct (rowsFrom_covers storage project_id _ m Hm (next_id db1))
      as (j & Hj).
    rewrite Hsame in Hj.
    exists (organizeSetup now project_id (foldersOf project_id db2)
              (syncedRow storage project_id m j)).
    split.
    { apply in_map. rewrite Hfiles2. apply in_or_app. right. exact Hj. }
    split.
    { unfold organizeSetup. destruct (unorganized project_id _);
        reflexivity. }
    assert (Hfolder := Hdone (syncedRow storage project_id m j)).
    intro Hroot. unfold unorganized in Hfolder.
    rewrite Hroot in Hfolder.
    replace (ProjectFile.project_id
               (organizeSetup now project_id (foldersOf project_id db2)
                  (syncedRow storage project_id m j)))
      with project_id in Hfolder
      by (unfold organizeSetup; destruct (unorganized project_id _);
          reflexivity).
    rewrite Nat.eqb_refl in Hfolder. discriminate. }
  intros f Hf. apply in_map_iff in Hf. destruct Hf as (r & <- & _).
  apply Hdone.
Qed.

Lemma setupProjectFileSystem_fresh_witness :
  exists r db',
    setupProjectFileSystem (fun _ => None) "t1" 1 developer
      SampleFiles.db_upload = Ok r db' /\
    FileSystemResult.foldersCreated r = 4 /\
    FileSystemResult.filesSynced r = 1 /\
    FileSystemResult.filesOrganized r = 2 /\
    forall f, In f (project_files db') -> unorganized 1 f = false.
Proof.
  destruct (setupProjectFileSystem_fresh (fun _ => None) "t1" 1 developer
              SampleFiles.db_upload eq_refl)
    as (r & db' & Hrun & _ & Hfolders & Hsynced & Horganized & _ & _ & _
        & Hall).
  - intros m [<- | []] _. cbn. repeat split; discriminate.
  - repeat constructor; cbn; intuition discriminate.
  - repeat constructor; cbn; intuition discriminate.
  - repeat constructor; cbn; intuition discriminate.
  - intros f Hf. cbn in Hf. destruct Hf as [<- | []]. cbn. lia.
  - exists r, db'. split; [exact Hrun|]. split; [exact Hfolders|].
    split; [exact Hsynced|]. split; [exact Horganized | exact Hall].
Defined.

(** ** Moving a file by hand, and auto-organisation after it *)

Lemma organize_keeps_id (now : string) (project_id : Id)
    (folders : list Folder.t) (r : ProjectFile.t) :
  id_of project_filesT (organize now project_id folders r)
  = id_of project_filesT r.
Proof. unfold organize. destruct (unorganized project_id r); reflexivity. Qed.

Lemma autoOrganizeFiles_run (now : string) (project_id : Id) (db : DB) :
  unique_ids project_filesT db ->
  exists db1,
    autoOrganizeFiles now project_id db =
      Ok (OrganizeResult.mk "Files organized successfully"
            (length (filter (unorganized project_id) (project_files db))))
         db1 /\
    project_files db1 =
      map (organize now project_id (foldersOf project_id db1))
        (project_files db) /\
    (filter (unorganized project_id) (project_files db) <> [] ->
     foldersOf project_id db1 <> []).
Proof.
  intros Hnd. unfold unique_ids in Hnd. cbn in Hnd.
  destruct (filter (unorganized project_id) (project_files db)) as [|f0 l0]
    eqn:Hl.
  - exists db. split; [apply autoOrganizeFiles_none; exact Hl|].
    split; [|congruence].
    rewrite <- (map_id (project_files db)) at 1. apply map_ext_in.
    intros f Hf. unfold organize.
    rewrite (filter_nil_inv _ _ f Hl Hf). reflexivity.
  - set (E := ensureFolders now project_id client db).
    set (F := foldersOf project_id E).
    exists (with_project_files
              (map (organize now project_id F) (project_files db)) E).
    replace (foldersOf project_id
               (with_project_files
                  (map (organize now project_id F) (project_files db)) E))
      with F by (subst F; destruct E; reflexivity).
    split; [|split].
    + unfold autoOrganizeFiles. unfold bind at 1. unfold collect, gets.
      change (rows project_filesT db) with (project_files db).
      rewrite Hl. unfold bind at 1.
      rewrite organize_loop.
      * unfold ret. rewrite Nat.add_0_r. fold E. fold F. f_equal.
        f_equal. rewrite <- Hl.
        rewrite organizeSteps_map.
        -- apply map_ext_in. intros r Hr.
           rewrite (existsb_same_id project_id _ r Hnd Hr). reflexivity.
        -- intros f r Hf Hr Hid. apply filter_In in Hf as (Hf & _).
           f_equal. apply (unique_row project_filesT (project_files db));
             auto.
      * discriminate.
      * intros f Hf. exists f. split; [|reflexivity].
        rewrite <- Hl in Hf. apply filter_In in Hf. tauto.
    + destruct E; reflexivity.
    + intros _. subst F. apply existsb_filter_nonempty.
      apply ensureFolders_exists.
Qed.

(** X23.  [moveFileToFolder] checks nothing about the folder: on a file
    that exists it records whatever folder id it is given, and the instant
    of the move.  On files with unique ids, a later [autoOrganizeFiles] of
    the file's project leaves a file that was moved into any folder where
    it is, and gives a file that was moved to the root a folder of the
    project again.  On a file that does not exist the move throws. *)
Theorem moveFileToFolder_then_organize (now now' : string) (file_id : Id)
    (folder_id : option Id) (db : DB) (f : ProjectFile.t)
    (Huniq : unique_ids project_filesT db)
    (Hfile : find (has_id project_filesT file_id) (project_files db)
             = Some f) :
  exists db1,
    moveFileToFolder now file_id folder_id db = Ok true db1 /\
    find (has_id project_filesT file_id) (project_files db1)
      = Some (ProjectFile.set_folder folder_id now f) /\
    exists r db2,
      autoOrganizeFiles now' (ProjectFile.project_id f) db1 = Ok r db2 /\
      (forall k,
         folder_id = Some k ->
         find (has_id project_filesT file_id) (project_files db2)
           = Some (ProjectFile.set_folder (Some k) now f)) /\
      (folder_id = None ->
       exists j folder,
         find (has_id project_filesT file_id) (project_files db2)
           = Some (ProjectFile.set_folder (Some j) now' f) /\
         In folder (project_folders db2) /\
         Folder._id folder = j /\
         Folder.project_id folder = ProjectFile.project_id f).
Proof.
  unfold moveFileToFolder. unfold bind.
  rewrite db_patch_ok by (apply (find_in_id project_filesT _ _ _ Hfile)).
  unfold ret. eexists. split; [reflexivity|].
  set (db1 := set_rows project_filesT _ db).
  assert (Hfiles1 : project_files db1
                    = map (patching project_filesT file_id
                             (ProjectFile.set_folder folder_id now))
                        (project_files db))
    by (subst db1; destruct db; reflexivity).
  assert (Hfind1 : find (has_id project_filesT file_id) (project_files db1)
                   = Some (ProjectFile.set_folder folder_id now f)).
  { rewrite Hfiles1.
    apply (find_patching project_filesT); [reflexivity | exact Hfile]. }
  split; [exact Hfind1|].
  assert (Huniq1 : unique_ids project_filesT db1).
  { unfold unique_ids in *. cbn [rows project_filesT id_of] in *.
    rewrite Hfiles1, map_map. erewrite map_ext; [exact Huniq|].
    intro r. unfold patching.
    destruct (has_id project_filesT file_id r); reflexivity. }
  destruct (autoOrganizeFiles_run now' (ProjectFile.project_id f) db1 Huniq1)
    as (db2 & Hrun & Hfiles2 & Hfolders2).
  exists (OrganizeResult.mk "Files organized successfully"
            (length (filter (unorganized (ProjectFile.project_id f))
                       (project_files db1)))), db2.
  split; [exact Hrun|].
  assert (Hfind2 : find (has_id project_filesT file_id) (project_files db2)
                   = Some (organize now' (ProjectFile.project_id f)
                             (foldersOf (ProjectFile.project_id f) db2)
                             (ProjectFile.set_folder folder_id now f))).
  { rewrite Hfiles2.
    rewrite (find_map_id project_filesT file_id _ _
               (organize_keeps_id now' _ _)).
    rewrite Hfind1. reflexivity. }
  split.
  - intros k ->. rewrite Hfind2. unfold organize, unorganized. cbn.
    rewrite andb_false_r. reflexivity.
  - intros ->.
    assert (Hun : unorganized (ProjectFile.project_id f)
                    (ProjectFile.set_folder None now f) = true).
    { unfold unorganized. cbn. rewrite Nat.eqb_refl. reflexivity. }
    assert (Hne : foldersOf (ProjectFile.project_id f) db2 <> []).
    { apply Hfolders2. intro Hnil.
      assert (Hin := find_some _ _ Hfind1). destruct Hin as [Hin _].
      rewrite (filter_nil_inv _ _ _ Hnil Hin) in Hun. discriminate. }
    destruct (targetFolder_some _ (ProjectFile.file_type f) Hne)
      as (j & Htarget).
    destruct (targetFolder_in _ _ _ Htarget) as (folder & Hfolder & Hid).
    apply filter_In in Hfolder. destruct Hfolder as [Hin Hproj].
    exists j, folder. rewrite Hfind2. unfold organize. rewrite Hun.
    cbn [ProjectFile.file_type ProjectFile.set_folder]. rewrite Htarget.
    split; [reflexivity|]. split; [exact Hin|]. split; [exact Hid|].
    apply Nat.eqb_eq. exact Hproj.
Qed.

Lemma moveFileToFolder_then_organize_witness :
  exists db1 r db2,
    moveFileToFolder "t1" 5 (Some 99) Sample.db_thread = Ok true db1 /\
    autoOrganizeFiles "t2" 1 db1 = Ok r db2 /\
    find (has_id project_filesT 5) (project_files db2)
      = Some (ProjectFile.set_folder (Some 99) "t1" Sample.file5).
Proof.
  assert (Huniq : unique_ids project_filesT Sample.db_thread).
  { repeat constructor; cbn; intuition discriminate. }
  destruct (moveFileToFolder_then_organize "t1" "t2" 5 (Some 99)
              Sample.db_thread Sample.file5 Huniq eq_refl)
    as (db1 & Hmove & _ & r & db2 & Hrun & Hkept & _).
  exists db1, r, db2. split; [exact Hmove|]. split; [exact Hrun|].
  apply Hkept. reflexivity.
Defined.

(** ** Statistics of messages *)

Lemma authors_partition (l : list Message.t) :
  length (filter (fun msg => Role_eqb (Message.author msg) client) l)
  + length (filter (fun msg => Role_eqb (Message.author msg) developer) l)
  = length l.
Proof.
  induction l as [|m l IH]; [reflexivity|].
  cbn [filter]. destruct (Message.author m); cbn; lia.
Qed.

Lemma length_filter_filter {A} (keep narrow : A -> bool) (l : list A) :
  length (filter keep (filter narrow l)) <= length (filter keep l).
Proof.
  induction l as [|a l IH]; [reflexivity|].
  cbn [filter]. destruct (narrow a), (keep a) eqn:E; cbn [filter length];
    try rewrite E; cbn [length]; lia.
Qed.

(** X24.  In the answer of [getMessageStats] the messages of the client and
    those of the developer add up to the total, the private notes are among
    them, and the average response time and the most active day are the
    placeholders 0 and the empty text.  Naming a project only narrows the
    count. *)
Theorem getMessageStats_partition (notBefore : string -> string -> bool)
    (cutoffDate : string) (thread_id project_id : option Id) (db : DB) :
  let stats :=
    getMessageStats notBefore cutoffDate thread_id project_id db in
  MessageStats.client_messages stats + MessageStats.developer_messages stats
    = MessageStats.total_messages stats /\
  MessageStats.private_notes stats <= MessageStats.total_messages stats /\
  MessageStats.avg_response_time_hours stats = 0%Z /\
  MessageStats.most_active_day stats = "" /\
  MessageStats.total_messages stats
    <= MessageStats.total_messages
         (getMessageStats notBefore cutoffDate thread_id None db).
Proof.
  cbv zeta. unfold getMessageStats.
  cbn [MessageStats.client_messages MessageStats.developer_messages
       MessageStats.total_messages MessageStats.private_notes
       MessageStats.avg_response_time_hours MessageStats.most_active_day].
  split; [apply authors_partition|].
  split; [apply filter_length_le|].
  split; [reflexivity|]. split; [reflexivity|].
  destruct project_id as [p|]; [|reflexivity].
  apply length_filter_filter.
Qed.

(** ** Retrying notifications *)

Lemma retry_loop (fetch : Notification.t -> FetchOutcome) (now : string)
    (l : list Notification.t) :
  forall (successCount : nat) (db : DB),
    (forall n, In n l ->
       exists r, In r (notifications db) /\
                 Notification._id r = Notification._id n) ->
    for_fold l successCount (retryOne fetch now) db =
    Ok (length (filter (delivered fetch) l) + successCount)
       (with_notifications
          (fold_left
             (fun rows n =>
                if delivered fetch n
                then map (patching notificationsT (Notification._id n)
                            (Notification.set_sent now)) rows
                else rows)
             l (notifications db))
          db).
Proof.
  induction l as [|n l IH]; intros successCount db Hrows.
  - cbn. unfold ret. destruct db; reflexivity.
  - cbn [for_fold fold_left filter]. unfold bind at 1.
    unfold retryOne at 1, try_catch.
    destruct (fetch n) as [|error|error] eqn:Hfetch;
      [assert (Hd : delivered fetch n = true)
         by (unfold delivered; rewrite Hfetch; reflexivity)
      |assert (Hd : delivered fetch n = false)
         by (unfold delivered; rewrite Hfetch; reflexivity)..];
      rewrite Hd.
    + unfold bind at 1.
      rewrite db_patch_ok by (apply Hrows; left; reflexivity).
      unfold ret at 1. rewrite IH.
      * cbn [length].
        replace (length (filter (delivered fetch) l) + S successCount)
          with (S (length (filter (delivered fetch) l)) + successCount)
          by lia.
        destruct db; reflexivity.
      * intros n' Hn'.
        destruct (Hrows n' (or_intror Hn')) as (r & Hr & Hid).
        exists (patching notificationsT (Notification._id n)
                  (Notification.set_sent now) r).
        split.
        -- replace (notifications (set_rows notificationsT _ db))
             with (map (patching notificationsT (Notification._id n)
                          (Notification.set_sent now)) (notifications db))
             by (destruct db; reflexivity).
           apply in_map. exact Hr.
        -- rewrite <- Hid. unfold patching.
           destruct (has_id notificationsT _ r); reflexivity.
    + unfold ret at 1. apply IH.
      intros n' Hn'. apply Hrows. right. exact Hn'.
    + unfold throw, ret at 1. apply IH.
      intros n' Hn'. apply Hrows. right. exact Hn'.
Qed.

Lemma retry_steps_map (fetch : Notification.t -> FetchOutcome)
    (now : string) (l : list Notification.t) :
  forall rows : list Notification.t,
    fold_left
      (fun rows n =>
         if delivered fetch n
         then map (patching notificationsT (Notification._id n)
                     (Notification.set_sent now)) rows
         else rows)
      l rows =
    map (fun r =>
           if existsb
                (fun n => delivered fetch n &&
                          Nat.eqb (Notification._id r) (Notification._id n))
                l
           then Notification.set_sent now r
           else r)
      rows.
Proof.
  induction l as [|n l IH]; intro rows.
  - cbn. symmetry. apply map_id.
  - cbn [fold_left existsb]. rewrite IH.
    destruct (delivered fetch n); cbn [andb orb]; [|reflexivity].
    rewrite map_map. apply map_ext. intro r.
    unfold patching, has_id. cbn [id_of notificationsT].
    destruct (Nat.eqb (Notification._id r) (Notification._id n));
      cbn [orb]; [|reflexivity].
    destruct (existsb _ l); reflexivity.
Qed.

Lemma retried_selected (fetch : Notification.t -> FetchOutcome)
    (rows : list Notification.t) (r : Notification.t) :
  NoDup (map Notification._id rows) -> In r rows ->
  existsb
    (fun n => delivered fetch n &&
              Nat.eqb (Notification._id r) (Notification._id n))
    (filter is_failed rows)
  = is_failed r && delivered fetch r.
Proof.
  intros Hnd Hr.
  destruct (is_failed r && delivered fetch r) eqn:E.
  - apply andb_true_iff in E. destruct E as [Hf Hd].
    apply existsb_exists. exists r. split.
    + apply filter_In. auto.
    + rewrite Hd, Nat.eqb_refl. reflexivity.
  - destruct (existsb _ (filter is_failed rows)) eqn:Ex; [|reflexivity].
    apply existsb_exists in Ex. destruct Ex as (n & Hn & Hboth).
    apply filter_In in Hn. destruct Hn as [Hn Hfailed].
    apply andb_true_iff in Hboth. destruct Hboth as [Hd Hid].
    apply Nat.eqb_eq in Hid.
    assert (r = n)
      by (apply (unique_row notificationsT rows r n Hnd Hr Hn Hid)).
    subst n. rewrite Hfailed, Hd in E. discriminate.
Qed.

(** X25.  [retryFailedNotifications] never throws on notifications with
    unique ids.  Without an id it tries every failed notification once: the
    ones Telegram takes become [sent], stamped with the instant of the
    retry, the others stay as they were, and the three counts add up.  With
    an id it tries that notification whatever its status, an already sent
    one included: when Telegram takes it the row becomes [sent] and one
    success is reported, and when Telegram refuses it or cannot be reached
    nothing is written and one failure is reported.  For an id without a
    notification it tries nothing. *)
Theorem retryFailedNotifications_counts
    (fetch : Notification.t -> FetchOutcome) (now : string) (db : DB)
    (Huniq : unique_ids notificationsT db) :
  let attempted := filter is_failed (notifications db) in
  let taken := filter (delivered fetch) attempted in
  retryFailedNotifications fetch now None db =
    Ok (RetryResult.mk (length attempted) (length taken)
          (Z.of_nat (length attempted) - Z.of_nat (length taken)))
       (with_notifications (map (retried fetch now) (notifications db)) db) /\
  (Z.of_nat (length taken)
   + (Z.of_nat (length attempted) - Z.of_nat (length taken))
   = Z.of_nat (length attempted))%Z /\
  length taken <= length attempted /\
  (forall i n,
     find (has_id notificationsT i) (notifications db) = Some n ->
     fetch n = fetch_ok ->
     retryFailedNotifications fetch now (Some i) db =
       Ok (RetryResult.mk 1 1 0)
          (with_notifications
             (map (patching notificationsT i (Notification.set_sent now))
                (notifications db)) db)) /\
  (forall i n,
     find (has_id notificationsT i) (notifications db) = Some n ->
     fetch n <> fetch_ok ->
     retryFailedNotifications fetch now (Some i) db =
       Ok (RetryResult.mk 1 0 1) db) /\
  (forall i,
     find (has_id notificationsT i) (notifications db) = None ->
     retryFailedNotifications fetch now (Some i) db =
       Ok (RetryResult.mk 0 0 0) db).
Proof.
  cbv zeta. unfold unique_ids in Huniq.
  cbn [rows notificationsT id_of] in Huniq.
  split; [|split; [lia | split; [apply filter_length_le | split; [|split]]]].
  - unfold retryFailedNotifications.
    unfold bind at 1. unfold collect, gets.
    change (rows notificationsT db) with (notifications db).
    unfold bind at 1. rewrite retry_loop.
    + unfold ret. rewrite Nat.add_0_r. f_equal. f_equal.
      rewrite retry_steps_map. apply map_ext_in. intros r Hr.
      rewrite (retried_selected fetch _ r Huniq Hr). reflexivity.
    + intros n Hn. exists n. split; [|reflexivity].
      apply filter_In in Hn. tauto.
  - intros i n Hfind Hok. unfold retryFailedNotifications.
    unfold bind at 1. unfold bind at 1. unfold db_get, gets.
    change (rows notificationsT db) with (notifications db).
    rewrite Hfind. unfold ret at 1. unfold bind at 1.
    assert (Hid : Notification._id n = i).
    { apply find_some in Hfind. destruct Hfind as [_ Hid].
      unfold has_id in Hid. apply Nat.eqb_eq in Hid. exact Hid. }
    cbn [for_fold]. unfold bind at 1. unfold retryOne, try_catch.
    rewrite Hok. unfold bind at 1. rewrite Hid.
    rewrite db_patch_ok by (apply (find_in_id notificationsT _ _ _ Hfind)).
    unfold ret. destruct db; reflexivity.
  - intros i n Hfind Hrefused. unfold retryFailedNotifications.
    unfold bind at 1. unfold bind at 1. unfold db_get, gets.
    change (rows notificationsT db) with (notifications db).
    rewrite Hfind. unfold ret at 1. unfold bind at 1.
    cbn [for_fold]. unfold bind at 1. unfold retryOne, try_catch.
    destruct (fetch n) as [|error|error]; [contradiction| |];
      reflexivity.
  - intros i Hnone. unfold retryFailedNotifications.
    unfold bind at 1. unfold bind at 1. unfold db_get, gets.
    change (rows notificationsT db) with (notifications db).
    rewrite Hnone. reflexivity.
Qed.

Lemma retryFailedNotifications_counts_witness :
  retryFailedNotifications (fun _ => fetch_ok) "t1" (Some 4) Sample.db_thread
  = Ok (RetryResult.mk 1 1 0)
       (with_notifications
          (map (patching notificationsT 4 (Notification.set_sent "t1"))
             (notifications Sample.db_thread)) Sample.db_thread) /\
  retryFailedNotifications (fun _ => fetch_throws "fetch failed") "t1"
    (Some 4) Sample.db_thread
  = Ok (RetryResult.mk 1 0 1) Sample.db_thread /\
  retryFailedNotifications (fun _ => fetch_not_ok "Bad Request") "t1"
    (Some 4) Sample.db_thread
  = Ok (RetryResult.mk 1 0 1) Sample.db_thread.
Proof.
  assert (Huniq : unique_ids notificationsT Sample.db_thread).
  { repeat constructor; cbn; intuition discriminate. }
  split; [|split].
  - apply (proj1 (proj2 (proj2 (proj2 (retryFailedNotifications_counts
                                         (fun _ => fetch_ok) "t1"
                                         Sample.db_thread Huniq))))
             4 Sample.notification4);
      reflexivity.
  - apply (proj1 (proj2 (proj2 (proj2 (proj2
                   (retryFailedNotifications_counts
                      (fun _ => fetch_throws "fetch failed") "t1"
                      Sample.db_thread Huniq)))))
             4 Sample.notification4);
      [reflexivity | discriminate].
  - apply (proj1 (proj2 (proj2 (proj2 (proj2
                   (retryFailedNotifications_counts
                      (fun _ => fetch_not_ok "Bad Request") "t1"
                      Sample.db_thread Huniq)))))
             4 Sample.notification4);
      [reflexivity | discriminate].
Defined.

(** ** Migrating twice *)

Lemma migrateFeedbackData_fresh (now : string) (client_name : option string)
    (db : DB) :
  find (client_named (targetClientName client_name)) (clients db) = None ->
  exists res db',
    migrateFeedbackData now client_name db = Ok res db' /\
    MigrationResult.success res = true /\
    MigrationResult.migrated_feedback_count res
      = Some (length (feedback db)) /\
    clients db' =
      (clients db ++ [migratedClient now client_name (next_id db)])%list /\
    feedback db' = feedback db /\
    length (threads db') = length (threads db) + length (feedback db).
Proof.
  intros Hnone. unfold migrateFeedbackData.
  unfold bind at 1. unfold first at 1, gets at 1.
  change (rows clientsT db) with (clients db). rewrite Hnone.
  unfold bind at 1. unfold db_insert at 1.
  unfold bind at 1. unfold db_insert at 1.
  unfold bind at 1. unfold gets at 1.
  set (db2 := with_next_id _ (set_rows projectsT _ _)).
  unfold bind at 1.
  destruct (migrateFeedback_loop now
              (next_id (with_next_id (S (next_id db))
                 (set_rows clientsT
                    (rows clientsT db ++
                       [migratedClient now client_name (next_id db)]) db)))
              (feedback db2) 0 db2)
    as (db3 & Hloop & Hc & Hp & Hf & Hl & Ht & Hm).
  unfold migratedClient in Hloop. rewrite Hloop.
  destruct db3. unfold bind, db_insert, ret. cbn in *.
  do 2 eexists. split; [reflexivity|]. cbn.
  subst db2. destruct db; cbn in *. subst.
  rewrite Nat.add_0_r.
  repeat split; try reflexivity. lia.
Qed.

(** X26.  The guard of [migrateFeedbackData] is the name of the client
    only, and the migration copies the feedback rows without removing
    them.  So after a migration under one name, when [getMigrationStatus]
    already reports the migration as completed, a call under another name
    that no client has migrates every feedback row once more. *)
Theorem migrateFeedbackData_other_name (now now' : string)
    (first_name second_name : option string) (db : DB)
    (Hfirst : find (client_named (targetClientName first_name)) (clients db)
              = None)
    (Hsecond : find (client_named (targetClientName second_name))
                 (clients db) = None)
    (Hdiffer : targetClientName first_name <> targetClientName second_name) :
  exists r1 db1 r2 db2,
    migrateFeedbackData now first_name db = Ok r1 db1 /\
    feedback db1 = feedback db /\
    MigrationStatus.migration_completed (getMigrationStatus db1) = true /\
    migrateFeedbackData now' second_name db1 = Ok r2 db2 /\
    MigrationResult.success r2 = true /\
    MigrationResult.migrated_feedback_count r2
      = Some (length (feedback db)) /\
    feedback db2 = feedback db /\
    length (threads db2) = length (threads db) + 2 * length (feedback db).
Proof.
  destruct (migrateFeedbackData_fresh now first_name db Hfirst)
    as (r1 & db1 & Hrun1 & _ & _ & Hclients1 & Hfeedback1 & Hthreads1).
  assert (Hsecond1 : find (client_named (targetClientName second_name))
                       (clients db1) = None).
  { rewrite Hclients1. clear - Hsecond Hdiffer.
    induction (clients db) as [|c l IH]; cbn [app find] in *.
    - unfold client_named, migratedClient. cbn [Client.name].
      destruct (String.eqb_spec (targetClientName first_name)
                  (targetClientName second_name)); [contradiction|].
      reflexivity.
    - destruct (client_named (targetClientName second_name) c);
        [discriminate | apply IH; exact Hsecond]. }
  destruct (migrateFeedbackData_fresh now' second_name db1 Hsecond1)
    as (r2 & db2 & Hrun2 & Hsuccess2 & Hcount2 & _ & Hfeedback2 & Hthreads2).
  exists r1, db1, r2, db2.
  split; [exact Hrun1|]. split; [exact Hfeedback1|].
  split.
  { unfold getMigrationStatus. cbn [MigrationStatus.migration_completed].
    rewrite Hclients1, length_app. apply Nat.ltb_lt. cbn [length]. lia. }
  split; [exact Hrun2|]. split; [exact Hsuccess2|].
  rewrite Hfeedback1 in *.
  split; [exact Hcount2|]. split; [exact Hfeedback2|]. lia.
Qed.

Lemma migrateFeedbackData_other_name_witness :
  exists r1 db1 r2 db2,
    migrateFeedbackData "t1" None Sample.db_legacy = Ok r1 db1 /\
    migrateFeedbackData "t2" (Some "Otro") db1 = Ok r2 db2 /\
    MigrationResult.success r2 = true /\
    length (threads db2) = 2.
Proof.
  destruct (migrateFeedbackData_other_name "t1" "t2" None (Some "Otro")
              Sample.db_legacy eq_refl eq_refl)
    as (r1 & db1 & r2 & db2 & Hrun1 & _ & _ & Hrun2 & Hsuccess & _ & _
        & Hthreads).
  { discriminate. }
  exists r1, db1, r2, db2. repeat split; assumption.
Defined.

(** ** Adding a file and deleting it again *)

Lemma filter_without_fresh {R} (T : Table R) (i : Id) (l : list R) (x : R) :
  (forall r, In r l -> id_of T r <> i) -> id_of T x = i ->
  filter (fun r => negb (has_id T i r)) (l ++ [x]) = l.
Proof.
  intros Hfresh Hx. rewrite filter_app. cbn. unfold has_id at 2.
  rewrite Hx, Nat.eqb_refl. cbn. rewrite app_nil_r.
  induction l as [|a l IH]; [reflexivity|].
  cbn. unfold has_id at 1.
  destruct (Nat.eqb (id_of T a) i) eqn:E.
  - apply Nat.eqb_eq in E. exfalso.
    apply (Hfresh a (or_introl eq_refl) E).
  - cbn. rewrite IH; [reflexivity|].
    intros r Hr. apply Hfresh. right. exact Hr.
Qed.

(** X27.  On project files whose ids were all handed out before,
    [deleteFileFromProject] of the id [addFileToProject] returned puts the
    table of files back as it was; the default folders the upload may have
    created stay.  Deleting a file that does not exist throws. *)
Theorem addFile_then_delete (storage : Storage) (now : string)
    (args : AddFileArgs.t) (db : DB)
    (Hbelow : ids_below project_filesT db) :
  (exists i db1 db2,
     addFileToProject storage now args db = Ok i db1 /\
     deleteFileFromProject i db1 = Ok true db2 /\
     project_files db2 = project_files db /\
     project_folders db2 = project_folders db1) /\
  (forall i,
     find (has_id project_filesT i) (project_files db) = None ->
     deleteFileFromProject i db = Throw "Delete on nonexistent document").
Proof.
  split.
  - assert (Hgen : forall (d : DB) (file : ProjectFile.t),
              project_files d = project_files db ->
              next_id db <= next_id d ->
              ProjectFile._id file = next_id d ->
              exists db2,
                deleteFileFromProject (next_id d) (withFile file d)
                  = Ok true db2 /\
                project_files db2 = project_files db /\
                project_folders db2 = project_folders (withFile file d)).
    { intros d file Hfiles Hnext Hid.
      assert (Hfresh : forall r, In r (project_files d) ->
                         id_of project_filesT r <> next_id d).
      { intros r Hr. rewrite Hfiles in Hr. apply Hbelow in Hr. lia. }
      unfold deleteFileFromProject, bind.
      rewrite (db_delete_ok project_filesT (next_id d) (withFile file d) file).
      2:{ replace (rows project_filesT (withFile file d))
            with (project_files d ++ [file])%list
            by (destruct d; reflexivity).
          apply (find_app_fresh project_filesT); assumption. }
      unfold ret. eexists. split; [reflexivity|].
      replace (rows project_filesT (withFile file d))
        with (project_files d ++ [file])%list
        by (destruct d; reflexivity).
      rewrite (filter_without_fresh project_filesT _ _ _ Hfresh Hid).
      split; [rewrite <- Hfiles|]; destruct d; reflexivity. }
    rewrite addFileToProject_run.
    destruct (AddFileArgs.folder_id args) as [folder|].
    + destruct (Hgen db (addedFile storage now args (next_id db)
                           (Some folder)) eq_refl (le_n _) eq_refl)
        as (db2 & Hdel & Hfiles & Hfolders).
      do 3 eexists. split; [reflexivity|].
      split; [exact Hdel|]. split; assumption.
    + cbv zeta.
      set (db1 := ensureFolders now (AddFileArgs.project_id args) client db).
      assert (Hnext : next_id db <= next_id db1).
      { subst db1. unfold ensureFolders.
        destruct (existsb _ _); [lia|]. destruct db; cbn. lia. }
      destruct (Hgen db1
                  (addedFile storage now args (next_id db1)
                     (targetFolder
                        (foldersOf (AddFileArgs.project_id args) db1)
                        (AddFileArgs.file_type args)))
                  (ensureFolders_files now _ client db) Hnext eq_refl)
        as (db2 & Hdel & Hfiles & Hfolders).
      do 3 eexists. split; [reflexivity|].
      split; [exact Hdel|]. split; assumption.
  - intros i Hnone. unfold deleteFileFromProject, bind.
    rewrite db_delete_missing by exact Hnone. reflexivity.
Qed.

Lemma addFile_then_delete_witness :
  exists i db1 db2,
    addFileToProject (fun _ => None) "t1"
      (AddFileArgs.mk 1 None 50 None "plano.pdf" "application/pdf" 10%Z None
         client)
      Sample.db_thread = Ok i db1 /\
    deleteFileFromProject i db1 = Ok true db2 /\
    project_files db2 = project_files Sample.db_thread.
Proof.
  assert (Hbelow : ids_below project_filesT Sample.db_thread).
  { intros f Hf. cbn in Hf. destruct Hf as [<- | [<- | []]]; cbn; lia. }
  destruct (proj1 (addFile_then_delete (fun _ => None) "t1"
                     (AddFileArgs.mk 1 None 50 None "plano.pdf"
                        "application/pdf" 10%Z None client)
                     Sample.db_thread Hbelow))
    as (i & db1 & db2 & Hadd & Hdel & Hfiles & _).
  exists i, db1, db2. repeat split; assumption.
Defined.

(** ** Patching the rows a query selected *)

Lemma for_each_patch {R} (T : Table R) (f : R -> R) (sel : list R) :
  lawful T ->
  (forall r, id_of T (f r) = id_of T r) ->
  forall db,
    NoDup (map (id_of T) sel) ->
    (forall x, In x sel ->
       exists r, In r (rows T db) /\ id_of T r = id_of T x) ->
    for_each sel (fun x => db_patch T (id_of T x) f) db =
    Ok tt (set_rows T
             (map (fun r =>
                     if existsb (fun x => has_id T (id_of T x) r) sel
                     then f r else r)
                (rows T db)) db).
Proof.
  intros (Hrs & Hss & Hsame) Hf.
  induction sel as [|x sel IH]; intros db Hnd Hin.
  - cbn. unfold ret. rewrite map_id, Hsame. reflexivity.
  - cbn [for_each]. unfold bind.
    rewrite db_patch_ok by (apply Hin; left; reflexivity).
    inversion Hnd as [|? ? Hx Hnd']; subst.
    rewrite IH.
    + rewrite Hrs, Hss, map_map. f_equal. f_equal.
      apply map_ext. intro r. cbn [existsb]. unfold patching.
      destruct (has_id T (id_of T x) r) eqn:E; cbn [orb]; [|reflexivity].
      replace (existsb (fun x0 => has_id T (id_of T x0) (f r)) sel)
        with false; [reflexivity|].
      symmetry. destruct (existsb _ sel) eqn:Ex; [|reflexivity].
      apply existsb_exists in Ex. destruct Ex as (y & Hy & Hid).
      unfold has_id in *. rewrite Hf in Hid.
      apply Nat.eqb_eq in E, Hid. exfalso. apply Hx.
      rewrite <- E, Hid. apply in_map. exact Hy.
    + exact Hnd'.
    + intros x' Hx'. destruct (Hin x' (or_intror Hx')) as (r & Hr & Hid).
      exists (patching T (id_of T x) f r). split.
      * rewrite Hrs. apply in_map. exact Hr.
      * rewrite <- Hid. apply patching_id. exact Hf.
Qed.

Lemma patch_where {R} (T : Table R) (q : R -> bool) (f : R -> R) (db : DB) :
  lawful T -> (forall r, id_of T (f r) = id_of T r) ->
  NoDup (map (id_of T) (rows T db)) ->
  for_each (filter q (rows T db)) (fun x => db_patch T (id_of T x) f) db =
  Ok tt (set_rows T (map (fun r => if q r then f r else r) (rows T db)) db).
Proof.
  intros Hlaw Hf Hnd. rewrite (for_each_patch T f _ Hlaw Hf).
  - f_equal. f_equal. apply map_ext_in. intros r Hr.
    rewrite (selected_same_id T q _ r Hnd Hr). reflexivity.
  - apply selection_unique. exact Hnd.
  - intros x Hx. exists x. split; [|reflexivity].
    apply filter_In in Hx. tauto.
Qed.

Lemma lawful_feedback : lawful feedbackT.
Proof. repeat split; intros; destruct db; reflexivity. Qed.

(** ** Releasing the completed feedback *)

(** X28.  On feedback rows with unique ids, [markCompletedAsReleased]
    returns the number of completed rows, turns exactly those into released
    rows, changing nothing else of them, and leaves no completed row; a
    second run returns 0 and changes nothing. *)
Theorem markCompletedAsReleased_idempotent (db : DB)
    (Huniq : unique_ids feedbackT db) :
  let db1 := with_feedback (map release (feedback db)) db in
  markCompletedAsReleased db =
    Ok (length (filter is_completed (feedback db))) db1 /\
  filter is_completed (feedback db1) = [] /\
  (forall f, In f (feedback db) -> is_completed f = false ->
             In f (feedback db1)) /\
  markCompletedAsReleased db1 = Ok 0 db1.
Proof.
  assert (Hrun : forall d, unique_ids feedbackT d ->
            markCompletedAsReleased d =
            Ok (length (filter is_completed (feedback d)))
               (with_feedback (map release (feedback d)) d)).
  { intros d Hd. unfold markCompletedAsReleased.
    unfold bind at 1. unfold collect, gets.
    assert (Hloop := patch_where feedbackT is_completed
                       (feedback_with_status FeedbackStatus.released) d
                       lawful_feedback (fun r => eq_refl) Hd).
    cbn [id_of feedbackT rows set_rows] in Hloop.
    cbn [id_of feedbackT rows set_rows].
    unfold bind. rewrite Hloop. reflexivity. }
  intro db1.
  assert (Hfeedback1 : feedback db1 = map release (feedback db))
    by (subst db1; destruct db; reflexivity).
  assert (Hnone : filter is_completed (feedback db1) = []).
  { rewrite Hfeedback1. apply filter_nil. intros f Hf.
    apply in_map_iff in Hf. destruct Hf as (r & <- & _).
    unfold release. destruct (is_completed r) eqn:E; [reflexivity | exact E]. }
  split; [apply Hrun; exact Huniq|].
  split; [exact Hnone|].
  split.
  { intros f Hf Hnot. rewrite Hfeedback1. apply in_map_iff.
    exists f. split; [|exact Hf]. unfold release. rewrite Hnot.
    reflexivity. }
  rewrite Hrun.
  - rewrite Hnone. f_equal.
    replace (map release (feedback db1)) with (feedback db1).
    + destruct db1; reflexivity.
    + rewrite <- (map_id (feedback db1)) at 1. apply map_ext_in.
      intros f Hf. unfold release.
      rewrite (filter_nil_inv _ _ f Hnone Hf). reflexivity.
  - unfold unique_ids in *. cbn [rows feedbackT id_of] in *.
    rewrite Hfeedback1, map_map. erewrite map_ext; [exact Huniq|].
    intro f. unfold release. destruct (is_completed f); reflexivity.
Qed.

Lemma markCompletedAsReleased_idempotent_witness :
  markCompletedAsReleased
    (with_feedback
       [feedback_with_status FeedbackStatus.completed Sample.feedback7]
       Sample.db_legacy)
  = Ok 1
      (with_feedback
         [feedback_with_status FeedbackStatus.released Sample.feedback7]
         Sample.db_legacy).
Proof.
  assert (Huniq : unique_ids feedbackT
                    (with_feedback
                       [feedback_with_status FeedbackStatus.completed
                          Sample.feedback7] Sample.db_legacy)).
  { repeat constructor; cbn; intuition discriminate. }
  apply (proj1 (markCompletedAsReleased_idempotent _ Huniq)).
Defined.

(** ** Cleaning up the welcome threads *)

Lemma delete_if_loop {R} (T : Table R) (q : R -> bool) (l : list R) :
  forall (count : nat) (db : DB),
    for_fold l count
      (fun count x =>
         if q x then db_delete T (id_of T x) ;;; ret (S count)
         else ret count) db =
    match for_each (filter q l) (fun x => db_delete T (id_of T x)) db with
    | Ok _ db' => Ok (length (filter q l) + count) db'
    | Throw e => Throw e
    end.
Proof.
  induction l as [|x l IH]; intros count db; [reflexivity|].
  cbn [for_fold filter]. destruct (q x).
  - cbn [for_each length]. unfold bind.
    destruct (db_delete T (id_of T x) db) as [[] db'|e]; [|reflexivity].
    unfold ret. rewrite IH.
    destruct (for_each _ _ db') as [[] db''|e]; [|reflexivity].
    f_equal. lia.
  - unfold bind, ret. apply IH.
Qed.

Lemma cleanTitleOf_id (thread row : Thread.t) :
  Thread._id (cleanTitleOf thread row) = Thread._id row.
Proof. unfold cleanTitleOf. destruct (_ && _); reflexivity. Qed.

Lemma cleanTitle_id (row : Thread.t) :
  Thread._id (cleanTitle row) = Thread._id row.
Proof. unfold cleanTitle. destruct (welcomeTitle _); reflexivity. Qed.

Lemma cleanupThread_run (counts : nat * nat) (t : Thread.t) (d : DB) :
  unique_ids messagesT d ->
  (exists r, In r (threads d) /\ Thread._id r = Thread._id t) ->
  cleanupThread counts t d =
  Ok (fst counts + (if welcomeTitle (Thread.title t) then 1 else 0),
      snd counts
      + length (filter (fun m => message_of_thread (Thread._id t) m &&
                                  isWelcome m) (messages d)))
     (with_messages
        (filter (fun m => negb (message_of_thread (Thread._id t) m &&
                                isWelcome m)) (messages d))
        (with_threads (map (cleanTitleOf t) (threads d)) d)).
Proof.
  intros Huniq Hrow. unfold cleanupThread.
  set (d1 := with_threads (map (cleanTitleOf t) (threads d)) d).
  assert (Hfirst :
            (if welcomeTitle (Thread.title t)
             then
               db_patch threadsT (Thread._id t)
                 (thread_with_title (projectNameOf (Thread.title t))) ;;;
               ret (S (fst counts))
             else ret (fst counts)) d
            = Ok (fst counts
                  + (if welcomeTitle (Thread.title t) then 1 else 0)) d1).
  { subst d1. unfold cleanTitleOf.
    destruct (welcomeTitle (Thread.title t)).
    - unfold bind. rewrite db_patch_ok by exact Hrow. unfold ret.
      replace (fst counts + 1) with (S (fst counts)) by lia.
      destruct d; reflexivity.
    - unfold ret. rewrite Nat.add_0_r. cbn [andb]. rewrite map_id.
      destruct d; reflexivity. }
  unfold bind at 1. cbv zeta. rewrite Hfirst.
  unfold bind at 1. unfold collect, gets.
  unfold bind at 1.
  rewrite (delete_if_loop messagesT isWelcome).
  rewrite filter_filter.
  rewrite (delete_where messagesT
             (fun m => message_of_thread (Thread._id t) m && isWelcome m)
             d1 lawful_messages)
    by (subst d1; destruct d; exact Huniq).
  unfold ret. rewrite (Nat.add_comm (snd counts)).
  subst d1. destruct d; reflexivity.
Qed.

Lemma cleanedUp_cons (x : Thread.t) (ts : list Thread.t) (m : Message.t) :
  cleanedUp (x :: ts) m =
  (message_of_thread (Thread._id x) m && isWelcome m) || cleanedUp ts m.
Proof.
  unfold cleanedUp, in_threads. cbn [existsb]. unfold message_of_thread.
  rewrite (Nat.eqb_sym (Thread._id x) (Message.thread_id m)).
  destruct (Nat.eqb (Message.thread_id m) (Thread._id x)), (isWelcome m),
    (existsb _ ts); reflexivity.
Qed.

Lemma cleanedUp_count (x : Thread.t) (ts : list Thread.t)
    (msgs : list Message.t) :
  length (filter (fun m => message_of_thread (Thread._id x) m && isWelcome m)
            msgs)
  + length (filter (cleanedUp ts)
              (filter (fun m => negb (message_of_thread (Thread._id x) m &&
                                      isWelcome m)) msgs))
  = length (filter (cleanedUp (x :: ts)) msgs).
Proof.
  induction msgs as [|m msgs IH]; [reflexivity|].
  cbn [filter]. rewrite (cleanedUp_cons x ts m).
  destruct (message_of_thread (Thread._id x) m && isWelcome m);
    cbn [negb orb filter length].
  - lia.
  - destruct (cleanedUp ts m); cbn [length]; lia.
Qed.

Lemma cleanedUp_rest (x : Thread.t) (ts : list Thread.t)
    (msgs : list Message.t) :
  filter (fun m => negb (cleanedUp ts m))
    (filter (fun m => negb (message_of_thread (Thread._id x) m &&
                            isWelcome m)) msgs)
  = filter (fun m => negb (cleanedUp (x :: ts) m)) msgs.
Proof.
  rewrite filter_filter. apply filter_ext. intro m.
  rewrite (cleanedUp_cons x ts m).
  destruct (message_of_thread (Thread._id x) m && isWelcome m),
    (cleanedUp ts m); reflexivity.
Qed.

Lemma cleanup_loop (ts : list Thread.t) :
  forall (counts : nat * nat) (d : DB),
    unique_ids messagesT d ->
    (forall t, In t ts ->
       exists r, In r (threads d) /\ Thread._id r = Thread._id t) ->
    for_fold ts counts cleanupThread d =
    Ok (fst counts
        + length (filter (fun t => welcomeTitle (Thread.title t)) ts),
        snd counts + length (filter (cleanedUp ts) (messages d)))
       (with_messages
          (filter (fun m => negb (cleanedUp ts m)) (messages d))
          (with_threads
             (fold_left (fun rows t => map (cleanTitleOf t) rows) ts
                (threads d)) d)).
Proof.
  induction ts as [|x ts IH]; intros counts d Huniq Hrows.
  - cbn [for_fold fold_left filter length]. unfold ret.
    rewrite !Nat.add_0_r.
    replace (filter (cleanedUp []) (messages d)) with (@nil Message.t).
    2:{ symmetry. apply filter_nil. intros m _. unfold cleanedUp.
        cbn. apply andb_false_r. }
    replace (filter (fun m => negb (cleanedUp [] m)) (messages d))
      with (messages d).
    2:{ symmetry. rewrite <- (filter_all (messages d)) at 2.
        apply filter_ext. intro m. unfold cleanedUp. cbn.
        rewrite andb_false_r. reflexivity. }
    cbn [length]. rewrite Nat.add_0_r. destruct counts, d; reflexivity.
  - cbn [for_fold]. unfold bind.
    rewrite (cleanupThread_run counts x d Huniq
               (Hrows x (or_introl eq_refl))).
    set (d1 := with_messages _ (with_threads _ d)).
    assert (Hmessages1 :
              messages d1 =
              filter (fun m => negb (message_of_thread (Thread._id x) m &&
                                     isWelcome m)) (messages d))
      by (subst d1; destruct d; reflexivity).
    assert (Hthreads1 : threads d1 = map (cleanTitleOf x) (threads d))
      by (subst d1; destruct d; reflexivity).
    rewrite IH.
    + cbn [fst snd fold_left filter].
      rewrite Hmessages1, Hthreads1, cleanedUp_rest.
      rewrite <- (cleanedUp_count x ts (messages d)).
      apply f_equal2; [apply f_equal2|].
      * destruct (welcomeTitle (Thread.title x)); cbn [length]; lia.
      * lia.
      * subst d1. destruct d; reflexivity.
    + unfold unique_ids in *. cbn [rows messagesT id_of] in *.
      rewrite Hmessages1. apply selection_unique. exact Huniq.
    + intros t Ht. destruct (Hrows t (or_intror Ht)) as (r & Hr & Hid).
      exists (cleanTitleOf x r). rewrite Hthreads1.
      split; [apply in_map; exact Hr|].
      rewrite cleanTitleOf_id. exact Hid.
Qed.

Lemma cleanTitle_steps (ts : list Thread.t) :
  forall rows : list Thread.t,
    NoDup (map Thread._id ts) ->
    (forall t r, In t ts -> In r rows -> Thread._id r = Thread._id t ->
                 Thread.title r = Thread.title t) ->
    fold_left (fun rows t => map (cleanTitleOf t) rows) ts rows =
    map (fun r =>
           if existsb (fun t => has_id threadsT (Thread._id t) r) ts
           then cleanTitle r else r)
      rows.
Proof.
  induction ts as [|x ts IH]; intros rows Hnd Hagree.
  - cbn. symmetry. apply map_id.
  - inversion Hnd as [|? ? Hx Hnd']; subst.
    cbn [fold_left]. rewrite IH; [|exact Hnd'|].
    + rewrite map_map. apply map_ext_in. intros r Hr.
      cbn [existsb]. unfold cleanTitleOf.
      destruct (has_id threadsT (Thread._id x) r) eqn:E.
      * assert (Hid : Thread._id r = Thread._id x)
          by (unfold has_id in E; apply Nat.eqb_eq in E; exact E).
        assert (Htitle := Hagree x r (or_introl eq_refl) Hr Hid).
        rewrite andb_true_r. cbn [orb].
        replace (if welcomeTitle (Thread.title x)
                 then thread_with_title (projectNameOf (Thread.title x)) r
                 else r)
          with (cleanTitle r)
          by (unfold cleanTitle; rewrite Htitle; reflexivity).
        replace (existsb (fun t => has_id threadsT (Thread._id t)
                                     (cleanTitle r)) ts)
          with false; [reflexivity|].
        symmetry. destruct (existsb _ ts) eqn:Ex; [|reflexivity].
        apply existsb_exists in Ex. destruct Ex as (t & Ht & Hsame).
        unfold has_id in Hsame. cbn [id_of threadsT] in Hsame.
        rewrite cleanTitle_id in Hsame. apply Nat.eqb_eq in Hsame.
        exfalso. apply Hx. rewrite <- Hid, Hsame. apply in_map. exact Ht.
      * rewrite andb_false_r. cbn [orb]. reflexivity.
    + intros t r' Ht Hr' Hid.
      apply in_map_iff in Hr'. destruct Hr' as (r & <- & Hr).
      rewrite cleanTitleOf_id in Hid. unfold cleanTitleOf.
      replace (has_id threadsT (Thread._id x) r) with false.
      * rewrite andb_false_r.
        apply (Hagree t r (or_intror Ht) Hr Hid).
      * symmetry. unfold has_id. apply Nat.eqb_neq.
        cbn [id_of threadsT]. intro Heq. apply Hx.
        rewrite <- Heq, Hid. apply in_map. exact Ht.
Qed.

Lemma in_threads_cleaned (ts : list Thread.t) (m : Message.t) :
  in_threads (map cleanTitle ts) m = in_threads ts m.
Proof.
  unfold in_threads. induction ts as [|t ts IH]; [reflexivity|].
  cbn [map existsb]. rewrite cleanTitle_id, IH. reflexivity.
Qed.

Lemma cleanupWelcomeMessages_closed (db : DB) :
  unique_ids threadsT db -> unique_ids messagesT db ->
  cleanupWelcomeMessages db =
  Ok (CleanupResult.mk true
        (length (filter (fun t => welcomeTitle (Thread.title t))
                   (threads db)))
        (length (filter (cleanedUp (threads db)) (messages db))))
     (with_messages
        (filter (fun m => negb (cleanedUp (threads db) m)) (messages db))
        (with_threads (map cleanTitle (threads db)) db)).
Proof.
  intros Ht Hm. unfold cleanupWelcomeMessages.
  unfold bind at 1. unfold gets. unfold bind.
  rewrite cleanup_loop; [|exact Hm|].
  - unfold ret. cbn [fst snd]. f_equal. f_equal. f_equal.
    unfold unique_ids in Ht. cbn [rows threadsT id_of] in Ht.
    rewrite cleanTitle_steps; [|exact Ht|].
    + apply map_ext_in. intros r Hr.
      replace (existsb (fun t => has_id threadsT (Thread._id t) r)
                 (threads db)) with true; [reflexivity|].
      symmetry. apply existsb_exists. exists r.
      split; [exact Hr | apply Nat.eqb_refl].
    + intros t r Hin Hr Hid. f_equal.
      apply (unique_row threadsT (threads db) r t Ht Hr Hin Hid).
  - intros t Hin. exists t. split; [exact Hin | reflexivity].
Qed.

Lemma endsWith_more (a b p : string) :
  endsWith b p = true -> endsWith (a ++ b) p = true.
Proof.
  intro Hb. induction a as [|c a IH]; [exact Hb|].
  cbn [append endsWith]. rewrite IH. apply orb_true_r.
Qed.

Lemma prefix_of_append (p s : string) : String.prefix p (p ++ s) = true.
Proof.
  induction p as [|c p IH]; [destruct s; reflexivity|].
  cbn [append String.prefix].
  destruct (ascii_dec c c) as [_ | Hne]; [exact IH | contradiction].
Qed.

Lemma dropChars_of_append (p s : string) :
  dropChars (String.length p) (p ++ s) = s.
Proof.
  induction p as [|c p IH]; [destruct s; reflexivity | exact IH].
Qed.

Lemma replaceFirst_at_start (p r s : string) :
  replaceFirst p r (p ++ s) = r ++ s.
Proof.
  assert (Hunfold : forall x,
            replaceFirst p r x =
            if String.prefix p x
            then r ++ dropChars (String.length p) x
            else match x with
                 | EmptyString => EmptyString
                 | String c x' => String c (replaceFirst p r x')
                 end)
    by (intro x; destruct x; reflexivity).
  rewrite Hunfold, prefix_of_append, dropChars_of_append. reflexivity.
Qed.

Lemma replaceFirst_plain (name : string) :
  plain name = true -> replaceFirst "!" "" (name ++ "!") = name.
Proof.
  induction name as [|c name IH]; intro Hplain; [reflexivity|].
  cbn [plain] in Hplain. apply andb_true_iff in Hplain.
  destruct Hplain as [Hc Hrest].
  cbn [append replaceFirst String.prefix].
  destruct (ascii_dec "!" c) as [<- | Hne]; [discriminate Hc|].
  rewrite (IH Hrest). reflexivity.
Qed.

(** X29.  On threads and messages with unique ids,
    [cleanupWelcomeMessages] does not throw; it renames every thread with a
    welcome title and counts it, deletes exactly the welcome messages of the
    threads that exist and counts them, and leaves every other message; a
    second run deletes nothing.  The title of the welcome thread of a
    project whose name holds no exclamation mark becomes that name. *)
Theorem cleanupWelcomeMessages_cleans (db : DB)
    (Hthreads : unique_ids threadsT db)
    (Hmessages : unique_ids messagesT db) :
  let db1 :=
    with_messages
      (filter (fun m => negb (cleanedUp (threads db) m)) (messages db))
      (with_threads (map cleanTitle (threads db)) db) in
  cleanupWelcomeMessages db =
    Ok (CleanupResult.mk true
          (length (filter (fun t => welcomeTitle (Thread.title t))
                     (threads db)))
          (length (filter (cleanedUp (threads db)) (messages db))))
       db1 /\
  (forall m, In m (messages db1) -> in_threads (threads db) m = true ->
             isWelcome m = false) /\
  (forall m, In m (messages db) -> isWelcome m = false ->
             In m (messages db1)) /\
  (exists r2 db2,
     cleanupWelcomeMessages db1 = Ok r2 db2 /\
     CleanupResult.deleted_messages r2 = 0 /\
     messages db2 = messages db1) /\
  (forall name,
     plain name = true ->
     welcomeTitle ("¡Bienvenido a " ++ name ++ "!") = true /\
     projectNameOf ("¡Bienvenido a " ++ name ++ "!") = name).
Proof.
  intro db1.
  assert (Hmessages1 :
            messages db1 =
            filter (fun m => negb (cleanedUp (threads db) m)) (messages db))
    by (subst db1; destruct db; reflexivity).
  assert (Hthreads1 : threads db1 = map cleanTitle (threads db))
    by (subst db1; destruct db; reflexivity).
  assert (Hclean : forall m, In m (messages db1) ->
                     cleanedUp (threads db1) m = false).
  { intros m Hm. rewrite Hmessages1 in Hm. apply filter_In in Hm.
    destruct Hm as [_ Hm]. apply negb_true_iff in Hm.
    unfold cleanedUp in *. rewrite Hthreads1, in_threads_cleaned.
    exact Hm. }
  split; [apply cleanupWelcomeMessages_closed; assumption|].
  split.
  { intros m Hm Hin. rewrite Hmessages1 in Hm. apply filter_In in Hm.
    destruct Hm as [_ Hm]. apply negb_true_iff in Hm.
    unfold cleanedUp in Hm. rewrite Hin, andb_true_r in Hm. exact Hm. }
  split.
  { intros m Hm Hnot. rewrite Hmessages1. apply filter_In.
    split; [exact Hm|]. unfold cleanedUp. rewrite Hnot. reflexivity. }
  split.
  { rewrite cleanupWelcomeMessages_closed.
    - do 2 eexists. split; [reflexivity|].
      cbn [CleanupResult.deleted_messages].
      rewrite (filter_nil (cleanedUp (threads db1)) (messages db1) Hclean).
      split; [reflexivity|].
      replace (messages (with_messages _ _))
        with (filter (fun m => negb (cleanedUp (threads db1) m))
                (messages db1))
        by (destruct db1; reflexivity).
      rewrite <- (filter_all (messages db1)) at 2.
      apply filter_ext_in. intros m Hm. rewrite (Hclean m Hm). reflexivity.
    - unfold unique_ids in *. cbn [rows threadsT id_of] in *.
      rewrite Hthreads1, map_map.
      erewrite map_ext; [exact Hthreads|]. intro t. apply cleanTitle_id.
    - unfold unique_ids in *. cbn [rows messagesT id_of] in *.
      rewrite Hmessages1. apply selection_unique. exact Hmessages. }
  intros name Hplain. split.
  - unfold welcomeTitle. apply andb_true_iff.
    split; [apply prefix_of_append|].
    apply endsWith_more. apply endsWith_more. reflexivity.
  - unfold projectNameOf. rewrite replaceFirst_at_start.
    apply replaceFirst_plain. exact Hplain.
Qed.

Lemma cleanupWelcomeMessages_cleans_witness :
  exists db1,
    cleanupWelcomeMessages
      (with_threads [thread_with_title "¡Bienvenido a Agua!" Sample.thread2]
         Sample.db_thread)
    = Ok (CleanupResult.mk true 1 0) db1 /\
    map Thread.title (threads db1) = ["Agua"].
Proof.
  assert (Ht : unique_ids threadsT
                 (with_threads
                    [thread_with_title "¡Bienvenido a Agua!" Sample.thread2]
                    Sample.db_thread)).
  { repeat constructor; cbn; intuition discriminate. }
  assert (Hm : unique_ids messagesT
                 (with_threads
                    [thread_with_title "¡Bienvenido a Agua!" Sample.thread2]
                    Sample.db_thread)).
  { repeat constructor; cbn; intuition discriminate. }
  eexists. split.
  - apply (proj1 (cleanupWelcomeMessages_cleans _ Ht Hm)).
  - reflexivity.
Defined.

(** ** A deleted message afterwards *)

Lemma getThreadMessages_all (thread_id : Id) (include_private : option bool)
    (db : DB) :
  getThreadMessages thread_id include_private None db =
  filter (visible include_private)
    (filter (message_of_thread thread_id) (messages db)).
Proof.
  unfold getThreadMessages, visible.
  destruct (is_true_opt include_private); cbn [orb].
  - rewrite rev_involutive, filter_all. reflexivity.
  - rewrite <- (rev_filter_rev _ (rev _)), rev_involutive, rev_involutive.
    reflexivity.
Qed.

Lemma filter_map_same {A} (keep : A -> bool) (g : A -> A) (l : list A) :
  (forall x, keep (g x) = keep x) ->
  filter keep (map g l) = map g (filter keep l).
Proof.
  intro Hsame. induction l as [|a l IH]; [reflexivity|].
  cbn [map filter]. rewrite Hsame.
  destruct (keep a); cbn [map]; rewrite IH; reflexivity.
Qed.

(** X30.  A message its author has deleted is still a row of its thread:
    [getThreadMessages] lists as many messages as before, the marker in the
    place of the deleted one, and [editMessage] by the author, which does
    not look for the marker, gives the message a content again. *)
Theorem deleted_message_stays (now now' : string) (message_id : Id)
    (new_content : string) (include_private : option bool) (db : DB)
    (m : Message.t) (th : Thread.t)
    (Hm : find (has_id messagesT message_id) (messages db) = Some m)
    (Hth : find (has_id threadsT (Message.thread_id m)) (threads db)
           = Some th) :
  exists db1,
    deleteMessage now message_id (Message.author m) db
      = Ok (Some message_id) db1 /\
    getThreadMessages (Message.thread_id m) include_private None db1
      = map (patching messagesT message_id (deletedMessage now))
          (getThreadMessages (Message.thread_id m) include_private None db) /\
    (visible include_private m = true ->
     In (deletedMessage now m)
        (getThreadMessages (Message.thread_id m) include_private None db1)) /\
    exists db2 m2,
      editMessage now' message_id new_content (Message.author m) db1
        = Ok (Some message_id) db2 /\
      find (has_id messagesT message_id) (messages db2) = Some m2 /\
      Message.content m2 = new_content /\
      Message.edited_at m2 = Some now'.
Proof.
  assert (Hdel : deleteMessage now message_id (Message.author m) db =
                 Ok (Some message_id)
                    (with_messages
                       (map (patching messagesT message_id
                               (deletedMessage now)) (messages db)) db)).
  { unfold deleteMessage. unfold bind at 1. unfold db_get, gets.
    change (rows messagesT db) with (messages db). rewrite Hm.
    replace (negb (Role_eqb (Message.author m) (Message.author m)))
      with false by (destruct (Message.author m); reflexivity).
    cbn [andb]. unfold bind.
    rewrite db_patch_ok by (apply (find_in_id messagesT _ _ _ Hm)).
    reflexivity. }
  set (db1 := with_messages _ db) in Hdel.
  assert (Hmessages1 : messages db1 =
                       map (patching messagesT message_id
                              (deletedMessage now)) (messages db))
    by (subst db1; destruct db; reflexivity).
  assert (Hthreads1 : threads db1 = threads db)
    by (subst db1; destruct db; reflexivity).
  assert (Hfind1 : find (has_id messagesT message_id) (messages db1)
                   = Some (deletedMessage now m)).
  { rewrite Hmessages1.
    apply (find_patching messagesT); [reflexivity | exact Hm]. }
  assert (Hlist : getThreadMessages (Message.thread_id m) include_private
                    None db1
                  = map (patching messagesT message_id (deletedMessage now))
                      (getThreadMessages (Message.thread_id m)
                         include_private None db)).
  { rewrite !getThreadMessages_all, Hmessages1.
    rewrite !filter_map_same; [reflexivity| |];
      intro x; unfold patching;
      destruct (has_id messagesT message_id x); reflexivity. }
  exists db1. split; [exact Hdel|]. split; [exact Hlist|].
  split.
  { intro Hvisible. rewrite Hlist.
    assert (Hin : In m (getThreadMessages (Message.thread_id m)
                          include_private None db)).
    { rewrite getThreadMessages_all. apply filter_In.
      split; [|exact Hvisible]. apply filter_In.
      split; [apply (find_some _ _ Hm)|].
      unfold message_of_thread. apply Nat.eqb_refl. }
    apply in_map_iff. exists m. split; [|exact Hin].
    unfold patching.
    replace (has_id messagesT message_id m) with true; [reflexivity|].
    symmetry. apply (find_some _ _ Hm). }
  unfold editMessage. unfold bind at 1. unfold db_get, gets.
  change (rows messagesT db1) with (messages db1). rewrite Hfind1.
  replace (negb (Role_eqb (Message.author (deletedMessage now m))
                   (Message.author m)))
    with false by (cbn; destruct (Message.author m); reflexivity).
  unfold bind at 1.
  rewrite db_patch_ok by (apply (find_in_id messagesT _ _ _ Hfind1)).
  set (db1' := set_rows messagesT _ db1).
  assert (Hth1 : find (has_id threadsT (Message.thread_id m))
                   (rows threadsT db1') = Some th).
  { subst db1'. replace (rows threadsT (set_rows messagesT _ db1))
      with (threads db1) by (destruct db1; reflexivity).
    rewrite Hthreads1. exact Hth. }
  unfold bind.
  change (Message.thread_id (deletedMessage now m))
    with (Message.thread_id m).
  rewrite db_patch_ok by (apply (find_in_id threadsT _ _ _ Hth1)).
  unfold ret. do 2 eexists. split; [reflexivity|].
  split.
  { replace (messages (set_rows threadsT _ db1'))
      with (map (patching messagesT message_id
                   (Message.set_edit new_content true now'))
              (messages db1))
      by (subst db1'; destruct db1; reflexivity).
    apply (find_patching messagesT); [reflexivity | exact Hfind1]. }
  split; reflexivity.
Qed.

Lemma deleted_message_stays_witness :
  exists db1 db2 m2,
    deleteMessage "t1" 3 client Sample.db_thread = Ok (Some 3) db1 /\
    editMessage "t2" 3 "Hola de nuevo" client db1 = Ok (Some 3) db2 /\
    find (has_id messagesT 3) (messages db2) = Some m2 /\
    Message.content m2 = "Hola de nuevo".
Proof.
  destruct (deleted_message_stays "t1" "t2" 3 "Hola de nuevo" None
              Sample.db_thread Sample.message3 Sample.thread2
              eq_refl eq_refl)
    as (db1 & Hdel & _ & _ & db2 & m2 & Hedit & Hfind & Hcontent & _).
  exists db1, db2, m2. repeat split; assumption.
Defined.
